(** * CoinGuard: risk scoring and watch-rule evaluation

    A shallow embedding of the risk-scoring function of
    [services/geminiService.ts] and of the watch-rule evaluator of
    [services/watchService.ts], with the data types of [types.ts].

    Conventions of the embedding.
    - A JavaScript [number] is a rational ([Q]): arithmetic is exact, and
      the values NaN and +/-Infinity are not numbers of the model.  The only
      operation of the scoring code that can leave the finite numbers is
      division, which is therefore fallible ([jsdiv]).
    - The equality test of [compareValues] compares a difference with the
      bound 0.01, and what it does at the bound is a matter of rounding.
      Its subtraction is therefore the subtraction of doubles
      ([JsDouble.sub]): the exact difference of the operands rounded to the
      nearest double, or an infinity.
    - [Math.round] returns an integer ([Z]).
    - A field that the code tests for [undefined]/[null] is an [option].
    - Strings that the code switches on (condition types, operators, risk
      levels) stay strings, so the [default] branches are reachable.
    - A timestamp is the number of milliseconds since the epoch ([Z]). *)

From Stdlib Require Import QArith Qround Qabs Qminmax Lqa ZArith Lia.
From Stdlib Require Import String List.
From stdpp Require Import base option list gmap strings.

Local Open Scope Q_scope.

(** ** JavaScript numbers *)

Module Js.

(** [a < b] on numbers, as a boolean. *)
Definition ltb (a b : Q) : bool := negb (Qle_bool b a).
(** [a <= b], [a > b], [a >= b], [a === b]. *)
Definition leb (a b : Q) : bool := Qle_bool a b.
Definition gtb (a b : Q) : bool := ltb b a.
Definition geb (a b : Q) : bool := leb b a.
Definition eqb (a b : Q) : bool := Qeq_bool a b.

(** [a / b].  JavaScript yields NaN or an infinity on a zero divisor;
    [None] stands for these results. *)
Definition jsdiv (a b : Q) : option Q :=
  if eqb b 0 then None else Some (a / b).

(** [Math.round]: the nearest integer, ties towards +Infinity. *)
Definition Math_round (x : Q) : Z := Qfloor (x + (1 # 2)).

(** [Math.min], [Math.abs]. *)
Definition Math_min (a b : Q) : Q := if leb a b then a else b.
Definition Math_abs (a : Q) : Q := if ltb a 0 then - a else a.

(** Whether an optional object is neither [undefined] nor [null]. *)
Definition is_Some_bool {A} (x : option A) : bool :=
  match x with Some _ => true | None => false end.

End Js.

(** ** Doubles

    A JavaScript number is an IEEE 754 double, and [a - b] is the double
    nearest to the exact difference of the doubles [a] and [b], a tie
    going to the double with the even significand. *)

Module JsDouble.

(** The finite doubles are the numbers [k * 2^e] with [|k| < 2^53] and
    [-1074 <= e <= 971].  [units] is the inverse of the smallest spacing,
    [2^-1074], so that every double is a whole number of units. *)
Definition units : Z := 2 ^ 1074.

(** The nearest integer, a tie going to the even one. *)
Definition roundHalfEven (q : Q) : Z :=
  let f := Qfloor q in
  if Js.ltb (q - inject_Z f) (1 # 2) then f
  else if Js.eqb (q - inject_Z f) (1 # 2) then (if Z.even f then f else f + 1)%Z
  else (f + 1)%Z.

(** The multiple of the spacing nearest to [y >= 0], both counted in units.
    A double has 53 significant bits: below [2^53] units the spacing is one
    unit, and above it is [2^g] units, [g] being the number of bits of [y]
    beyond 53. *)
Definition nearestUnits (y : Q) : Z :=
  let g := Z.max (Z.log2 (Qfloor y) - 52) 0 in
  (roundHalfEven (y / inject_Z (2 ^ g)) * 2 ^ g)%Z.

(** The double nearest to a number [x >= 0], in lowest terms; [None] is
    +Infinity, the result from [2^1024] on. *)
Definition nearest (x : Q) : option Q :=
  let n := nearestUnits (x * inject_Z units) in
  if (n <? 2 ^ 2098)%Z then Some (Qred (inject_Z n / inject_Z units)) else None.

(** The double nearest to a number; [None] is an infinity. *)
Definition round64 (q : Q) : option Q :=
  match nearest (Qabs q) with
  | Some d => Some (if Js.ltb q 0 then - d else d)
  | None => None
  end.

(** [a - b] on doubles. *)
Definition sub (a b : Q) : option Q := round64 (a - b).

(** The double a decimal literal denotes; a literal of the embedded code
    and of the examples is within the range of the doubles. *)
Definition literal (q : Q) : Q := default 0 (round64 q).

(** Whether a number is a finite double. *)
Definition isDouble (q : Q) : bool :=
  match round64 q with
  | Some d => Js.eqb d q
  | None => false
  end.

(** The literal [0.01]: the double [5764607523034235 * 2^-59], a little
    above 1/100. *)
Definition significand0_01 : Z := 5764607523034235.
Definition d0_01 : Q := significand0_01 # 2 ^ 59.

(** The midpoint between the double 0.01 and the double before it,
    [(significand0_01 - 1/2) * 2^-59], a little below 1/100: the double
    before 0.01 has an even significand, so the midpoint is rounded to
    it. *)
Definition tolerance : Q := 2 * significand0_01 - 1 # 2 ^ 60.

End JsDouble.

(** ** Data types ([types.ts]) *)

Module News.
Record t := mk {
  negativeCount : Q;
  totalCount : Q;
  riskTags : list string
}.
End News.

Module Social.
Record t := mk {
  negativeCount : Q;
  totalCount : Q
}.
End Social.

Module OnChain.
Record t := mk {
  netflowPercent : Q;
  activeAddressChange : Q
}.
End OnChain.

Record AnalysisStats := mkAnalysisStats {
  news : News.t;
  social : Social.t;
  onChain : OnChain.t
}.

(** [RiskLevel] and [MarketPhase] are unions of string literals. *)
Definition RiskLevel := string.
Definition MarketPhase := string.

(** [AIAnalysisResult].  [riskScore] and [riskLevel] are optional here
    because the rule evaluator tests them for absence; the two texts
    [actionGuide] and [analysisSummary] are left out. *)
Record AIAnalysisResult := mkAIAnalysisResult {
  marketPhase : MarketPhase;
  riskLevel : option RiskLevel;
  riskScore : option Q;
  stats : option AnalysisStats
}.

(** [CoinData], without the display fields price, volume and market cap. *)
Record CoinData := mkCoinData {
  symbol : string;
  name : string;
  change24h : option Q;
  analysis : option AIAnalysisResult
}.

(** A JavaScript value of type [number | string]. *)
Inductive NumOrStr :=
| VNum (n : Q)
| VStr (s : string).

Record WatchCondition := mkWatchCondition {
  type : string;
  operator : string;
  value : NumOrStr;
  riskTag : option string
}.

Record WatchRule := mkWatchRule {
  id : string;
  rule_name : string;
  enabled : bool;
  coinSymbols : option (list string);
  conditions : list WatchCondition;
  createdAt : Z;
  lastTriggered : option Z
}.

(** [WatchNotification], without the random [id] and the rendered
    [message]. *)
Record WatchNotification := mkWatchNotification {
  watchRuleId : string;
  watchRuleName : string;
  coinSymbol : string;
  coinName : string;
  triggeredAt : Z;
  read : bool
}.

(** ** Risk scoring ([services/geminiService.ts]) *)

Module GeminiService.

Local Open Scope string_scope.

Definition tagWeights : gmap string Q :=
  list_to_map
    [("hack", 40); ("exploit", 40); ("fraud", 35); ("market_crash", 30);
     ("exchange_issue", 25); ("regulation", 20); ("lawsuit", 20);
     ("technical", 15)].

(** [tagWeights[tag] || 10]: the default also replaces a weight of 0.
    Tags are tag names of the backend; the property names an object
    inherits (such as constructor) are not among them. *)
Definition tagWeight (tag : string) : Q :=
  match tagWeights !! tag with
  | Some w => if Js.eqb w 0 then 10 else w
  | None => 10
  end.

(** The [forEach] loop that keeps the largest weight seen. *)
Definition maxTagWeight (riskTags : list string) : Q :=
  fold_left (fun m tag => let w := tagWeight tag in if Js.gtb w m then w else m)
            riskTags 0.

Definition numberOfNat (n : nat) : Q := inject_Z (Z.of_nat n).

Definition newsNegRatio (stats : AnalysisStats) : option Q :=
  if Js.gtb (News.totalCount (news stats)) 0
  then Js.jsdiv (News.negativeCount (news stats)) (News.totalCount (news stats))
  else Some 0.

Definition negScore (stats : AnalysisStats) : option Q :=
  r ← newsNegRatio stats; Some (r * 60).

Definition riskTagStrength (stats : AnalysisStats) : Q :=
  let tags := News.riskTags (news stats) in
  Js.Math_min 40 (maxTagWeight tags * (1 + (numberOfNat (length tags) - 1) * (1 # 10))).

Definition newsScore (stats : AnalysisStats) : option Q :=
  s ← negScore stats;
  Some (s + (if Js.gtb (numberOfNat (length (News.riskTags (news stats)))) 0
             then riskTagStrength stats else 0)).

Definition socialNegRatio (stats : AnalysisStats) : option Q :=
  if Js.gtb (Social.totalCount (social stats)) 0
  then Js.jsdiv (Social.negativeCount (social stats)) (Social.totalCount (social stats))
  else Some 0.

Definition socialScore (stats : AnalysisStats) : option Q :=
  r ← socialNegRatio stats; Some (r * 100).

Definition nfScore (nf : Q) : Q :=
  if Js.geb nf 30 then 100
  else if Js.geb nf 20 then 80
  else if Js.geb nf 10 then 60
  else if Js.geb nf 0 then 40
  else if Js.geb nf (-10) then 30
  else if Js.geb nf (-20) then 20
  else 10.

Definition aaScore (aa : Q) : Q :=
  if Js.leb aa (-20) then 100
  else if Js.leb aa (-10) then 70
  else if Js.leb aa 0 then 50
  else if Js.leb aa 10 then 40
  else if Js.leb aa 20 then 30
  else 20.

Definition onChainScore (stats : AnalysisStats) : Q :=
  nfScore (OnChain.netflowPercent (onChain stats)) * (6 # 10)
  + aaScore (OnChain.activeAddressChange (onChain stats)) * (4 # 10).

Definition totalScore (stats : AnalysisStats) : option Q :=
  n ← newsScore stats;
  s ← socialScore stats;
  Some (n * (4 # 10) + s * (3 # 10) + onChainScore stats * (3 # 10)).

Definition levelOf (total : Q) : RiskLevel :=
  if Js.geb total 70 then "HIGH"
  else if Js.geb total 40 then "MEDIUM"
  else "LOW".

Record ScoreResult := mkScoreResult {
  score : Z;
  level : RiskLevel
}.

Definition calculateRiskScore (stats : AnalysisStats) : option ScoreResult :=
  t ← totalScore stats;
  Some {| score := Js.Math_round t; level := levelOf t |}.

(** *** [analyzeCoinSignal]

    The four upstream responses are arguments: each is [None] when its
    fetch failed (the [.catch] handlers return [null]).  The responses are
    well formed, so nothing is thrown; the summary text is not part of the
    result here. *)

Record SentimentStat := mkSentimentStat {
  sentiment : option string;
  count : Q;
  percentage : Q
}.

Record SentimentStatsResponse := mkSentimentStatsResponse {
  total : Q;
  sentiment_stats : list SentimentStat
}.

Record RiskScoreResponse := mkRiskScoreResponse {
  overall_risk_score : option Q;
  risk_level : option string
}.

Record PriceDataResponse := mkPriceDataResponse {
  price_usd : Q;
  volume_24h_usd : Q;
  volume_percentage : Q;
  total_market_volume_usd : Q
}.

Record OnChainMetric := mkOnChainMetric {
  m_volume_24h_usd : Q;
  m_volume_percentage : Q;
  m_total_market_volume_usd : Q;
  m_price_usd : Q;
  netflow : option Q;
  activeAddresses : option Q
}.

(** [convertToOnChainMetric] of [services/sentimentService.ts]. *)
Definition convertToOnChainMetric (currentData : PriceDataResponse) : OnChainMetric :=
  {| m_volume_24h_usd := volume_24h_usd currentData;
     m_volume_percentage := volume_percentage currentData;
     m_total_market_volume_usd := total_market_volume_usd currentData;
     m_price_usd := price_usd currentData;
     netflow := Some (volume_percentage currentData);
     activeAddresses := None |}.

(** [x || d] for an optional number [x]: [d] replaces [undefined] and 0. *)
Definition orNumber (x : option Q) (d : Q) : Q :=
  match x with
  | Some v => if Js.eqb v 0 then d else v
  | None => d
  end.

(** [r.stats.find(s => s.sentiment === 'negative')?.count || 0]. *)
Definition negativeCountOf (r : SentimentStatsResponse) : Q :=
  orNumber
    (count <$> List.find (fun s => match sentiment s with
                                   | Some x => x =? "negative"
                                   | None => false
                                   end) (sentiment_stats r))
    0.

Definition baseActiveAddresses : Q := 10000.

Definition onChainOf (coinMarketData : option PriceDataResponse) : OnChain.t :=
  match coinMarketData with
  | Some d =>
      let onChainMetric := convertToOnChainMetric d in
      let activeAddresses := orNumber (activeAddresses onChainMetric) baseActiveAddresses in
      {| OnChain.netflowPercent := orNumber (netflow onChainMetric) 0;
         OnChain.activeAddressChange :=
           if Js.eqb activeAddresses 0 then 0
           else ((activeAddresses - baseActiveAddresses) / baseActiveAddresses) * 100 |}
  | None => {| OnChain.netflowPercent := 0; OnChain.activeAddressChange := 0 |}
  end.

Definition statsOf (newsStats socialStats : option SentimentStatsResponse)
    (coinMarketData : option PriceDataResponse) : AnalysisStats :=
  {| news := match newsStats with
             | Some n => {| News.negativeCount := negativeCountOf n;
                            News.totalCount := total n;
                            News.riskTags := [] |}
             | None => {| News.negativeCount := 0; News.totalCount := 0;
                          News.riskTags := [] |}
             end;
     social := match socialStats with
               | Some s => {| Social.negativeCount := negativeCountOf s;
                              Social.totalCount := total s |}
               | None => {| Social.negativeCount := 0; Social.totalCount := 0 |}
               end;
     onChain := onChainOf coinMarketData |}.

(** The pair [(overallScore, riskLevel)]; both stay [null] without a
    backend score. *)
Definition backendRisk (riskData : option RiskScoreResponse) : option Q * option RiskLevel :=
  match riskData with
  | Some r =>
      match overall_risk_score r with
      | Some overallScore =>
          (Some overallScore,
           match risk_level r with
           | Some l => if l =? "" then Some (levelOf overallScore) else Some l
           | None => Some (levelOf overallScore)
           end)
      | None => (None, None)
      end
  | None => (None, None)
  end.

Definition marketPhaseOf (change24h : option Q) : MarketPhase :=
  match change24h with
  | Some c =>
      if Js.gtb c 5 then "RISING"
      else if Js.ltb c (-5) then "PLUMMETING"
      else if Js.gtb c 2 then "ACCUMULATION"
      else if Js.ltb c (-2) then "CORRECTION"
      else "STABLE"
  | None => "STABLE"
  end.

Definition analyzeCoinSignal (coin : CoinData)
    (newsStats socialStats : option SentimentStatsResponse)
    (riskData : option RiskScoreResponse)
    (coinMarketData : option PriceDataResponse) : option AIAnalysisResult :=
  let hasRequiredData := Js.is_Some_bool newsStats || Js.is_Some_bool socialStats in
  if negb hasRequiredData then None
  else
    let stats := statsOf newsStats socialStats coinMarketData in
    let '(overallScore, riskLevel) := backendRisk riskData in
    Some {| marketPhase := marketPhaseOf (change24h coin);
            riskLevel := Some (default "LOW" riskLevel);
            riskScore := Some (default (-1) overallScore);
            stats := Some stats |}.

End GeminiService.


(** ** Watch rules ([services/watchService.ts]) *)

Module WatchService.

Local Open Scope string_scope.

(** The two [localStorage] entries, read back as they were written
    (an absent entry reads as the empty list), and the notifications handed
    to the in-app callback, oldest first. *)
Record World := mkWorld {
  watch_rules : list WatchRule;
  watch_notifications : list WatchNotification;
  inApp : list WatchNotification
}.

Definition loadWatchRules (w : World) : list WatchRule := watch_rules w.

Definition saveWatchRules (rules : list WatchRule) (w : World) : World :=
  {| watch_rules := rules;
     watch_notifications := watch_notifications w;
     inApp := inApp w |}.

(** [Partial<WatchRule>]: the fields an update carries. *)
Record PartialWatchRule := mkPartialWatchRule {
  p_id : option string;
  p_name : option string;
  p_enabled : option bool;
  p_coinSymbols : option (option (list string));
  p_conditions : option (list WatchCondition);
  p_createdAt : option Z;
  p_lastTriggered : option Z
}.

(** [{ ...rule, ...updates }]. *)
Definition merge (rule : WatchRule) (updates : PartialWatchRule) : WatchRule :=
  {| id := default (id rule) (p_id updates);
     rule_name := default (rule_name rule) (p_name updates);
     enabled := default (enabled rule) (p_enabled updates);
     coinSymbols := default (coinSymbols rule) (p_coinSymbols updates);
     conditions := default (conditions rule) (p_conditions updates);
     createdAt := default (createdAt rule) (p_createdAt updates);
     lastTriggered := match p_lastTriggered updates with
                      | Some t => Some t
                      | None => lastTriggered rule
                      end |}.

Definition updateWatchRule (i : string) (updates : PartialWatchRule) (w : World) : World :=
  let rules := loadWatchRules w in
  match list_find (fun r => id r = i) rules with
  | Some (index, r) => saveWatchRules (<[index := merge r updates]> rules) w
  | None => w
  end.

(** [!s] is false exactly for a non-empty string. *)
Definition truthy (s : option string) : bool :=
  match s with
  | Some x => negb (x =? "")
  | None => false
  end.

Definition includes (l : list string) (x : string) : bool :=
  existsb (fun y => y =? x) l.

(** The order comparisons of doubles are exact.  [Math.abs(actual - target)
    < 0.01] subtracts doubles and compares with the double 0.01; an
    infinite difference is not below it. *)
Definition compareValues (actual : Q) (operator : string) (target : Q) : bool :=
  if operator =? ">" then Js.gtb actual target
  else if operator =? "<" then Js.ltb actual target
  else if operator =? ">=" then Js.geb actual target
  else if operator =? "<=" then Js.leb actual target
  else if operator =? "==" then
    match JsDouble.sub actual target with
    | Some difference => Js.ltb (Js.Math_abs difference) JsDouble.d0_01
    | None => false
    end
  else false.

Definition getRiskLevelValue (level : string) : Q :=
  if level =? "LOW" then 1
  else if level =? "MEDIUM" then 2
  else if level =? "HIGH" then 3
  else if level =? "EXTREME" then 4
  else 0.

Section Evaluator.

(** The conversion JavaScript applies to a string operand of [>], [<],
    [>=], [<=] and [-]; [None] is NaN (a string that denotes an infinity
    is not considered). *)
Variable ToNumber : string -> option Q.

(** [compareValues(actual, operator, condition.value as number)]: the cast
    does nothing at run time, so a string threshold is converted by the
    operator; every comparison with NaN is false. *)
Definition compareWithValue (actual : Q) (operator : string) (v : NumOrStr) : bool :=
  match v with
  | VNum target => compareValues actual operator target
  | VStr s =>
      match ToNumber s with
      | Some target => compareValues actual operator target
      | None => false
      end
  end.

(** [getRiskLevelValue(condition.value as string)]: the [switch] compares
    with [===], so a number takes the [default] branch. *)
Definition getRiskLevelValueOf (v : NumOrStr) : Q :=
  match v with
  | VStr s => getRiskLevelValue s
  | VNum _ => 0
  end.

(** The guards [!stats.news.riskTags] and [!stats.onChain] test fields that
    [AnalysisStats] always has; the division of the [social_negative] case
    is only reached with a divisor other than 0. *)
Definition checkCondition (condition : WatchCondition) (coin : CoinData) : bool :=
  match analysis coin with
  | None => false
  | Some analysis =>
  match stats analysis with
  | None => false
  | Some stats =>
    let t := type condition in
    if t =? "news_risk_tag" then
      if negb (truthy (riskTag condition)) then false
      else if Nat.eqb (length (News.riskTags (news stats))) 0 then false
      else includes (News.riskTags (news stats)) (default "" (riskTag condition))
    else if t =? "social_negative" then
      if Js.eqb (Social.totalCount (social stats)) 0 then false
      else
        let socialNegativePercent :=
          (Social.negativeCount (social stats) / Social.totalCount (social stats)) * 100 in
        compareWithValue socialNegativePercent (operator condition) (value condition)
    else if t =? "onchain_netflow" then
      compareWithValue (OnChain.netflowPercent (onChain stats))
                       (operator condition) (value condition)
    else if t =? "onchain_active_address" then
      compareWithValue (OnChain.activeAddressChange (onChain stats))
                       (operator condition) (value condition)
    else if t =? "price_change" then
      match change24h coin with
      | None => false
      | Some change24h =>
          compareWithValue change24h (operator condition) (value condition)
      end
    else if t =? "risk_score" then
      match riskScore analysis with
      | None => false
      | Some riskScore =>
          if Js.eqb riskScore (-1) then false
          else compareWithValue riskScore (operator condition) (value condition)
      end
    else if t =? "risk_level" then
      match riskLevel analysis with
      | None => false
      | Some riskLevel =>
          if negb (truthy (Some riskLevel))
             || (riskLevel =? "LOW")
                && match riskScore analysis with
                   | Some s => Js.eqb s (-1)
                   | None => false
                   end
          then false
          else
            let riskLevelValue := getRiskLevelValue riskLevel in
            let targetValue := getRiskLevelValueOf (value condition) in
            compareValues riskLevelValue (operator condition) targetValue
      end
    else false
  end
  end.

Definition checkWatchConditions (rule : WatchRule) (coin : CoinData) : bool :=
  if negb (enabled rule) then false
  else if match coinSymbols rule with
          | Some l => Nat.ltb 0 (length l) && negb (includes l (symbol coin))
          | None => false
          end
  then false
  else if Nat.eqb (length (conditions rule)) 0 then false
  else forallb (fun condition => checkCondition condition coin) (conditions rule).

Definition saveNotification (notification : WatchNotification) (w : World) : World :=
  {| watch_rules := watch_rules w;
     watch_notifications := firstn 100 (notification :: watch_notifications w);
     inApp := inApp w |}.

Definition onInAppNotification (notification : WatchNotification) (w : World) : World :=
  {| watch_rules := watch_rules w;
     watch_notifications := watch_notifications w;
     inApp := inApp w ++ [notification] |}.

Definition newNotification (now : Z) (rule : WatchRule) (coin : CoinData) : WatchNotification :=
  {| watchRuleId := id rule;
     watchRuleName := rule_name rule;
     coinSymbol := symbol coin;
     coinName := name coin;
     triggeredAt := now;
     read := false |}.

Definition lastTriggeredUpdate (now : Z) : PartialWatchRule :=
  {| p_id := None; p_name := None; p_enabled := None; p_coinSymbols := None;
     p_conditions := None; p_createdAt := None; p_lastTriggered := Some now |}.

(** The browser notification is an output only and is not part of the
    state. *)
Definition triggerNotification (now : Z) (rule : WatchRule) (coin : CoinData)
    (w : World) : World :=
  let notification := newNotification now rule coin in
  let w := saveNotification notification w in
  let w := onInAppNotification notification w in
  updateWatchRule (id rule) (lastTriggeredUpdate now) w.

(** Whether the de-duplication test lets the rule fire at [now]. *)
Definition cooledDown (now : Z) (rule : WatchRule) : bool :=
  match lastTriggered rule with
  | Some lastTriggered =>
      let diffMinutes := inject_Z (now - lastTriggered) / (1000 * 60) in
      negb (Js.ltb diffMinutes 1)
  | None => true
  end.

(** The body of the inner loop, for one rule of the loaded list and one
    coin. *)
Definition checkPair (now : Z) (rule : WatchRule) (coin : CoinData) (w : World) : World :=
  if checkWatchConditions rule coin then
    if cooledDown now rule then triggerNotification now rule coin w
    else w
  else w.

(** One synchronous call, reading the clock as [now].  The rules are loaded
    once; the loops work on that loaded list while [triggerNotification]
    writes to the store. *)
Definition checkAllWatchRules (now : Z) (coins : list CoinData) (w : World) : World :=
  let rules := loadWatchRules w in
  let enabledRules := List.filter (fun r => enabled r) rules in
  fold_left
    (fun w rule => fold_left (fun w coin => checkPair now rule coin w) coins w)
    enabledRules w.

End Evaluator.

End WatchService.

(** ** Vocabulary and sample data for the properties *)

Module GeminiSpec.
Import GeminiService.

Local Open Scope string_scope.

Definition specExample : AnalysisStats :=
  {| news := News.mk 40 100 ["hack"];
     social := Social.mk 10 50;
     onChain := OnChain.mk 25 (-25) |}.

(** The counts of a category are well formed: non-negative, and the
    negative ones are part of the total. *)
Definition countsOk (negativeCount totalCount : Q) : Prop :=
  0 <= negativeCount /\ negativeCount <= totalCount.

Definition zeroCounts : AnalysisStats :=
  {| news := News.mk 0 0 ["hack"; "fraud"];
     social := Social.mk 0 0;
     onChain := OnChain.mk 0 0 |}.

(** The assessment carries a score other than the sentinel -1. *)
Definition numericScore (a : AIAnalysisResult) (q : Q) : Prop :=
  riskScore a = Some q /\ ~ q == -1.

Definition btc : CoinData :=
  {| symbol := "BTC"; name := "Bitcoin"; change24h := Some (72 # 10); analysis := None |}.

Definition newsOnly : SentimentStatsResponse :=
  {| total := 10;
     sentiment_stats := [ {| sentiment := Some "negative"; count := 4; percentage := 40 |};
                          {| sentiment := Some "positive"; count := 6; percentage := 60 |} ] |}.

Definition backend55 : RiskScoreResponse :=
  {| overall_risk_score := Some 55; risk_level := None |}.

(** A backend response that reports the score -1 together with a level. *)
Definition backendMinus1High : RiskScoreResponse :=
  {| overall_risk_score := Some (-1); risk_level := Some "HIGH" |}.

Definition socialOnly : SentimentStatsResponse :=
  {| total := 8;
     sentiment_stats := [ {| sentiment := Some "negative"; count := 2; percentage := 25 |};
                          {| sentiment := Some "neutral"; count := 6; percentage := 75 |} ] |}.

End GeminiSpec.

Module WatchSpec.
Import WatchService.

Local Open Scope string_scope.

(** The asset has no completed assessment: no analysis, or one without
    statistics. *)
Definition noAssessment (coin : CoinData) : Prop :=
  match analysis coin with
  | None => True
  | Some a => stats a = None
  end.

(** The score of the assessment is the sentinel -1, or is missing. *)
Definition unavailableScore (a : AIAnalysisResult) : Prop :=
  match riskScore a with
  | Some s => s == -1
  | None => True
  end.

(** The rule with another asset scope. *)
Definition withScope (rule : WatchRule) (scope : option (list string)) : WatchRule :=
  {| id := id rule; rule_name := rule_name rule; enabled := enabled rule;
     coinSymbols := scope; conditions := conditions rule;
     createdAt := createdAt rule; lastTriggered := lastTriggered rule |}.

Definition someStats : AnalysisStats :=
  {| news := News.mk 1 4 ["hack"]; social := Social.mk 3 4; onChain := OnChain.mk 25 (-25) |}.

Definition priceAbove5 : WatchCondition :=
  {| type := "price_change"; operator := ">"; value := VNum 5; riskTag := None |}.

Definition eth (a : option AIAnalysisResult) : CoinData :=
  {| symbol := "ETH"; name := "Ethereum"; change24h := Some (72 # 10); analysis := a |}.

Definition ruleOf (scope : option (list string)) (conds : list WatchCondition) : WatchRule :=
  {| id := "watch_1"; rule_name := "alert"; enabled := true; coinSymbols := scope;
     conditions := conds; createdAt := 0%Z; lastTriggered := None |}.

(** An assessment with the sentinel score and the level HIGH, and a
    condition on the level. *)
Definition sentinelHigh : AIAnalysisResult :=
  {| marketPhase := "STABLE"; riskLevel := Some "HIGH"; riskScore := Some (-1);
     stats := Some someStats |}.

Definition levelAtLeastHigh : WatchCondition :=
  {| type := "risk_level"; operator := ">="; value := VStr "HIGH"; riskTag := None |}.

(** What [updateWatchRule i (lastTriggeredUpdate now)] does to the stored
    list. *)
Definition touch (i : string) (now : Z) (rules : list WatchRule) : list WatchRule :=
  match list_find (fun r => id r = i) rules with
  | Some (index, r) => <[index := merge r (lastTriggeredUpdate now)]> rules
  | None => rules
  end.

(** The rule without its trigger time. *)
Definition erase (r : WatchRule) : WatchRule :=
  {| id := id r; rule_name := rule_name r; enabled := enabled r;
     coinSymbols := coinSymbols r; conditions := conditions r;
     createdAt := createdAt r; lastTriggered := None |}.

(** The rule/asset pair a notification is about. *)
Definition pairOf (n : WatchNotification) : string * string :=
  (watchRuleId n, coinSymbol n).

(** Every stored rule with the id [i] was last triggered at [t]. *)
Definition lastTriggeredIs (i : string) (t : Z) (rules : list WatchRule) : Prop :=
  Forall (fun r => id r = i -> lastTriggered r = Some t) rules.

Section Calls.

Variable ToNumber : string -> option Q.

(** The pair passes both tests of the loop body at [now]. *)
Definition fires (now : Z) (rule : WatchRule) (coin : CoinData) : bool :=
  checkWatchConditions ToNumber rule coin && cooledDown now rule.

(** The notifications one call hands to the in-app callback. *)
Definition emitted (now : Z) (coins : list CoinData) (w : World) : list WatchNotification :=
  drop (length (inApp w)) (inApp (checkAllWatchRules ToNumber now coins w)).

(** Successive calls, each with its clock reading and its coins. *)
Definition runCalls (calls : list (Z * list CoinData)) (w : World) : World :=
  fold_left (fun w call => checkAllWatchRules ToNumber (fst call) (snd call) w) calls w.

(** The inner and the outer loop of [checkAllWatchRules]. *)
Definition perRule (now : Z) (coins : list CoinData) (rule : WatchRule) (w : World) : World :=
  fold_left (fun w coin => WatchService.checkPair ToNumber now rule coin w) coins w.

Definition perRules (now : Z) (coins : list CoinData) (rs : list WatchRule) (w : World) : World :=
  fold_left (fun w rule => perRule now coins rule w) rs w.

End Calls.

(** A conversion under which no string is a number. *)
Definition noNumber : string -> option Q := fun _ => None.

(** Sample data: assessments, conditions and a store with one rule. *)
Definition mediumRisk : AIAnalysisResult :=
  {| marketPhase := "RISING"; riskLevel := Some "MEDIUM"; riskScore := Some 58;
     stats := Some someStats |}.

Definition unavailableLow : AIAnalysisResult :=
  {| marketPhase := "STABLE"; riskLevel := Some "LOW"; riskScore := Some (-1);
     stats := Some someStats |}.

Definition scoreAbove50 : WatchCondition :=
  {| type := "risk_score"; operator := ">"; value := VNum 50; riskTag := None |}.

Definition levelIsLow : WatchCondition :=
  {| type := "risk_level"; operator := "=="; value := VStr "LOW"; riskTag := None |}.

Definition sol (change : Q) : CoinData :=
  {| symbol := "SOL"; name := "Solana"; change24h := Some change;
     analysis := Some mediumRisk |}.

Definition oneRule : World :=
  {| watch_rules := [ruleOf None [priceAbove5]];
     watch_notifications := [];
     inApp := [] |}.

Definition market : list CoinData := [eth (Some mediumRisk); sol 3].

(** The doubles of the literals [5.01], [-0.0038] and [-0.0138]. *)
Definition double5_01 : Q := JsDouble.literal (501 # 100).
Definition doubleMinus0_0038 : Q := JsDouble.literal (- (38 # 10000)).
Definition doubleMinus0_0138 : Q := JsDouble.literal (- (138 # 10000)).

End WatchSpec.

(** ** Vocabulary for further properties of the scoring function *)

Module ScoringSpec.

Local Open Scope string_scope.

(** The snapshot with other negative counts, other tags, other on-chain
    figures. *)
Definition withNegatives (stats : AnalysisStats) (newsNegative socialNegative : Q) : AnalysisStats :=
  {| news := {| News.negativeCount := newsNegative;
                News.totalCount := News.totalCount (news stats);
                News.riskTags := News.riskTags (news stats) |};
     social := {| Social.negativeCount := socialNegative;
                  Social.totalCount := Social.totalCount (social stats) |};
     onChain := onChain stats |}.

Definition withTags (stats : AnalysisStats) (tags : list string) : AnalysisStats :=
  {| news := {| News.negativeCount := News.negativeCount (news stats);
                News.totalCount := News.totalCount (news stats);
                News.riskTags := tags |};
     social := social stats;
     onChain := onChain stats |}.

Definition withOnChain (stats : AnalysisStats) (netflow activeAddress : Q) : AnalysisStats :=
  {| news := news stats;
     social := social stats;
     onChain := {| OnChain.netflowPercent := netflow;
                   OnChain.activeAddressChange := activeAddress |} |}.

(** The second snapshot scores at least as high as the first, and its
    level is at least as severe. *)
Definition neverLower (stats stats' : AnalysisStats) : Prop :=
  exists r r',
    GeminiService.calculateRiskScore stats = Some r /\
    GeminiService.calculateRiskScore stats' = Some r' /\
    (GeminiService.score r <= GeminiService.score r')%Z /\
    (GeminiService.level r = "HIGH" -> GeminiService.level r' = "HIGH") /\
    (GeminiService.level r' = "LOW" -> GeminiService.level r = "LOW").

(** A snapshot whose total is 69.7. *)
Definition justBelowHigh : AnalysisStats :=
  {| news := News.mk 1 1 ["hack"];
     social := Social.mk 11 20;
     onChain := OnChain.mk 0 0 |}.

End ScoringSpec.

(** ** The rest of the rule store ([services/watchService.ts]) *)

Module WatchStore.
Import WatchService.

Local Open Scope string_scope.

(** [addWatchRule].  The generated id (built from [Date.now()] and
    [Math.random()]) and the creation time are arguments; the fields [id]
    and [createdAt] of [rule], which its type omits, are not read. *)
Definition addWatchRule (newId : string) (now : Z) (rule : WatchRule) (w : World)
    : World * WatchRule :=
  let rules := loadWatchRules w in
  let newRule :=
    {| id := newId; rule_name := rule_name rule; enabled := enabled rule;
       coinSymbols := coinSymbols rule; conditions := conditions rule;
       createdAt := now; lastTriggered := lastTriggered rule |} in
  (saveWatchRules (rules ++ [newRule]) w, newRule).

Definition deleteWatchRule (i : string) (w : World) : World :=
  let rules := loadWatchRules w in
  let filtered := List.filter (fun r => negb (id r =? i)) rules in
  saveWatchRules filtered w.

(** The updates the settings dialog sends. *)
Definition noUpdate : PartialWatchRule :=
  {| p_id := None; p_name := None; p_enabled := None; p_coinSymbols := None;
     p_conditions := None; p_createdAt := None; p_lastTriggered := None |}.

Definition enabledUpdate (b : bool) : PartialWatchRule :=
  {| p_id := None; p_name := None; p_enabled := Some b; p_coinSymbols := None;
     p_conditions := None; p_createdAt := None; p_lastTriggered := None |}.

(** What [updateWatchRule i updates] does to the stored list. *)
Definition updateRules (i : string) (updates : PartialWatchRule) (rules : list WatchRule)
    : list WatchRule :=
  match list_find (fun r => id r = i) rules with
  | Some (index, r) => <[index := merge r updates]> rules
  | None => rules
  end.

(** The asset is in the scope of the rule. *)
Definition inScope (rule : WatchRule) (coin : CoinData) : Prop :=
  match coinSymbols rule with
  | None => True
  | Some [] => True
  | Some l => In (symbol coin) l
  end.

(** The condition types and the operators the evaluator knows. *)
Definition knownTypes : list string :=
  ["news_risk_tag"; "social_negative"; "onchain_netflow"; "onchain_active_address";
   "price_change"; "risk_score"; "risk_level"].

Definition knownOperators : list string := [">"; "<"; ">="; "<="; "=="].

Definition oddOperator : WatchCondition :=
  {| type := "price_change"; operator := "!="; value := VNum 5; riskTag := None |}.

(** The rule is enabled and fires on one of the coins at [now]. *)
Definition notified (ToNumber : string -> option Q) (now : Z) (coins : list CoinData)
    (rule : WatchRule) : bool :=
  enabled rule && existsb (WatchSpec.fires ToNumber now rule) coins.

End WatchStore.

(** ** The callers in [App.tsx] *)

Module App.
Import WatchService.

(** The responses fetched for one coin. *)
Record Responses := mkResponses {
  newsStats : option GeminiService.SentimentStatsResponse;
  socialStats : option GeminiService.SentimentStatsResponse;
  riskData : option GeminiService.RiskScoreResponse;
  coinMarketData : option GeminiService.PriceDataResponse
}.

(** [{ ...coin, analysis }]; a failed analysis leaves [analysis] undefined. *)
Definition withAnalysis (coin : CoinData) (a : option AIAnalysisResult) : CoinData :=
  {| symbol := symbol coin; name := name coin; change24h := change24h coin;
     analysis := a |}.

(** [runAIAnalysis]: every coin gets the result of [analyzeCoinSignal] on
    its responses. *)
Definition runAIAnalysis (currentCoins : list (CoinData * Responses)) : list CoinData :=
  map (fun '(coin, r) =>
         withAnalysis coin
           (GeminiService.analyzeCoinSignal coin (newsStats r) (socialStats r)
                                            (riskData r) (coinMarketData r)))
      currentCoins.

(** The state of the component that the watch effect touches: the store
    and the toasts on screen. *)
Record State := mkState {
  world : World;
  notifications : list WatchNotification
}.

(** [setNotifications(prev => [notification, ...prev.slice(0, 4)])]. *)
Definition pushNotification (notification : WatchNotification)
    (prev : list WatchNotification) : list WatchNotification :=
  notification :: take 4 prev.

Section Effect.

Variable ToNumber : string -> option Q.

(** The effect that runs when [coins] changes; the callback is applied to
    the notifications of the call in the order they are emitted. *)
Definition watchEffect (now : Z) (coins : list CoinData) (st : State) : State :=
  if Nat.ltb 0 (length coins)
     && forallb (fun coin => Js.is_Some_bool (analysis coin)) coins
  then {| world := checkAllWatchRules ToNumber now coins (world st);
          notifications :=
            fold_left (fun prev notification => pushNotification notification prev)
                      (WatchSpec.emitted ToNumber now coins (world st))
                      (notifications st) |}
  else st.

End Effect.

(** Sample data: one coin whose news and social responses both failed. *)
Definition noResponses : Responses :=
  {| newsStats := None; socialStats := None; riskData := None; coinMarketData := None |}.

Definition newsResponse : Responses :=
  {| newsStats := Some GeminiSpec.newsOnly; socialStats := None;
     riskData := Some GeminiSpec.backend55; coinMarketData := None |}.

Definition startState : State :=
  {| world := WatchSpec.oneRule; notifications := [] |}.

End App.

(** ** Sample data for the properties of the pipeline *)

Module PipelineSpec.
Import GeminiService GeminiSpec.

Local Open Scope string_scope.

(** What [analyzeCoinSignal] returns for [btc] with news only, with and
    without the backend score. *)
Definition analysedNews : AIAnalysisResult :=
  {| marketPhase := "RISING"; riskLevel := Some "MEDIUM"; riskScore := Some 55;
     stats := Some (statsOf (Some newsOnly) None None) |}.

Definition unscoredNews : AIAnalysisResult :=
  {| marketPhase := "RISING"; riskLevel := Some "LOW"; riskScore := Some (-1);
     stats := Some (statsOf (Some newsOnly) None None) |}.

Definition hackTag : WatchCondition :=
  {| type := "news_risk_tag"; operator := "=="; value := VStr ""; riskTag := Some "hack" |}.

Definition addressesUp : WatchCondition :=
  {| type := "onchain_active_address"; operator := ">"; value := VNum 0; riskTag := None |}.

Definition isExtreme : WatchCondition :=
  {| type := "risk_level"; operator := "=="; value := VStr "EXTREME"; riskTag := None |}.

Definition aboveNumber : WatchCondition :=
  {| type := "risk_level"; operator := ">"; value := VNum 3; riskTag := None |}.

End PipelineSpec.

(** ** More operations on numbers *)

Module JsMore.

(** [Math.max]. *)
Definition Math_max (a b : Q) : Q := if Js.leb a b then b else a.

End JsMore.

(** ** The summary ([services/gptAnalysisService.ts]) *)

Module GptAnalysisService.
Import JsMore.

Module Counts.
Record t := mk {
  total : Q;
  positive : Q;
  neutral : Q;
  negative : Q;
  negativePercent : Q
}.
End Counts.

Module Chain.
Record t := mk {
  netflowPercent : Q;
  activeAddressChange : Q;
  volumePercentage : option Q
}.
End Chain.

Module Risk.
Record t := mk {
  overall : Q;
  riskLevel : string;
  score1h : Q;
  score6h : Q;
  score24h : Q
}.
End Risk.

Record AnalysisData := mkAnalysisData {
  newsStats : Counts.t;
  socialStats : Counts.t;
  onChain : option Chain.t;
  riskScore : Risk.t;
  priceChange : Q;
  coinName : string;
  coinSymbol : string
}.

(** The direction words of the netflow messages: inflow when the netflow is
    positive, outflow otherwise. *)
Inductive Direction := Inflow | Outflow.

(** The texts [generateDefaultSummary] returns, one constructor for each
    [return] of the function in the order of the source, with the numbers
    the text interpolates (before [toFixed]). *)
Inductive Summary :=
| CrashWithSentiment (negativePercent drop : Q)
| CrashWithNetflow (drop netflow : Q) (direction : Direction)
| Crash (drop : Q)
| RallyWithNews (positive rise : Q)
| RallyWithOutflow (rise netflow : Q)
| Rally (rise : Q)
| DropWithSentiment (negativePercent drop : Q)
| Drop (drop : Q)
| Rise (rise : Q)
| HighNetflow (netflow : Q) (direction : Direction)
| ModerateNetflow (netflow : Q) (direction : Direction)
| AddressDrop (change : Q)
| AddressRise (change : Q)
| LowCalm (negativePercent : Q)
| LowQuiet (newsPercent socialPercent : Q)
| MediumSentiment (newsPercent socialPercent : Q)
| MediumMixed
| HighSentiment (newsPercent socialPercent : Q)
| HighCrashOrOnChain
| HighGeneric.

(** [data.onChain!.netflowPercent] and [data.onChain!.activeAddressChange]:
    read only where [data.onChain] is present. *)
Definition netflowOf (data : AnalysisData) : Q :=
  match onChain data with
  | Some o => Chain.netflowPercent o
  | None => 0
  end.

Definition activeAddressOf (data : AnalysisData) : Q :=
  match onChain data with
  | Some o => Chain.activeAddressChange o
  | None => 0
  end.

Definition directionOf (netflow : Q) : Direction :=
  if Js.gtb netflow 0 then Inflow else Outflow.

Local Open Scope string_scope.

(** [generateDefaultSummary].  The list [riskFactors] that the function
    fills is not read by it and is left out. *)
Definition generateDefaultSummary (data : AnalysisData) : Summary :=
  let riskLevel := Risk.riskLevel (riskScore data) in
  let negativeNewsPercent := Counts.negativePercent (newsStats data) in
  let negativeSocialPercent := Counts.negativePercent (socialStats data) in
  let hasLargePriceDrop := Js.ltb (priceChange data) (-5) in
  let hasLargePriceRise := Js.gtb (priceChange data) 5 in
  let hasModeratePriceDrop :=
    Js.ltb (priceChange data) (-2) && Js.geb (priceChange data) (-5) in
  let hasModeratePriceRise :=
    Js.gtb (priceChange data) 2 && Js.leb (priceChange data) 5 in
  let hasHighNetflow :=
    match onChain data with
    | Some o => Js.gtb (Js.Math_abs (Chain.netflowPercent o)) 20
    | None => false
    end in
  let hasModerateNetflow :=
    match onChain data with
    | Some o => Js.gtb (Js.Math_abs (Chain.netflowPercent o)) 10
                && Js.leb (Js.Math_abs (Chain.netflowPercent o)) 20
    | None => false
    end in
  let hasActiveAddressDrop :=
    match onChain data with
    | Some o => Js.ltb (Chain.activeAddressChange o) (-15)
    | None => false
    end in
  let hasActiveAddressRise :=
    match onChain data with
    | Some o => Js.gtb (Chain.activeAddressChange o) 15
    | None => false
    end in
  if hasLargePriceDrop then
    if Js.gtb negativeNewsPercent 30 || Js.gtb negativeSocialPercent 30 then
      CrashWithSentiment (Math_max negativeNewsPercent negativeSocialPercent)
                         (Js.Math_abs (priceChange data))
    else if hasHighNetflow then
      CrashWithNetflow (Js.Math_abs (priceChange data)) (Js.Math_abs (netflowOf data))
                       (directionOf (netflowOf data))
    else Crash (Js.Math_abs (priceChange data))
  else if hasLargePriceRise then
    if Js.gtb (Counts.positive (newsStats data)) (Counts.negative (newsStats data) * 2) then
      RallyWithNews (Counts.positive (newsStats data)) (priceChange data)
    else if hasHighNetflow && Js.ltb (netflowOf data) 0 then
      RallyWithOutflow (priceChange data) (Js.Math_abs (netflowOf data))
    else Rally (priceChange data)
  else if hasModeratePriceDrop then
    if Js.gtb negativeNewsPercent 20 || Js.gtb negativeSocialPercent 20 then
      DropWithSentiment (Math_max negativeNewsPercent negativeSocialPercent)
                        (Js.Math_abs (priceChange data))
    else Drop (Js.Math_abs (priceChange data))
  else if hasModeratePriceRise then Rise (priceChange data)
  else if hasHighNetflow then
    HighNetflow (Js.Math_abs (netflowOf data)) (directionOf (netflowOf data))
  else if hasModerateNetflow then
    ModerateNetflow (Js.Math_abs (netflowOf data)) (directionOf (netflowOf data))
  else if hasActiveAddressDrop then AddressDrop (Js.Math_abs (activeAddressOf data))
  else if hasActiveAddressRise then AddressRise (activeAddressOf data)
  else if riskLevel =? "LOW" then
    if Js.ltb negativeNewsPercent 10 && Js.ltb negativeSocialPercent 10 then
      LowCalm (Math_max negativeNewsPercent negativeSocialPercent)
    else LowQuiet negativeNewsPercent negativeSocialPercent
  else if riskLevel =? "MEDIUM" then
    if Js.gtb negativeNewsPercent 20 || Js.gtb negativeSocialPercent 20 then
      MediumSentiment negativeNewsPercent negativeSocialPercent
    else MediumMixed
  else
    if Js.gtb negativeNewsPercent 30 || Js.gtb negativeSocialPercent 30 then
      HighSentiment negativeNewsPercent negativeSocialPercent
    else if hasLargePriceDrop || hasHighNetflow then HighCrashOrOnChain
    else HighGeneric.

(** A JavaScript string, as its UTF-16 code units. *)
Definition JsString := list N.

Definition dots : JsString := [46%N; 46%N; 46%N].

(** What the call of the completion service came to: an exception (of
    [fetch], of [response.json()] or of reading the choices), or a response
    with its [ok] flag and the trimmed content of the first choice. *)
Inductive Reply :=
| Threw
| Answered (ok : bool) (content : option JsString).

Definition nonEmpty (s : option JsString) : bool :=
  match s with
  | Some (_ :: _) => true
  | _ => false
  end.

Section Summary.

(** The text of a summary. *)
Variable render : Summary -> JsString.

Definition generateComprehensiveAnalysis (apiKey : option JsString) (reply : Reply)
    (data : AnalysisData) : JsString :=
  if negb (nonEmpty apiKey) then render (generateDefaultSummary data)
  else
    match reply with
    | Threw => render (generateDefaultSummary data)
    | Answered false _ => render (generateDefaultSummary data)
    | Answered true content =>
        let summary :=
          if nonEmpty content then default [] content
          else render (generateDefaultSummary data) in
        if Nat.ltb 100 (length summary) then (take 97 summary ++ dots)%list
        else summary
    end.

End Summary.

(** Vocabulary: the kinds of summaries. *)
Definition aboutCrash (s : Summary) : bool :=
  match s with
  | CrashWithSentiment _ _ | CrashWithNetflow _ _ _ | Crash _ => true
  | _ => false
  end.

Definition aboutRally (s : Summary) : bool :=
  match s with
  | RallyWithNews _ _ | RallyWithOutflow _ _ | Rally _ => true
  | _ => false
  end.

Definition aboutModerateMove (s : Summary) : bool :=
  match s with
  | DropWithSentiment _ _ | Drop _ | Rise _ => true
  | _ => false
  end.

Definition aboutOnChain (s : Summary) : bool :=
  match s with
  | HighNetflow _ _ | ModerateNetflow _ _ | AddressDrop _ | AddressRise _ => true
  | _ => false
  end.

Definition lowKind (s : Summary) : bool :=
  match s with LowCalm _ | LowQuiet _ _ => true | _ => false end.

Definition mediumKind (s : Summary) : bool :=
  match s with MediumSentiment _ _ | MediumMixed => true | _ => false end.

Definition highKind (s : Summary) : bool :=
  match s with HighSentiment _ _ | HighGeneric => true | _ => false end.

Definition crashOrOnChainText (s : Summary) : bool :=
  match s with HighCrashOrOnChain => true | _ => false end.

(** No on-chain figure passes a threshold of the summary. *)
Definition quietChain (data : AnalysisData) : Prop :=
  match onChain data with
  | Some o => Qabs (Chain.netflowPercent o) <= 10 /\
              -15 <= Chain.activeAddressChange o /\ Chain.activeAddressChange o <= 15
  | None => True
  end.

(** Sample data. *)
Definition calmData (level : string) : AnalysisData :=
  {| newsStats := Counts.mk 10 6 3 1 10;
     socialStats := Counts.mk 20 10 8 2 10;
     onChain := Some (Chain.mk 5 0 None);
     riskScore := Risk.mk 30 level 30 30 30;
     priceChange := 1;
     coinName := "Bitcoin"; coinSymbol := "BTC" |}.

Definition crashData : AnalysisData :=
  {| newsStats := Counts.mk 10 2 3 5 50;
     socialStats := Counts.mk 20 10 8 2 10;
     onChain := None;
     riskScore := Risk.mk 80 "HIGH" 80 80 80;
     priceChange := -8;
     coinName := "Bitcoin"; coinSymbol := "BTC" |}.

End GptAnalysisService.

(** ** The notification history ([services/watchService.ts]) *)

Module NotificationHistory.

Local Open Scope string_scope.

(** A stored notification, with the two fields [WatchNotification] leaves
    out above: its id and its message. *)
Record Entry := mkEntry {
  entry_id : string;
  message : string;
  notification : WatchNotification
}.

Definition saveNotification (n : Entry) (stored : list Entry) : list Entry :=
  take 100 (n :: stored).

Definition loadNotifications (stored : list Entry) : list Entry := stored.

(** [n.read = true]. *)
Definition asRead (n : Entry) : Entry :=
  {| entry_id := entry_id n; message := message n;
     notification :=
       {| watchRuleId := watchRuleId (notification n);
          watchRuleName := watchRuleName (notification n);
          coinSymbol := coinSymbol (notification n);
          coinName := coinName (notification n);
          triggeredAt := triggeredAt (notification n);
          read := true |} |}.

Definition markNotificationAsRead (i : string) (stored : list Entry) : list Entry :=
  let notifications := loadNotifications stored in
  match list_find (fun n => entry_id n = i) notifications with
  | Some (index, n) => <[index := asRead n]> notifications
  | None => stored
  end.

Definition deleteNotification (i : string) (stored : list Entry) : list Entry :=
  let notifications := loadNotifications stored in
  List.filter (fun n => negb (entry_id n =? i)) notifications.

(** Vocabulary: the entry is read. *)
Definition isRead (n : Entry) : bool := read (notification n).

(** Sample data. *)
Definition entry (i : string) (r : bool) : Entry :=
  {| entry_id := i; message := "alert";
     notification := {| watchRuleId := "watch_1"; watchRuleName := "alert";
                        coinSymbol := "ETH"; coinName := "Ethereum";
                        triggeredAt := 1000000; read := r |} |}.

End NotificationHistory.

(** ** The latest candle ([services/binanceService.ts]) *)

Module BinanceService.
Import JsMore.

Local Open Scope string_scope.

Record CandleData := mkCandleData {
  time : string;
  open : Q;
  high : Q;
  low : Q;
  close : Q
}.

(** The end of [fetchBinancePriceHistory]: the candles of the history, the
    label of the current time and the latest price give the candles that are
    returned.  A candle with the current label is added, or the last candle,
    when it has that label, is brought up to the price. *)
Definition withCurrentPrice (candleData : list CandleData) (currentTimeLabel : string)
    (currentPrice : Q) : list CandleData :=
  match last candleData with
  | Some lastData =>
      if negb (time lastData =? currentTimeLabel) then
        (candleData ++ [{| time := currentTimeLabel; open := currentPrice;
                           high := currentPrice; low := currentPrice;
                           close := currentPrice |}])%list
      else
        <[(length candleData - 1)%nat :=
            {| time := time lastData; open := open lastData;
               high := Math_max (high lastData) currentPrice;
               low := Js.Math_min (low lastData) currentPrice;
               close := currentPrice |}]> candleData
  | None =>
      (candleData ++ [{| time := currentTimeLabel; open := currentPrice;
                         high := currentPrice; low := currentPrice;
                         close := currentPrice |}])%list
  end.

(** Vocabulary: the close of the candle lies between its low and its
    high. *)
Definition closeInRange (c : CandleData) : Prop := low c <= close c /\ close c <= high c.

(** Sample data. *)
Definition candle (label : string) (o h l c : Q) : CandleData :=
  {| time := label; open := o; high := h; low := l; close := c |}.

End BinanceService.

(** * Properties *)

(** ** Facts about the number operations *)

Module JsFacts.
Import Js.

Lemma ltb_lt a b : ltb a b = true <-> a < b.
Proof.
  unfold ltb. rewrite negb_true_iff, <- not_true_iff_false, Qle_bool_iff.
  split; [apply Qnot_le_lt | apply Qlt_not_le].
Qed.

Lemma ltb_ge a b : ltb a b = false <-> b <= a.
Proof. unfold ltb. rewrite negb_false_iff. apply Qle_bool_iff. Qed.

Lemma leb_le a b : leb a b = true <-> a <= b.
Proof. apply Qle_bool_iff. Qed.

Lemma leb_gt a b : leb a b = false <-> b < a.
Proof.
  unfold leb. rewrite <- not_true_iff_false, Qle_bool_iff.
  split; [apply Qnot_le_lt | apply Qlt_not_le].
Qed.

Lemma gtb_gt a b : gtb a b = true <-> b < a.
Proof. apply ltb_lt. Qed.

Lemma geb_ge a b : geb a b = true <-> b <= a.
Proof. apply leb_le. Qed.

Lemma eqb_eq a b : eqb a b = true <-> a == b.
Proof. apply Qeq_bool_iff. Qed.

Lemma eqb_neq a b : eqb a b = false <-> ~ a == b.
Proof. unfold eqb. rewrite <- not_true_iff_false, Qeq_bool_iff. tauto. Qed.

Lemma Math_abs_Qabs a : Math_abs a == Qabs a.
Proof.
  unfold Math_abs. destruct (ltb a 0) eqn:E.
  - apply ltb_lt in E. symmetry. apply Qabs_neg. lra.
  - apply ltb_ge in E. symmetry. apply Qabs_pos. exact E.
Qed.

Lemma Math_min_le_l a b : Math_min a b <= a.
Proof.
  unfold Math_min. destruct (leb a b) eqn:E; [lra|].
  apply leb_gt in E. lra.
Qed.

Lemma Math_min_le_r a b : Math_min a b <= b.
Proof.
  unfold Math_min. destruct (leb a b) eqn:E; [|lra].
  apply leb_le in E. exact E.
Qed.

Lemma Math_min_glb a b c : c <= a -> c <= b -> c <= Math_min a b.
Proof. unfold Math_min. destruct (leb a b); auto. Qed.

Lemma Math_round_bounds (x : Q) (lo hi : Z) :
  inject_Z lo <= x -> x <= inject_Z hi -> (lo <= Math_round x <= hi)%Z.
Proof.
  intros Hlo Hhi. unfold Math_round. split.
  - rewrite <- (Qfloor_Z lo). apply Qfloor_resp_le. lra.
  - assert (H : (Qfloor (x + (1 # 2)) < hi + 1)%Z); [|lia].
    rewrite Zlt_Qlt. eapply Qle_lt_trans; [apply Qfloor_le|].
    rewrite inject_Z_plus. change (inject_Z 1) with 1. lra.
Qed.

Lemma jsdiv_Some a b : ~ b == 0 -> jsdiv a b = Some (a / b).
Proof. intros H. unfold jsdiv. apply eqb_neq in H. now rewrite H. Qed.

Lemma div_unit_interval a b : 0 <= a -> a <= b -> 0 < b -> 0 <= a / b /\ a / b <= 1.
Proof.
  intros Ha Hab Hb. split.
  - apply Qle_shift_div_l; lra.
  - apply Qle_shift_div_r; lra.
Qed.

End JsFacts.

(** ** Facts about the subtraction of doubles *)

Module DoubleFacts.
Import Js JsFacts JsDouble.

Lemma floor_bounds q : inject_Z (Qfloor q) <= q /\ q < inject_Z (Qfloor q) + 1.
Proof.
  split; [apply Qfloor_le|].
  pose proof (Qlt_floor q) as H. rewrite inject_Z_plus in H. exact H.
Qed.

Lemma roundHalfEven_floor q : (Qfloor q <= roundHalfEven q <= Qfloor q + 1)%Z.
Proof.
  unfold roundHalfEven.
  destruct (ltb _ _); [lia|]. destruct (eqb _ _); [|lia]. destruct (Z.even _); lia.
Qed.

Lemma roundHalfEven_le q (b : Z) : q <= inject_Z b -> (roundHalfEven q <= b)%Z.
Proof.
  intros H. pose proof (floor_bounds q) as [Hf Hf'].
  assert (Hfb : (Qfloor q <= b)%Z) by (rewrite Zle_Qle; lra).
  destruct (Z.eq_dec (Qfloor q) b) as [E|E].
  - unfold roundHalfEven. rewrite E in *.
    assert (Hlt : ltb (q - inject_Z b) (1 # 2) = true) by (apply ltb_lt; lra).
    rewrite Hlt. lia.
  - pose proof (roundHalfEven_floor q). lia.
Qed.

Lemma roundHalfEven_ge q (b : Z) : inject_Z b <= q -> (b <= roundHalfEven q)%Z.
Proof.
  intros H. pose proof (roundHalfEven_floor q).
  apply Qfloor_resp_le in H. rewrite Qfloor_Z in H. lia.
Qed.

(** Below an odd integer [n] the rounding stays exactly up to the midpoint
    [n - 1/2], which goes to the even [n - 1]. *)
Lemma roundHalfEven_lt_odd q (n : Z) :
  Z.odd n = true -> (roundHalfEven q < n)%Z <-> q <= inject_Z n - (1 # 2).
Proof.
  intros Hodd. pose proof (floor_bounds q) as [Hf Hf'].
  pose proof (roundHalfEven_floor q) as Hr.
  destruct (Z_lt_le_dec (Qfloor q) (n - 1)%Z) as [Hlo|Hhi].
  - split; intros _; [|lia].
    assert (H : inject_Z (Qfloor q) + 1 <= inject_Z n - 1).
    { assert (H1 : (Qfloor q + 1 <= n - 1)%Z) by lia.
      rewrite Zle_Qle, inject_Z_plus in H1. unfold Z.sub in H1.
      rewrite inject_Z_plus in H1. exact H1. }
    lra.
  - destruct (Z.eq_dec (Qfloor q) (n - 1)%Z) as [E|E].
    + assert (Ei : inject_Z (Qfloor q) == inject_Z n - 1).
      { rewrite E. unfold Z.sub. rewrite inject_Z_plus. reflexivity. }
      assert (Hev : Z.even (Qfloor q) = true).
      { rewrite E, Z.even_sub, <- Z.negb_odd, Hodd. reflexivity. }
      unfold roundHalfEven. rewrite Hev.
      destruct (ltb _ _) eqn:E1.
      * apply ltb_lt in E1. split; intros _; [lra | lia].
      * apply ltb_ge in E1. destruct (eqb _ _) eqn:E2.
        -- apply eqb_eq in E2. split; intros _; [lra | lia].
        -- apply eqb_neq in E2. split; intros H; [lia|].
           exfalso. apply E2. lra.
    + split; intros H; [lia|].
      assert (H1 : (n <= Qfloor q)%Z) by lia.
      rewrite Zle_Qle in H1. lra.
Qed.

Lemma Qdiv_le_iff y p c : 0 < p -> y / p <= c <-> y <= c * p.
Proof.
  intros Hp. assert (E : y == (y / p) * p) by (field; lra).
  split; intros H.
  - rewrite E. apply Qmult_le_compat_r; lra.
  - apply Qle_shift_div_r; assumption.
Qed.

Lemma Qdiv_ge_iff y p c : 0 < p -> c <= y / p <-> c * p <= y.
Proof.
  intros Hp. assert (E : y == (y / p) * p) by (field; lra).
  split; intros H.
  - rewrite E. apply Qmult_le_compat_r; lra.
  - apply Qle_shift_div_l; assumption.
Qed.

Lemma pow2_pos (g : Z) : (0 <= g)%Z -> (0 < 2 ^ g)%Z.
Proof. intros H. apply Z.pow_pos_nonneg; lia. Qed.

Lemma inject_Z_pos (p : Z) : (0 < p)%Z -> 0 < inject_Z p.
Proof. intros H. rewrite Zlt_Qlt in H. exact H. Qed.

(** In units, the nearest double is below the double 0.01 exactly up to
    the midpoint between it and the double before it. *)
Lemma nearestUnits_lt_0_01 (y : Q) :
  0 <= y ->
  (nearestUnits y < significand0_01 * 2 ^ 1015)%Z
  <-> y <= inject_Z ((2 * significand0_01 - 1) * 2 ^ 1014).
Proof.
  intros Hy. unfold nearestUnits.
  pose proof (floor_bounds y) as [Hf Hf'].
  set (F := Qfloor y) in *. set (L := Z.log2 F).
  assert (HF : (0 <= F)%Z).
  { unfold F. rewrite <- (Qfloor_Z 0). now apply Qfloor_resp_le. }
  assert (HL : (0 <= L)%Z) by apply Z.log2_nonneg.
  assert (Hup : (F + 1 <= 2 ^ (L + 1))%Z).
  { destruct (Z.eq_dec F 0%Z) as [E|E].
    - unfold L. rewrite E. cbn. lia.
    - pose proof (Z.log2_spec F ltac:(lia)) as Hs. fold L in Hs.
      unfold Z.succ in Hs. lia. }
  assert (Hlow : (0 < L)%Z -> (2 ^ L <= F)%Z).
  { intros HLp. destruct (Z_le_gt_dec F 0%Z) as [E|E].
    - unfold L in HLp. rewrite (Z.log2_nonpos F E) in HLp. lia.
    - apply Z.log2_spec. lia. }
  set (g := Z.max (L - 52) 0%Z).
  assert (Hg : (0 <= g)%Z) by lia.
  pose proof (pow2_pos g Hg) as Hpg.
  pose proof (inject_Z_pos _ Hpg) as Hqg.
  pose proof (pow2_pos 1014%Z ltac:(lia)) as HP.
  assert (E1015 : (2 ^ 1015 = 2 * 2 ^ 1014)%Z).
  { change 1015%Z with (1 + 1014)%Z. rewrite Z.pow_add_r by lia. reflexivity. }
  assert (E1067 : (2 ^ 1067 = 2 ^ 53 * 2 ^ 1014)%Z).
  { change 1067%Z with (53 + 1014)%Z. now rewrite Z.pow_add_r by lia. }
  assert (E1068 : (2 ^ 1068 = 2 ^ 54 * 2 ^ 1014)%Z).
  { change 1068%Z with (54 + 1014)%Z. now rewrite Z.pow_add_r by lia. }
  rewrite E1015. unfold significand0_01.
  destruct (Z_lt_le_dec L 1067%Z) as [Hlo|Hhi].
  - (* below the binade of 0.01 *)
    assert (Hexp : (2 ^ (L + 1) <= 2 ^ 53 * 2 ^ g)%Z).
    { rewrite <- Z.pow_add_r by lia. apply Z.pow_le_mono_r; lia. }
    assert (Hexp' : (2 ^ 53 * 2 ^ g <= 2 ^ 1067)%Z).
    { rewrite <- Z.pow_add_r by lia. apply Z.pow_le_mono_r; lia. }
    assert (Hr : (roundHalfEven (y / inject_Z (2 ^ g)) <= 2 ^ 53)%Z).
    { apply roundHalfEven_le, Qdiv_le_iff; [exact Hqg|].
      rewrite <- inject_Z_mult.
      assert (H : (F + 1 <= 2 ^ 53 * 2 ^ g)%Z) by exact (Z.le_trans _ _ _ Hup Hexp).
      rewrite Zle_Qle, inject_Z_plus in H. change (inject_Z 1) with 1 in H. lra. }
    assert (Hy' : y <= inject_Z (2 ^ 1067)).
    { assert (H : (F + 1 <= 2 ^ 1067)%Z)
        by exact (Z.le_trans _ _ _ Hup (Z.le_trans _ _ _ Hexp Hexp')).
      rewrite Zle_Qle, inject_Z_plus in H. change (inject_Z 1) with 1 in H. lra. }
    split; intros _.
    + eapply Qle_trans; [exact Hy'|]. rewrite <- Zle_Qle, E1067.
      change (2 ^ 53)%Z with 9007199254740992%Z. lia.
    + apply Z.le_lt_trans with (2 ^ 1067)%Z.
      * apply Z.le_trans with (2 ^ 53 * 2 ^ g)%Z; [|exact Hexp'].
        apply Z.mul_le_mono_nonneg_r; lia.
      * rewrite E1067. change (2 ^ 53)%Z with 9007199254740992%Z. lia.
  - destruct (Z.eq_dec L 1067%Z) as [E|E].
    + (* the binade of 0.01: the spacing is 2^1015 units *)
      assert (Eg : g = 1015%Z) by (unfold g; lia).
      rewrite Eg, E1015. clear Hpg Hqg Hlow Hup.
      assert (Hpos : 0 < inject_Z (2 * 2 ^ 1014)) by (apply inject_Z_pos; lia).
      clear E1015 E1067 E1068.
      generalize dependent (2 ^ 1014)%Z. intros P HP Hpos.
      rewrite (Z.mul_comm 5764607523034235 (2 * P)), (Z.mul_comm _ (2 * P)).
      rewrite <- Z.mul_lt_mono_pos_l by lia.
      rewrite (roundHalfEven_lt_odd _ 5764607523034235 eq_refl).
      rewrite Qdiv_le_iff by exact Hpos.
      assert (Ec : (inject_Z 5764607523034235 - (1 # 2)) * inject_Z (2 * P)
                   == inject_Z ((2 * 5764607523034235 - 1) * P)).
      { rewrite !inject_Z_mult. unfold Z.sub. rewrite inject_Z_plus, inject_Z_mult.
        change (inject_Z 5764607523034235) with (5764607523034235 # 1).
        change (inject_Z 2) with 2. change (inject_Z (- (1))) with (- 1). ring. }
      rewrite Ec. reflexivity.
    + (* above the binade of 0.01 *)
      assert (Eg : g = (L - 52)%Z) by (unfold g; lia).
      assert (HFL : (2 ^ L <= F)%Z) by (apply Hlow; lia).
      assert (EL : (2 ^ L = 2 ^ 52 * 2 ^ g)%Z).
      { rewrite <- Z.pow_add_r by lia. f_equal. lia. }
      assert (HL68 : (2 ^ 1068 <= 2 ^ L)%Z) by (apply Z.pow_le_mono_r; lia).
      assert (Hr : (2 ^ 52 <= roundHalfEven (y / inject_Z (2 ^ g)))%Z).
      { apply roundHalfEven_ge, Qdiv_ge_iff; [exact Hqg|].
        rewrite <- inject_Z_mult, <- EL.
        rewrite Zle_Qle in HFL. lra. }
      assert (Hy' : inject_Z (2 ^ 1068) <= y).
      { assert (H : (2 ^ 1068 <= F)%Z) by lia. rewrite Zle_Qle in H. lra. }
      split; intros H; exfalso.
      * assert (H1 : (2 ^ 52 * 2 ^ g <= roundHalfEven (y / inject_Z (2 ^ g)) * 2 ^ g)%Z)
          by (apply Z.mul_le_mono_nonneg_r; lia).
        rewrite E1068 in HL68. change (2 ^ 54)%Z with 18014398509481984%Z in HL68. lia.
      * assert (H1 : inject_Z (2 ^ 1068) <= inject_Z ((2 * 5764607523034235 - 1) * 2 ^ 1014))
          by lra.
        rewrite <- Zle_Qle, E1068 in H1.
        change (2 ^ 54)%Z with 18014398509481984%Z in H1. lia.
Qed.

Lemma Qdiv_lt_iff y p c : 0 < p -> y / p < c <-> y < c * p.
Proof.
  intros Hp. assert (E : y == (y / p) * p) by (field; lra).
  split; intros H.
  - rewrite E. apply Qmult_lt_compat_r; lra.
  - apply Qlt_shift_div_r; assumption.
Qed.

Lemma units_pos : 0 < inject_Z units.
Proof. reflexivity. Qed.

Lemma d0_01_units : d0_01 * inject_Z units == inject_Z (significand0_01 * 2 ^ 1015).
Proof. vm_compute. reflexivity. Qed.

Lemma tolerance_units :
  tolerance * inject_Z units == inject_Z ((2 * significand0_01 - 1) * 2 ^ 1014).
Proof. vm_compute. reflexivity. Qed.

Lemma d0_01_finite : (significand0_01 * 2 ^ 1015 < 2 ^ 2098)%Z.
Proof. reflexivity. Qed.

Lemma nearestUnits_nonneg y : 0 <= y -> (0 <= nearestUnits y)%Z.
Proof.
  intros Hy. unfold nearestUnits.
  set (g := Z.max _ _). assert (Hg : (0 <= g)%Z) by (unfold g; lia).
  pose proof (pow2_pos g Hg) as Hp. pose proof (inject_Z_pos _ Hp) as Hq.
  apply Z.mul_nonneg_nonneg; [|lia].
  apply roundHalfEven_ge, Qdiv_ge_iff; [exact Hq|].
  change (inject_Z 0) with 0. lra.
Qed.

Lemma units_nonneg x : 0 <= x -> 0 <= x * inject_Z units.
Proof. intros Hx. pose proof units_pos. apply Qmult_le_0_compat; lra. Qed.

Lemma tolerance_iff x :
  x <= tolerance <-> x * inject_Z units <= inject_Z ((2 * significand0_01 - 1) * 2 ^ 1014).
Proof.
  rewrite <- tolerance_units. pose proof units_pos as HU. split; intros H.
  - apply Qmult_le_compat_r; lra.
  - apply Qmult_le_r in H; assumption.
Qed.

(** The double nearest to [x >= 0] is below the double 0.01 exactly when
    [x] is at most the midpoint [tolerance]. *)
Lemma nearest_lt_0_01 x :
  0 <= x ->
  match nearest x with Some d => 0 <= d /\ (d < d0_01 <-> x <= tolerance)
                     | None => ~ x <= tolerance end.
Proof.
  intros Hx. unfold nearest. pose proof units_pos as HU.
  pose proof (nearestUnits_lt_0_01 _ (units_nonneg x Hx)) as Hn.
  pose proof (nearestUnits_nonneg _ (units_nonneg x Hx)) as H0.
  rewrite <- tolerance_iff in Hn. pose proof d0_01_finite as Hfin.
  destruct (Z.ltb_spec (nearestUnits (x * inject_Z units)) (2 ^ 2098)) as [Hlt|Hge].
  - rewrite Qred_correct. split.
    + apply Qdiv_ge_iff; [exact HU|]. rewrite Zle_Qle in H0.
      change (inject_Z 0) with 0 in H0. lra.
    + rewrite Qdiv_lt_iff by exact HU. rewrite d0_01_units, <- Zlt_Qlt. exact Hn.
  - intros H. apply Hn in H. lia.
Qed.

(** [Math.abs(a - b) < 0.01] on doubles. *)
Lemma abs_sub_lt_0_01 a b :
  match sub a b with
  | Some difference => ltb (Math_abs difference) d0_01
  | None => false
  end = true <-> Qabs (a - b) <= tolerance.
Proof.
  unfold sub, round64.
  pose proof (nearest_lt_0_01 _ (Qabs_nonneg (a - b))) as H.
  destruct (nearest (Qabs (a - b))) as [d|].
  - destruct H as [Hd H]. rewrite ltb_lt, <- H.
    assert (E : Math_abs (if ltb (a - b) 0 then - d else d) == d).
    { rewrite Math_abs_Qabs. destruct (ltb (a - b) 0).
      - rewrite Qabs_opp. now apply Qabs_pos.
      - now apply Qabs_pos. }
    rewrite E. reflexivity.
  - split; [discriminate | intros H'; contradiction].
Qed.

Lemma tolerance_bounds : (1 # 100) - (1 # 10 ^ 18) < tolerance /\ tolerance < 1 # 100.
Proof. split; reflexivity. Qed.

(** Some doubles: 0.1 and 0.01 are not doubles and are read as the
    nearest ones; [0.3 - 0.1] is not the double 0.2. *)
Example doubles_of_literals :
  round64 (1 # 10) = Some (3602879701896397 # 2 ^ 55) /\
  round64 (1 # 100) = Some d0_01 /\
  round64 (-3) = Some (-3) /\
  isDouble (1 # 10) = false /\ isDouble d0_01 = true /\ isDouble tolerance = false /\
  sub (literal (3 # 10)) (literal (1 # 10)) = Some (7205759403792793 # 2 ^ 55) /\
  literal (2 # 10) = 3602879701896397 # 2 ^ 54.
Proof. vm_compute. repeat split. Qed.

End DoubleFacts.

(** ** The scoring function *)

Module GeminiFacts.
Import Js JsFacts GeminiService GeminiSpec.

Lemma negRatio_unit neg tot :
  countsOk neg tot ->
  exists r, (if gtb tot 0 then jsdiv neg tot else Some 0) = Some r /\ 0 <= r /\ r <= 1.
Proof.
  intros [H0 H1]. destruct (gtb tot 0) eqn:E.
  - apply gtb_gt in E. exists (neg / tot). split.
    + apply jsdiv_Some. lra.
    + now apply div_unit_interval.
  - exists 0. split; [reflexivity | lra].
Qed.

Lemma negRatio_total neg tot :
  exists r, (if gtb tot 0 then jsdiv neg tot else Some 0) = Some r.
Proof.
  destruct (gtb tot 0) eqn:E.
  - apply gtb_gt in E. exists (neg / tot). apply jsdiv_Some. lra.
  - now exists 0.
Qed.

Lemma tagWeight_nonneg tag : 0 <= tagWeight tag.
Proof.
  unfold tagWeight. destruct (tagWeights !! tag) as [w|] eqn:E; [|lra].
  destruct (eqb w 0) eqn:Ew; [lra|].
  apply elem_of_list_to_map_2 in E.
  repeat (apply elem_of_cons in E as [E|E]; [inversion E; subst; lra|]).
  now apply elem_of_nil in E.
Qed.

Lemma maxTagWeight_nonneg tags : 0 <= maxTagWeight tags.
Proof.
  unfold maxTagWeight.
  assert (H : forall m, 0 <= m ->
    0 <= fold_left (fun m tag => let w := tagWeight tag in if gtb w m then w else m) tags m).
  { induction tags as [|tag tags IH]; intros m Hm; simpl; [exact Hm|].
    apply IH. destruct (gtb (tagWeight tag) m); [apply tagWeight_nonneg | exact Hm]. }
  apply H. lra.
Qed.

Lemma numberOfNat_pos n : gtb (numberOfNat n) 0 = true -> 1 <= numberOfNat n.
Proof.
  intros H. apply gtb_gt in H. unfold numberOfNat in *.
  change 0 with (inject_Z 0) in H. rewrite <- Zlt_Qlt in H.
  change 1 with (inject_Z 1). rewrite <- Zle_Qle. lia.
Qed.

Lemma tagPart_bounds stats :
  let part := if gtb (numberOfNat (length (News.riskTags (news stats)))) 0
              then riskTagStrength stats else 0 in
  0 <= part /\ part <= 40.
Proof.
  simpl. destruct (gtb _ 0) eqn:E; [|lra].
  apply numberOfNat_pos in E. unfold riskTagStrength. split.
  - apply Math_min_glb; [lra|].
    pose proof (maxTagWeight_nonneg (News.riskTags (news stats))) as Hm.
    apply Qmult_le_0_compat; [exact Hm | lra].
  - apply Math_min_le_l.
Qed.

Lemma nfScore_bounds nf : 10 <= nfScore nf /\ nfScore nf <= 100.
Proof. unfold nfScore. repeat (destruct (geb nf _)); lra. Qed.

Lemma aaScore_bounds aa : 20 <= aaScore aa /\ aaScore aa <= 100.
Proof. unfold aaScore. repeat (destruct (leb aa _)); lra. Qed.

Lemma onChainScore_bounds stats : 14 <= onChainScore stats /\ onChainScore stats <= 100.
Proof.
  unfold onChainScore.
  pose proof (nfScore_bounds (OnChain.netflowPercent (onChain stats))).
  pose proof (aaScore_bounds (OnChain.activeAddressChange (onChain stats))).
  lra.
Qed.

Lemma totalScore_bounds stats :
  countsOk (News.negativeCount (news stats)) (News.totalCount (news stats)) ->
  countsOk (Social.negativeCount (social stats)) (Social.totalCount (social stats)) ->
  exists t, totalScore stats = Some t /\ 0 <= t /\ t <= 100.
Proof.
  intros Hn Hs.
  destruct (negRatio_unit _ _ Hn) as (rn & En & Hrn).
  destruct (negRatio_unit _ _ Hs) as (rs & Es & Hrs).
  pose proof (tagPart_bounds stats) as Ht. simpl in Ht.
  pose proof (onChainScore_bounds stats) as Ho.
  unfold totalScore, newsScore, negScore, socialScore, newsNegRatio, socialNegRatio.
  rewrite En, Es. simpl. eexists. split; [reflexivity|]. lra.
Qed.

Lemma totalScore_total stats : exists t, totalScore stats = Some t.
Proof.
  destruct (negRatio_total (News.negativeCount (news stats)) (News.totalCount (news stats)))
    as (rn & En).
  destruct (negRatio_total (Social.negativeCount (social stats)) (Social.totalCount (social stats)))
    as (rs & Es).
  unfold totalScore, newsScore, negScore, socialScore, newsNegRatio, socialNegRatio.
  rewrite En, Es. simpl. eexists. reflexivity.
Qed.

(** C1. On the example snapshot of the specification (news 40 negative of
    100 with the tag hack, social 10 negative of 50, netflow 25, active
    address change -25) the news, social and on-chain sub-scores are 64, 20
    and 88, the weighted total is 58, and [calculateRiskScore] returns the
    score 58 with the level MEDIUM. *)
Theorem C1_example_score :
  (exists n, newsScore specExample = Some n /\ n == 64) /\
  (exists s, socialScore specExample = Some s /\ s == 20) /\
  onChainScore specExample == 88 /\
  (exists t, totalScore specExample = Some t /\ t == 64 * (4 # 10) + 20 * (3 # 10) + 88 * (3 # 10)) /\
  calculateRiskScore specExample = Some {| score := 58; level := "MEDIUM" |}.
Proof.
  repeat split.
  - eexists. split; [vm_compute; reflexivity | reflexivity].
  - eexists. split; [vm_compute; reflexivity | reflexivity].
  - eexists. split; [vm_compute; reflexivity | reflexivity].
Qed.

(** C2. For every snapshot whose news and social counts are non-negative
    with negativeCount <= totalCount, [calculateRiskScore] returns a score,
    and it is an integer between 0 and 100. *)
Theorem C2_score_in_range (stats : AnalysisStats) :
  countsOk (News.negativeCount (news stats)) (News.totalCount (news stats)) ->
  countsOk (Social.negativeCount (social stats)) (Social.totalCount (social stats)) ->
  exists r, calculateRiskScore stats = Some r /\ (0 <= score r <= 100)%Z.
Proof.
  intros Hn Hs. destruct (totalScore_bounds stats Hn Hs) as (t & Et & Ht0 & Ht1).
  unfold calculateRiskScore. rewrite Et. simpl. eexists. split; [reflexivity|].
  simpl. apply Math_round_bounds; assumption.
Qed.

Lemma C2_score_in_range_witness :
  exists r, calculateRiskScore specExample = Some r /\ (0 <= score r <= 100)%Z.
Proof.
  apply (C2_score_in_range specExample); split; vm_compute; discriminate.
Defined.

(** C3. When the news totalCount is 0 the negative-ratio part of the news
    sub-score is 0; when the social totalCount is 0 the social sub-score is
    0; and on every snapshot no division leaves the numbers, so
    [calculateRiskScore] returns a score. *)
Theorem C3_zero_total_is_zero (stats : AnalysisStats) :
  (News.totalCount (news stats) == 0 -> exists q, negScore stats = Some q /\ q == 0) /\
  (Social.totalCount (social stats) == 0 -> exists q, socialScore stats = Some q /\ q == 0) /\
  (exists r, calculateRiskScore stats = Some r).
Proof.
  split; [|split].
  - intros H. unfold negScore, newsNegRatio.
    assert (E : gtb (News.totalCount (news stats)) 0 = false).
    { apply ltb_ge. lra. }
    rewrite E. simpl. eexists. split; [reflexivity|]. lra.
  - intros H. unfold socialScore, socialNegRatio.
    assert (E : gtb (Social.totalCount (social stats)) 0 = false).
    { apply ltb_ge. lra. }
    rewrite E. simpl. eexists. split; [reflexivity|]. lra.
  - destruct (totalScore_total stats) as (t & Et).
    unfold calculateRiskScore. rewrite Et. simpl. eexists. reflexivity.
Qed.

Lemma C3_zero_total_is_zero_witness :
  (exists q, negScore zeroCounts = Some q /\ q == 0) /\
  (exists q, socialScore zeroCounts = Some q /\ q == 0) /\
  (exists r, calculateRiskScore zeroCounts = Some r).
Proof.
  destruct (C3_zero_total_is_zero zeroCounts) as (Hn & Hs & Hr).
  split; [apply Hn; reflexivity | split; [apply Hs; reflexivity | exact Hr]].
Defined.

(** C6. When both the news and the social response are missing,
    [analyzeCoinSignal] returns no assessment at all ([null]), whatever the
    other responses are, so no score, in particular no score 0, is made up.
    With only one of the two present it always returns an assessment, whose
    statistics have zero counts for the missing category, and for some such
    input the score is numeric.  Whenever the returned score is numeric, one
    of the two was present and the number is the one the backend reported. *)
Theorem C6_unavailable_not_zero :
  (forall coin riskData coinMarketData,
     analyzeCoinSignal coin None None riskData coinMarketData = None) /\
  (forall coin newsStats riskData coinMarketData,
     exists a st,
       analyzeCoinSignal coin (Some newsStats) None riskData coinMarketData = Some a /\
       stats a = Some st /\ social st = Social.mk 0 0) /\
  (forall coin socialStats riskData coinMarketData,
     exists a st,
       analyzeCoinSignal coin None (Some socialStats) riskData coinMarketData = Some a /\
       stats a = Some st /\ news st = News.mk 0 0 []) /\
  (exists coin newsStats riskData coinMarketData a q,
     analyzeCoinSignal coin (Some newsStats) None riskData coinMarketData = Some a /\
     numericScore a q) /\
  (exists coin socialStats riskData coinMarketData a q,
     analyzeCoinSignal coin None (Some socialStats) riskData coinMarketData = Some a /\
     numericScore a q) /\
  (forall coin newsStats socialStats riskData coinMarketData a q,
     analyzeCoinSignal coin newsStats socialStats riskData coinMarketData = Some a ->
     numericScore a q ->
     (is_Some newsStats \/ is_Some socialStats) /\
     exists r, riskData = Some r /\ overall_risk_score r = Some q).
Proof.
  split; [|split; [|split; [|split; [|split]]]].
  - reflexivity.
  - intros coin newsStats riskData coinMarketData. unfold analyzeCoinSignal. simpl.
    destruct (backendRisk riskData) as [overallScore riskLevel].
    eexists. eexists. split; [reflexivity|]. split; reflexivity.
  - intros coin socialStats riskData coinMarketData. unfold analyzeCoinSignal. simpl.
    destruct (backendRisk riskData) as [overallScore riskLevel].
    eexists. eexists. split; [reflexivity|]. split; reflexivity.
  - exists btc, newsOnly, (Some backend55), None. eexists. exists 55.
    split; [reflexivity|]. split; [reflexivity | discriminate].
  - exists btc, socialOnly, (Some backend55), None. eexists. exists 55.
    split; [reflexivity|]. split; [reflexivity | discriminate].
  - intros coin newsStats socialStats riskData coinMarketData a q Ha [Hq Hne].
    unfold analyzeCoinSignal in Ha.
    destruct (negb (is_Some_bool newsStats || is_Some_bool socialStats)) eqn:Hreq;
      [discriminate|].
    split.
    + destruct newsStats; [left; eauto|]. destruct socialStats; [right; eauto|].
      discriminate.
    + unfold backendRisk in Ha.
      destruct riskData as [r|]; [destruct (overall_risk_score r) as [o|] eqn:Eo|];
        inversion Ha; subst a; simpl in Hq; inversion Hq; subst q.
      * exists r. split; congruence.
      * exfalso. apply Hne. reflexivity.
      * exfalso. apply Hne. reflexivity.
Qed.

Lemma C6_unavailable_not_zero_witness :
  (is_Some (Some newsOnly) \/ is_Some (@None SentimentStatsResponse)) /\
  exists r, Some backend55 = Some r /\ overall_risk_score r = Some 55.
Proof.
  destruct C6_unavailable_not_zero as (_ & _ & _ & _ & _ & H).
  apply (H btc (Some newsOnly) None (Some backend55) None
           {| marketPhase := "RISING"; riskLevel := Some "MEDIUM"%string;
              riskScore := Some 55; stats := Some (statsOf (Some newsOnly) None None) |} 55).
  - reflexivity.
  - split; [reflexivity | discriminate].
Defined.

(** Without a backend score the assessment carries the sentinel -1 and the
    level LOW; a backend that reports -1 with a level is passed through. *)
Example sentinel_assessments :
  (forall coin newsStats, exists a,
     analyzeCoinSignal coin (Some newsStats) None None None = Some a /\
     riskScore a = Some (-1) /\ riskLevel a = Some "LOW") /\
  (exists a,
     analyzeCoinSignal btc (Some newsOnly) None (Some backendMinus1High) None = Some a /\
     riskScore a = Some (-1) /\ riskLevel a = Some "HIGH").
Proof.
  split.
  - intros coin newsStats. eexists. split; [reflexivity|]. split; reflexivity.
  - eexists. split; [reflexivity|]. split; reflexivity.
Qed.

(** The all-zero snapshot of the specification scores 13, level LOW. *)
Example all_zero_snapshot :
  calculateRiskScore {| news := News.mk 0 0 []; social := Social.mk 0 0;
                        onChain := OnChain.mk 0 0 |}
  = Some {| score := 13; level := "LOW" |}.
Proof. vm_compute. reflexivity. Qed.

End GeminiFacts.

(** ** The rule evaluator *)

Module WatchFacts.
Import Js JsFacts WatchService WatchSpec.

Local Open Scope string_scope.

Section Conditions.

Variable ToNumber : string -> option Q.

Abbreviation checkCondition := (WatchService.checkCondition ToNumber).
Abbreviation checkWatchConditions := (WatchService.checkWatchConditions ToNumber).
Abbreviation compareWithValue := (WatchService.compareWithValue ToNumber).

(** C5. A rule whose condition list is empty matches no asset, whatever the
    state of the asset: [checkWatchConditions] returns false. *)
Theorem C5_empty_conditions_never_match (rule : WatchRule) (coin : CoinData) :
  conditions rule = [] -> checkWatchConditions rule coin = false.
Proof.
  intros H. unfold WatchService.checkWatchConditions. rewrite H. simpl.
  destruct (negb (enabled rule)); [reflexivity|].
  destruct (match coinSymbols rule with Some _ => _ | None => _ end); reflexivity.
Qed.

(** C9. A rule whose [coinSymbols] is the empty array is evaluated on every
    asset exactly as the rule with the scope [null]: the scope filter is
    skipped, and the result does not depend on the symbol of the asset. *)
Theorem C9_empty_scope_is_all (rule : WatchRule) (coin : CoinData) :
  coinSymbols rule = Some [] ->
  checkWatchConditions rule coin = checkWatchConditions (withScope rule None) coin /\
  checkWatchConditions rule coin =
    (enabled rule && negb (Nat.eqb (length (conditions rule)) 0)
     && forallb (fun c => checkCondition c coin) (conditions rule)).
Proof.
  intros H. unfold WatchService.checkWatchConditions. rewrite H. simpl.
  destruct (enabled rule); simpl; [|split; reflexivity].
  destruct (Nat.eqb (length (conditions rule)) 0); split; reflexivity.
Qed.

Lemma checkCondition_noAssessment (condition : WatchCondition) (coin : CoinData) :
  noAssessment coin -> checkCondition condition coin = false.
Proof.
  unfold noAssessment, WatchService.checkCondition.
  destruct (analysis coin) as [a|]; [|reflexivity].
  intros ->. reflexivity.
Qed.

(** C10. On an asset without analysis, or whose analysis has no statistics,
    [checkCondition] is false for every condition, of any type; so no rule
    with at least one condition matches such an asset. *)
Theorem C10_no_assessment_no_match (coin : CoinData) :
  noAssessment coin ->
  (forall condition, checkCondition condition coin = false) /\
  (forall rule, conditions rule <> [] -> checkWatchConditions rule coin = false).
Proof.
  intros H. split.
  - intros condition. now apply checkCondition_noAssessment.
  - intros rule Hne. unfold WatchService.checkWatchConditions.
    destruct (negb (enabled rule)); [reflexivity|].
    destruct (match coinSymbols rule with Some _ => _ | None => _ end); [reflexivity|].
    destruct (conditions rule) as [|c cs]; [congruence|].
    simpl. now rewrite checkCondition_noAssessment.
Qed.

(** The two risk cases of [checkCondition], with analysis and statistics
    present.  A [risk_score] condition is false when the score is -1 or
    missing and otherwise compares the score with the threshold under the
    operator of the condition.  The guard of the [risk_level] case is
    narrower: the condition is false when the level is missing or empty,
    and when the level is LOW and the score is -1; with any other level it
    compares the ordinals LOW=1, MEDIUM=2, HIGH=3, EXTREME=4, whatever the
    score. *)
Lemma risk_cases (condition : WatchCondition) (coin : CoinData)
    (a : AIAnalysisResult) (st : AnalysisStats) :
  analysis coin = Some a -> stats a = Some st ->
  (type condition = "risk_score" ->
     (unavailableScore a -> checkCondition condition coin = false) /\
     (forall s, riskScore a = Some s -> ~ s == -1 ->
        checkCondition condition coin =
          compareWithValue s (operator condition) (value condition))) /\
  (type condition = "risk_level" ->
     (~ truthy (riskLevel a) = true -> checkCondition condition coin = false) /\
     (riskLevel a = Some "LOW" -> (exists s, riskScore a = Some s /\ s == -1) ->
        checkCondition condition coin = false) /\
     (forall l, riskLevel a = Some l -> truthy (Some l) = true ->
        ~ (l = "LOW" /\ exists s, riskScore a = Some s /\ s == -1) ->
        checkCondition condition coin =
          compareValues (getRiskLevelValue l) (operator condition)
                        (getRiskLevelValueOf (value condition)))) /\
  getRiskLevelValue "LOW" = 1 /\ getRiskLevelValue "MEDIUM" = 2 /\
  getRiskLevelValue "HIGH" = 3 /\ getRiskLevelValue "EXTREME" = 4.
Proof.
  intros Ha Hst. split; [|split; [|repeat split]].
  - intros Ht. unfold WatchService.checkCondition. rewrite Ha, Hst, Ht. cbn.
    split.
    + unfold unavailableScore. destruct (riskScore a) as [s|]; [|reflexivity].
      intros Hs. apply eqb_eq in Hs. now rewrite Hs.
    + intros s -> Hs. apply eqb_neq in Hs. now rewrite Hs.
  - intros Ht. unfold WatchService.checkCondition. rewrite Ha, Hst, Ht. cbn.
    split; [|split].
    + destruct (riskLevel a) as [l|]; [|reflexivity].
      intros Hl. apply not_true_is_false in Hl. cbn in Hl |- *.
      now rewrite Hl.
    + intros -> (s & -> & Hs). apply eqb_eq in Hs. cbn. now rewrite Hs.
    + intros l -> Hl Hn. cbn in Hl |- *. rewrite Hl. cbn.
      destruct (l =? "LOW") eqn:El; [|reflexivity].
      apply String.eqb_eq in El. cbn.
      destruct (riskScore a) as [s|]; [|reflexivity].
      destruct (eqb s (-1)) eqn:Es; [|reflexivity].
      exfalso. apply Hn. split; [exact El|]. exists s. split; [reflexivity|].
      now apply eqb_eq.
Qed.

(** C8. The [risk_score] case does what the claim says of an unavailable
    assessment, and the [risk_level] case does not: on an assessment with
    the sentinel score -1 and the level HIGH every [risk_score] condition
    is false, and the [risk_level] condition "at least HIGH" is true.  The
    sentinel is the score [analyzeCoinSignal] gives an assessment that
    could not be computed, and the comment of the [risk_level] case asks
    for false when the level is "missing or not valid"; the guard of the
    case catches the sentinel only next to the level LOW.  The assessment
    is the one [analyzeCoinSignal] returns when the backend reports the
    score -1 with the level HIGH. *)
Theorem C8_level_of_unavailable_assessment :
  unavailableScore sentinelHigh /\
  (forall condition, type condition = "risk_score" ->
     checkCondition condition (eth (Some sentinelHigh)) = false) /\
  checkCondition levelAtLeastHigh (eth (Some sentinelHigh)) = true /\
  checkCondition levelAtLeastHigh (eth (Some unavailableLow)) = false /\
  (exists a,
     GeminiService.analyzeCoinSignal GeminiSpec.btc (Some GeminiSpec.newsOnly) None
       (Some GeminiSpec.backendMinus1High) None = Some a /\
     unavailableScore a /\
     checkCondition levelAtLeastHigh (eth (Some a)) = true).
Proof.
  split; [reflexivity|]. split; [|split; [reflexivity|split; [reflexivity|]]].
  - intros condition Ht. unfold WatchService.checkCondition. cbn. now rewrite Ht.
  - eexists. split; [reflexivity|]. split; reflexivity.
Qed.

End Conditions.

Lemma compareValues_equal (actual threshold : Q) :
  compareValues actual "==" threshold = true
  <-> Qabs (actual - threshold) <= JsDouble.tolerance.
Proof. apply DoubleFacts.abs_sub_lt_0_01. Qed.

(** C7, as the code has it.  The two numbers are doubles, the code rounds
    their difference to the nearest double, and its 0.01 is the double
    nearest to 1/100.  Under the operator [==], [compareValues] is true
    exactly when the absolute difference of the two numbers is at most
    [JsDouble.tolerance] = 11529215046068469 / 2^60, the midpoint between
    the double 0.01 and the double before it, which is below 1/100 by less
    than 10^-18.  So it is false when the absolute difference is 1/100 or
    more, as when it is 0.5. *)
Theorem C7_equality_tolerance (actual threshold : Q) :
  (compareValues actual "==" threshold = true
   <-> Qabs (actual - threshold) <= JsDouble.tolerance) /\
  ((1 # 100) - (1 # 10 ^ 18) < JsDouble.tolerance /\ JsDouble.tolerance < 1 # 100) /\
  (1 # 100 <= Qabs (actual - threshold) -> compareValues actual "==" threshold = false) /\
  (Qabs (actual - threshold) == 1 # 2 -> compareValues actual "==" threshold = false).
Proof.
  pose proof DoubleFacts.tolerance_bounds as [Hlo Hhi].
  split; [apply compareValues_equal|]. split; [split; assumption|].
  split; intros H; apply not_true_is_false; rewrite compareValues_equal; lra.
Qed.

Lemma touch_cons i now r rs :
  touch i now (r :: rs) =
    if decide (id r = i) then merge r (lastTriggeredUpdate now) :: rs
    else r :: touch i now rs.
Proof.
  unfold touch. simpl. destruct (decide (id r = i)); [reflexivity|].
  destruct (list_find _ rs) as [[k x]|]; reflexivity.
Qed.

Lemma erase_merge r now : erase (merge r (lastTriggeredUpdate now)) = erase r.
Proof. reflexivity. Qed.

Lemma touch_erase i now rs : map erase (touch i now rs) = map erase rs.
Proof.
  induction rs as [|r rs IH]; [reflexivity|].
  rewrite touch_cons. destruct (decide (id r = i)); simpl; [reflexivity|].
  now rewrite IH.
Qed.

Lemma map_id_erase rs : map id rs = map id (map erase rs).
Proof. rewrite map_map. reflexivity. Qed.

Lemma touch_lastTriggered_other i t j now rs :
  j <> i \/ t = now ->
  lastTriggeredIs i t rs -> lastTriggeredIs i t (touch j now rs).
Proof.
  intros Hj. unfold lastTriggeredIs. induction rs as [|r rs IH]; intros H.
  - constructor.
  - inversion H as [|? ? Hr Hrs]; subst. rewrite touch_cons.
    destruct (decide (id r = j)) as [E|E].
    + constructor; [|exact Hrs]. simpl. intros Hi.
      destruct Hj as [Hj| ->]; [congruence | reflexivity].
    + constructor; [exact Hr | now apply IH].
Qed.

Lemma touch_lastTriggered_same i now rs :
  NoDup (map id rs) -> lastTriggeredIs i now (touch i now rs).
Proof.
  unfold lastTriggeredIs. induction rs as [|r rs IH]; intros Hnd.
  - constructor.
  - simpl in Hnd. apply NoDup_cons in Hnd as [Hr Hnd]. rewrite touch_cons.
    destruct (decide (id r = i)) as [E|E].
    + constructor; [reflexivity|].
      apply Forall_forall. intros r' Hr' E'. exfalso. apply Hr.
      apply list_elem_of_In, in_map_iff. exists r'.
      split; [congruence | now apply list_elem_of_In].
    + constructor; [intros; contradiction | now apply IH].
Qed.

Lemma cooledDown_iff now r t :
  lastTriggered r = Some t -> (cooledDown now r = true <-> (60000 <= now - t)%Z).
Proof.
  intros E. unfold cooledDown. rewrite E, negb_true_iff, ltb_ge.
  rewrite (Zle_Qle 60000). generalize (inject_Z (now - t)). intros x.
  change (inject_Z 60000) with (1000 * 60).
  assert (Hx : x == (x / (1000 * 60)) * (1000 * 60)) by (field; discriminate).
  revert Hx. generalize (x / (1000 * 60)). intros y Hy. lra.
Qed.

Lemma checkWatchConditions_erase ToNumber r coin :
  checkWatchConditions ToNumber r coin = checkWatchConditions ToNumber (erase r) coin.
Proof. reflexivity. Qed.

Lemma newNotification_erase now r r' coin :
  erase r = erase r' -> newNotification now r coin = newNotification now r' coin.
Proof.
  intros E. unfold newNotification.
  change (id r) with (id (erase r)). change (rule_name r) with (rule_name (erase r)).
  now rewrite E.
Qed.

(** *** One call *)

Section Cooldown.

Local Open Scope list_scope.

Variable ToNumber : string -> option Q.

Abbreviation fires := (WatchSpec.fires ToNumber).
Abbreviation checkPair := (WatchService.checkPair ToNumber).
Abbreviation checkAllWatchRules := (WatchService.checkAllWatchRules ToNumber).
Abbreviation emitted := (WatchSpec.emitted ToNumber).
Abbreviation runCalls := (WatchSpec.runCalls ToNumber).
Abbreviation perRule := (WatchSpec.perRule ToNumber).
Abbreviation perRules := (WatchSpec.perRules ToNumber).

Lemma checkAllWatchRules_loops now coins w :
  checkAllWatchRules now coins w
  = perRules now coins (List.filter (fun r => enabled r) (watch_rules w)) w.
Proof. reflexivity. Qed.

Lemma updateWatchRule_inApp i u w : inApp (updateWatchRule i u w) = inApp w.
Proof.
  unfold updateWatchRule. destruct (list_find _ _) as [[k x]|]; reflexivity.
Qed.

Lemma updateWatchRule_rules i now w :
  watch_rules (updateWatchRule i (lastTriggeredUpdate now) w) = touch i now (watch_rules w).
Proof.
  unfold updateWatchRule, touch, loadWatchRules.
  destruct (list_find _ _) as [[k x]|]; reflexivity.
Qed.

Lemma checkPair_inApp now rule coin w :
  inApp (checkPair now rule coin w)
  = inApp w ++ (if fires now rule coin then [newNotification now rule coin] else []).
Proof.
  unfold WatchService.checkPair, WatchSpec.fires.
  destruct (checkWatchConditions ToNumber rule coin); simpl; [|now rewrite app_nil_r].
  destruct (cooledDown now rule); [|now rewrite app_nil_r].
  unfold triggerNotification. now rewrite updateWatchRule_inApp.
Qed.

Lemma checkPair_rules now rule coin w :
  watch_rules (checkPair now rule coin w)
  = if fires now rule coin then touch (id rule) now (watch_rules w) else watch_rules w.
Proof.
  unfold WatchService.checkPair, WatchSpec.fires.
  destruct (checkWatchConditions ToNumber rule coin); simpl; [|reflexivity].
  destruct (cooledDown now rule); [|reflexivity].
  unfold triggerNotification. now rewrite updateWatchRule_rules.
Qed.

Lemma perRule_inApp now rule coins w :
  inApp (perRule now coins rule w)
  = inApp w ++ map (newNotification now rule) (List.filter (fires now rule) coins).
Proof.
  unfold WatchSpec.perRule. revert w. induction coins as [|c cs IH]; intros w; simpl.
  - now rewrite app_nil_r.
  - rewrite IH, checkPair_inApp, <- app_assoc.
    destruct (fires now rule c); reflexivity.
Qed.

Lemma perRules_inApp now coins rs w :
  inApp (perRules now coins rs w)
  = inApp w ++ flat_map (fun rule => map (newNotification now rule)
                                         (List.filter (fires now rule) coins)) rs.
Proof.
  unfold WatchSpec.perRules. revert w. induction rs as [|r rs IH]; intros w; simpl.
  - now rewrite app_nil_r.
  - now rewrite IH, perRule_inApp, <- app_assoc.
Qed.

Lemma fires_enabled now rule coin : fires now rule coin = true -> enabled rule = true.
Proof.
  unfold WatchSpec.fires, WatchService.checkWatchConditions.
  destruct (enabled rule); [reflexivity | discriminate].
Qed.

(** The notifications of a call are those of the pairs that fire. *)
Lemma In_emitted now coins w n :
  In n (emitted now coins w) <->
  exists rule coin, In rule (watch_rules w) /\ In coin coins /\
                    fires now rule coin = true /\ n = newNotification now rule coin.
Proof.
  unfold WatchSpec.emitted. rewrite checkAllWatchRules_loops, perRules_inApp.
  rewrite drop_app_length, in_flat_map. split.
  - intros (rule & Hr & Hn). apply filter_In in Hr as [Hr _].
    apply in_map_iff in Hn as (coin & <- & Hc). apply filter_In in Hc as [Hc Hf].
    now exists rule, coin.
  - intros (rule & coin & Hr & Hc & Hf & ->). exists rule. split.
    + apply filter_In. split; [exact Hr | now apply fires_enabled in Hf].
    + apply in_map, filter_In. now split.
Qed.

(** Within one call: when the rule ids are distinct and the call receives
    each asset once, it emits at most one notification per rule/asset
    pair. *)
Lemma perRule_pairs now rule coins :
  NoDup (map symbol coins) ->
  NoDup (map pairOf (map (newNotification now rule) (List.filter (fires now rule) coins))).
Proof.
  induction coins as [|c cs IH]; intros Hnd; simpl; [constructor|].
  simpl in Hnd. apply NoDup_cons in Hnd as [Hc Hnd].
  destruct (fires now rule c); [|now apply IH]. simpl. apply NoDup_cons.
  split; [|now apply IH].
  intros Hin. apply Hc. apply list_elem_of_In in Hin. apply list_elem_of_In.
  apply in_map_iff in Hin as (n & Hn & Hin).
  apply in_map_iff in Hin as (c' & <- & Hin). apply filter_In in Hin as [Hin _].
  apply in_map_iff. exists c'. split; [|exact Hin].
  unfold pairOf in Hn. simpl in Hn. congruence.
Qed.

Lemma filter_enabled_NoDup (rs : list WatchRule) :
  NoDup (map id rs) -> NoDup (map id (List.filter (fun r => enabled r) rs)).
Proof.
  induction rs as [|r rs IH]; intros Hnd; simpl; [constructor|].
  simpl in Hnd. apply NoDup_cons in Hnd as [Hr Hnd].
  destruct (enabled r); [|now apply IH]. simpl. apply NoDup_cons.
  split; [|now apply IH].
  intros Hin. apply Hr. apply list_elem_of_In in Hin. apply list_elem_of_In.
  apply in_map_iff in Hin as (r' & E & Hin). apply filter_In in Hin as [Hin _].
  apply in_map_iff. now exists r'.
Qed.

Lemma perRules_pairs now coins rs :
  NoDup (map id rs) -> NoDup (map symbol coins) ->
  NoDup (map pairOf
           (flat_map (fun rule => map (newNotification now rule)
                                      (List.filter (fires now rule) coins)) rs)).
Proof.
  intros Hrs Hcs. induction rs as [|r rs IH]; simpl; [constructor|].
  simpl in Hrs. apply NoDup_cons in Hrs as [Hr Hrs].
  rewrite map_app. apply NoDup_app. split; [now apply perRule_pairs|].
  split; [|now apply IH].
  intros k Hk Hk'. apply Hr. apply list_elem_of_In.
  apply list_elem_of_In, in_map_iff in Hk as (n & <- & Hn).
  apply in_map_iff in Hn as (c & <- & _).
  apply list_elem_of_In, in_map_iff in Hk' as (n' & E & Hn').
  apply in_flat_map in Hn' as (r' & Hr' & Hn').
  apply in_map_iff in Hn' as (c' & <- & _).
  apply in_map_iff. exists r'. split; [|exact Hr'].
  unfold pairOf in E. simpl in E. congruence.
Qed.

Lemma emitted_once_per_pair now coins w :
  NoDup (map id (watch_rules w)) -> NoDup (map symbol coins) ->
  NoDup (map pairOf (emitted now coins w)).
Proof.
  intros Hrs Hcs. unfold WatchSpec.emitted.
  rewrite checkAllWatchRules_loops, perRules_inApp, drop_app_length.
  apply perRules_pairs; [now apply filter_enabled_NoDup | exact Hcs].
Qed.

Lemma perRule_invariant (I : list WatchRule -> Prop) now rule coins :
  (forall coin rules, In coin coins -> fires now rule coin = true ->
     I rules -> I (touch (id rule) now rules)) ->
  forall w, I (watch_rules w) -> I (watch_rules (perRule now coins rule w)).
Proof.
  unfold WatchSpec.perRule. induction coins as [|c cs IH]; intros Hstep w Hw; simpl; [exact Hw|].
  apply IH.
  - intros coin rules Hin. apply (Hstep coin rules). now right.
  - rewrite checkPair_rules. destruct (fires now rule c) eqn:Hf; [|exact Hw].
    apply (Hstep c); [now left | exact Hf | exact Hw].
Qed.

Lemma perRules_invariant (I : list WatchRule -> Prop) now coins rs :
  (forall rule coin rules, In rule rs -> In coin coins -> fires now rule coin = true ->
     I rules -> I (touch (id rule) now rules)) ->
  forall w, I (watch_rules w) -> I (watch_rules (perRules now coins rs w)).
Proof.
  unfold WatchSpec.perRules. induction rs as [|r rs IH]; intros Hstep w Hw; simpl; [exact Hw|].
  apply IH.
  - intros rule coin rules Hin. apply (Hstep rule coin rules). now right.
  - apply perRule_invariant; [|exact Hw].
    intros coin rules Hin. apply (Hstep r coin rules); [now left | exact Hin].
Qed.

(** A call changes nothing of the stored rules but trigger times. *)
Lemma perRules_erase now coins rs w :
  map erase (watch_rules (perRules now coins rs w)) = map erase (watch_rules w).
Proof.
  apply (perRules_invariant (fun rules => map erase rules = map erase (watch_rules w)));
    [|reflexivity].
  intros rule coin rules _ _ _ H. now rewrite touch_erase.
Qed.

Lemma perRules_NoDup now coins rs w :
  NoDup (map id (watch_rules w)) -> NoDup (map id (watch_rules (perRules now coins rs w))).
Proof. rewrite (map_id_erase (watch_rules (perRules _ _ _ _))), perRules_erase, <- map_id_erase. auto. Qed.

Lemma perRule_NoDup now coins rule w :
  NoDup (map id (watch_rules w)) -> NoDup (map id (watch_rules (perRule now coins rule w))).
Proof. apply (perRules_NoDup now coins [rule] w). Qed.

(** A trigger time written by this call is not overwritten by it. *)
Lemma perRule_keeps_now i now coins rule w :
  lastTriggeredIs i now (watch_rules w) ->
  lastTriggeredIs i now (watch_rules (perRule now coins rule w)).
Proof.
  apply perRule_invariant. intros coin rules _ _.
  apply touch_lastTriggered_other. now right.
Qed.

Lemma perRules_keeps_now i now coins rs w :
  lastTriggeredIs i now (watch_rules w) ->
  lastTriggeredIs i now (watch_rules (perRules now coins rs w)).
Proof.
  apply perRules_invariant. intros rule coin rules _ _ _.
  apply touch_lastTriggered_other. now right.
Qed.

Lemma perRule_sets now coins rule w :
  NoDup (map id (watch_rules w)) ->
  (exists coin, In coin coins /\ fires now rule coin = true) ->
  lastTriggeredIs (id rule) now (watch_rules (perRule now coins rule w)).
Proof.
  revert w. induction coins as [|c cs IH]; intros w Hnd (coin & Hin & Hf).
  - destruct Hin.
  - change (perRule now (c :: cs) rule w) with (perRule now cs rule (checkPair now rule c w)).
    destruct (fires now rule c) eqn:Hc.
    + apply perRule_keeps_now. rewrite checkPair_rules, Hc.
      now apply touch_lastTriggered_same.
    + apply IH.
      * now rewrite checkPair_rules, Hc.
      * destruct Hin as [->|Hin]; [congruence | now exists coin].
Qed.

Lemma perRules_sets now coins rs w rule coin :
  NoDup (map id (watch_rules w)) ->
  In rule rs -> In coin coins -> fires now rule coin = true ->
  lastTriggeredIs (id rule) now (watch_rules (perRules now coins rs w)).
Proof.
  revert w. induction rs as [|r rs IH]; intros w Hnd Hr Hc Hf; [destruct Hr|].
  change (perRules now coins (r :: rs) w) with (perRules now coins rs (perRule now coins r w)).
  destruct (existsb (fires now r) coins && bool_decide (id r = id rule)) eqn:E.
  - apply andb_true_iff in E as [E Eid]. apply bool_decide_eq_true in Eid.
    apply existsb_exists in E. apply perRules_keeps_now. rewrite <- Eid.
    now apply perRule_sets.
  - destruct Hr as [->|Hr].
    + exfalso. rewrite bool_decide_eq_true_2, andb_true_r in E by reflexivity.
      apply not_true_iff_false in E. apply E, existsb_exists. now exists coin.
    + apply IH; [now apply perRule_NoDup | assumption..].
Qed.

(** Within the cooldown window of [t], a call leaves the trigger time [t]
    in place. *)
Lemma call_keeps i t now coins w :
  (now - t < 60000)%Z ->
  lastTriggeredIs i t (watch_rules w) ->
  lastTriggeredIs i t (watch_rules (checkAllWatchRules now coins w)).
Proof.
  intros Ht Hw. rewrite checkAllWatchRules_loops.
  apply perRules_invariant; [|exact Hw].
  intros rule coin rules Hr _ Hf. apply touch_lastTriggered_other. left.
  intros Hid. apply filter_In in Hr as [Hr _].
  unfold lastTriggeredIs in Hw. rewrite Forall_forall in Hw.
  assert (Hlt : lastTriggered rule = Some t).
  { apply Hw; [now apply list_elem_of_In | exact Hid]. }
  apply andb_true_iff in Hf as [_ Hcd].
  apply (cooledDown_iff now rule t Hlt) in Hcd. lia.
Qed.

Lemma runCalls_keeps i t calls w :
  Forall (fun call => (fst call - t < 60000)%Z) calls ->
  lastTriggeredIs i t (watch_rules w) ->
  lastTriggeredIs i t (watch_rules (runCalls calls w)).
Proof.
  unfold WatchSpec.runCalls. revert w.
  induction calls as [|[now coins] calls IH]; intros w Hc Hw; simpl; [exact Hw|].
  inversion Hc; subst. apply IH; [assumption|]. now apply call_keeps.
Qed.

Lemma runCalls_erase calls w :
  map erase (watch_rules (runCalls calls w)) = map erase (watch_rules w).
Proof.
  unfold WatchSpec.runCalls. revert w.
  induction calls as [|[now coins] calls IH]; intros w; simpl; [reflexivity|].
  rewrite IH, checkAllWatchRules_loops. apply perRules_erase.
Qed.

(** C4. Let a call at time [t1] emit a notification [n] for a rule and an
    asset, in a store whose rule ids are distinct.  Then, after any number
    of further calls made less than 60 seconds after [t1], a call at [t2]
    less than 60 seconds after [t1] emits no notification for that rule,
    for that asset or any other; and a call at [t2] 60 seconds or more after
    [t1] emits a notification for that rule and every asset it receives on
    which the conditions of the rule hold. *)
Theorem C4_cooldown (w : World) (t1 : Z) (coins1 : list CoinData) (n : WatchNotification)
    (later : list (Z * list CoinData)) (t2 : Z) (coins2 : list CoinData) :
  NoDup (map id (watch_rules w)) ->
  In n (emitted t1 coins1 w) ->
  Forall (fun call => (fst call - t1 < 60000)%Z) later ->
  let w' := runCalls later (checkAllWatchRules t1 coins1 w) in
  ((t2 - t1 < 60000)%Z ->
     forall n2, In n2 (emitted t2 coins2 w') -> watchRuleId n2 <> watchRuleId n) /\
  ((60000 <= t2 - t1)%Z ->
     forall rule coin, In rule (watch_rules w) -> id rule = watchRuleId n ->
       In coin coins2 -> checkWatchConditions ToNumber rule coin = true ->
       In (newNotification t2 rule coin) (emitted t2 coins2 w')).
Proof.
  intros Hnd Hn Hlater w'.
  apply In_emitted in Hn as (rule1 & coin1 & Hr1 & Hc1 & Hf1 & ->).
  assert (Hlast : lastTriggeredIs (id rule1) t1 (watch_rules w')).
  { apply runCalls_keeps; [exact Hlater|]. rewrite checkAllWatchRules_loops.
    apply (perRules_sets t1 coins1 _ w rule1 coin1); try assumption.
    apply filter_In. split; [exact Hr1 | now apply fires_enabled in Hf1]. }
  unfold lastTriggeredIs in Hlast. rewrite Forall_forall in Hlast.
  split.
  - intros Ht n2 Hn2 Hid.
    apply In_emitted in Hn2 as (rule2 & coin2 & Hr2 & _ & Hf2 & ->).
    simpl in Hid.
    assert (Hlt : lastTriggered rule2 = Some t1).
    { apply Hlast; [now apply list_elem_of_In | exact Hid]. }
    apply andb_true_iff in Hf2 as [_ Hcd].
    apply (cooledDown_iff t2 rule2 t1 Hlt) in Hcd. lia.
  - intros Ht rule coin Hr Hid Hc Hm. simpl in Hid.
    assert (He : In (erase rule) (map erase (watch_rules w'))).
    { unfold w'. rewrite runCalls_erase, checkAllWatchRules_loops, perRules_erase.
      now apply in_map. }
    apply in_map_iff in He as (rule' & He & Hr').
    rewrite <- (newNotification_erase t2 rule' rule coin He).
    apply In_emitted. exists rule', coin. repeat split; try assumption.
    unfold WatchSpec.fires.
    rewrite checkWatchConditions_erase, He, <- checkWatchConditions_erase, Hm.
    simpl. apply (cooledDown_iff t2 rule' t1); [|exact Ht].
    apply Hlast; [now apply list_elem_of_In|].
    change (id rule') with (id (erase rule')). now rewrite He.
Qed.

End Cooldown.

(** *** Instances *)

Lemma C5_empty_conditions_never_match_witness :
  checkWatchConditions noNumber (ruleOf None []) (eth (Some mediumRisk)) = false.
Proof. apply (C5_empty_conditions_never_match noNumber). reflexivity. Defined.

Lemma C9_empty_scope_is_all_witness :
  checkWatchConditions noNumber (ruleOf (Some []) [priceAbove5]) (eth (Some mediumRisk))
  = checkWatchConditions noNumber (withScope (ruleOf (Some []) [priceAbove5]) None)
                         (eth (Some mediumRisk)).
Proof.
  apply (C9_empty_scope_is_all noNumber (ruleOf (Some []) [priceAbove5])). reflexivity.
Defined.

Lemma C10_no_assessment_no_match_witness :
  checkCondition noNumber priceAbove5 (eth None) = false /\
  checkWatchConditions noNumber (ruleOf None [priceAbove5]) (eth None) = false.
Proof.
  destruct (C10_no_assessment_no_match noNumber (eth None)) as [Hc Hr]; [exact I|].
  split; [apply Hc | apply Hr; discriminate].
Defined.

Lemma C7_equality_tolerance_witness :
  compareValues (1 # 2) "==" 0 = false /\ compareValues double5_01 "==" 5 = true.
Proof.
  destruct (C7_equality_tolerance (1 # 2) 0) as (_ & _ & _ & Hhalf).
  destruct (C7_equality_tolerance double5_01 5) as (Hnear & _).
  split.
  - apply Hhalf. reflexivity.
  - apply Hnear. vm_compute. discriminate.
Defined.

(** The claim C7 as the specification words it fails on doubles: the
    doubles of -0.0038 and -0.0138 differ by less than 1/100, and the
    double nearest to their difference is the double 0.01, which is not
    below itself. *)
Lemma C7_below_a_hundredth_counterexample :
  ~ (forall actual threshold,
       JsDouble.isDouble actual = true -> JsDouble.isDouble threshold = true ->
       (compareValues actual "==" threshold = true
        <-> Qabs (actual - threshold) < 1 # 100)).
Proof.
  intros H.
  assert (Ha : JsDouble.isDouble doubleMinus0_0038 = true) by (vm_compute; reflexivity).
  assert (Ht : JsDouble.isDouble doubleMinus0_0138 = true) by (vm_compute; reflexivity).
  assert (Hc : compareValues doubleMinus0_0038 "==" doubleMinus0_0138 = false)
    by (vm_compute; reflexivity).
  specialize (H _ _ Ha Ht). rewrite Hc in H.
  assert (Hlt : Qabs (doubleMinus0_0038 - doubleMinus0_0138) < 1 # 100)
    by (vm_compute; reflexivity).
  apply H in Hlt. discriminate Hlt.
Qed.

(** The equality test at the bound.  The difference of the doubles of
    -0.0038 and -0.0138 is rounded up to the double 0.01; the double of
    5.01 is below 5.01, so that it matches 5 although 5.01 - 5 is not below
    0.01. *)
Example equality_at_the_bound :
  JsDouble.sub doubleMinus0_0038 doubleMinus0_0138 = Some JsDouble.d0_01 /\
  Qabs (doubleMinus0_0038 - doubleMinus0_0138) < 1 # 100 /\
  compareValues doubleMinus0_0038 "==" doubleMinus0_0138 = false /\
  JsDouble.sub double5_01 5 = Some (5629499534213 # 2 ^ 49) /\
  ~ Qabs ((501 # 100) - 5) < 1 # 100 /\
  compareValues double5_01 "==" 5 = true.
Proof.
  split; [vm_compute; reflexivity|]. split; [vm_compute; reflexivity|].
  split; [vm_compute; reflexivity|]. split; [vm_compute; reflexivity|].
  split; [vm_compute; discriminate | vm_compute; reflexivity].
Qed.

Lemma risk_cases_instances :
  checkCondition noNumber scoreAbove50 (eth (Some unavailableLow)) = false /\
  checkCondition noNumber levelIsLow (eth (Some unavailableLow)) = false /\
  checkCondition noNumber scoreAbove50 (eth (Some mediumRisk))
  = compareWithValue noNumber 58 ">" (VNum 50) /\
  checkCondition noNumber levelAtLeastHigh (eth (Some mediumRisk))
  = compareValues (getRiskLevelValue "MEDIUM") ">=" (getRiskLevelValue "HIGH").
Proof.
  destruct (risk_cases noNumber scoreAbove50 (eth (Some unavailableLow))
              unavailableLow someStats eq_refl eq_refl) as ((Hs & _) & _); [reflexivity|].
  destruct (risk_cases noNumber levelIsLow (eth (Some unavailableLow))
              unavailableLow someStats eq_refl eq_refl) as (_ & (_ & Hl & _) & _);
    [reflexivity|].
  destruct (risk_cases noNumber scoreAbove50 (eth (Some mediumRisk))
              mediumRisk someStats eq_refl eq_refl) as ((_ & Hn) & _); [reflexivity|].
  destruct (risk_cases noNumber levelAtLeastHigh (eth (Some mediumRisk))
              mediumRisk someStats eq_refl eq_refl) as (_ & (_ & _ & Ho) & _);
    [reflexivity|].
  split; [|split; [|split]].
  - apply Hs. reflexivity.
  - apply Hl; [reflexivity|]. exists (-1). split; reflexivity.
  - apply (Hn 58); [reflexivity | discriminate].
  - apply (Ho "MEDIUM"); [reflexivity | reflexivity |].
    intros [E _]. discriminate E.
Qed.

Lemma C4_cooldown_witness :
  let w' := runCalls noNumber [(1030000%Z, market)]
              (checkAllWatchRules noNumber 1000000 market oneRule) in
  ((1045000 - 1000000 < 60000)%Z ->
     forall n2, In n2 (emitted noNumber 1045000 market w') ->
       watchRuleId n2 <> watchRuleId (newNotification 1000000 (ruleOf None [priceAbove5])
                                                      (eth (Some mediumRisk)))) /\
  ((60000 <= 1045000 - 1000000)%Z ->
     forall rule coin, In rule (watch_rules oneRule) ->
       id rule = watchRuleId (newNotification 1000000 (ruleOf None [priceAbove5])
                                              (eth (Some mediumRisk))) ->
       In coin market -> checkWatchConditions noNumber rule coin = true ->
       In (newNotification 1045000 rule coin) (emitted noNumber 1045000 market w')).
Proof.
  apply (C4_cooldown noNumber oneRule 1000000 market
           (newNotification 1000000 (ruleOf None [priceAbove5]) (eth (Some mediumRisk)))
           [(1030000%Z, market)] 1045000 market).
  - apply NoDup_singleton.
  - vm_compute. left. reflexivity.
  - repeat constructor.
Defined.

(** The examples of the specification for a price-change rule, and two
    runs of the evaluator. *)
Example price_rule_matches :
  checkWatchConditions noNumber (ruleOf None [priceAbove5]) (eth (Some mediumRisk)) = true /\
  checkWatchConditions noNumber (ruleOf None [priceAbove5]) (sol 3) = false.
Proof. split; reflexivity. Qed.

Example scoped_rule_skips_other_asset :
  checkWatchConditions noNumber (ruleOf (Some ["BTC"]) [priceAbove5]) (eth (Some mediumRisk))
  = false.
Proof. reflexivity. Qed.

Example retrigger_after_a_minute :
  let w1 := checkAllWatchRules noNumber 1000000 market oneRule in
  length (emitted noNumber 1000000 market oneRule) = 1%nat /\
  emitted noNumber 1059999 market w1 = [] /\
  emitted noNumber 1060000 market w1
  = [newNotification 1060000 (ruleOf None [priceAbove5]) (eth (Some mediumRisk))].
Proof. repeat split; vm_compute; reflexivity. Qed.

(** Within one call the loaded rule is not refreshed, so a rule notifies
    every asset that matches in that call. *)
Example one_call_notifies_each_matching_asset :
  emitted noNumber 1000000 [eth (Some mediumRisk); sol 9] oneRule
  = [newNotification 1000000 (ruleOf None [priceAbove5]) (eth (Some mediumRisk));
     newNotification 1000000 (ruleOf None [priceAbove5]) (sol 9)].
Proof. vm_compute. reflexivity. Qed.

End WatchFacts.

(** ** Further properties of the scoring function *)

Module ScoringFacts.
Import Js JsFacts GeminiService GeminiSpec GeminiFacts ScoringSpec.

Local Open Scope string_scope.

Lemma Math_round_mono x y : x <= y -> (Math_round x <= Math_round y)%Z.
Proof. intros H. unfold Math_round. apply Qfloor_resp_le. lra. Qed.

Lemma Math_round_below x (k : Z) : x < inject_Z k -> (Math_round x <= k)%Z.
Proof.
  intros H. unfold Math_round.
  assert (Hk : (Qfloor (x + (1 # 2)) < k + 1)%Z); [|lia].
  rewrite Zlt_Qlt. eapply Qle_lt_trans; [apply Qfloor_le|].
  rewrite inject_Z_plus. change (inject_Z 1) with 1. lra.
Qed.

Lemma Math_round_above x (k : Z) : inject_Z k <= x -> (k <= Math_round x)%Z.
Proof.
  intros H. unfold Math_round. rewrite <- (Qfloor_Z k). apply Qfloor_resp_le. lra.
Qed.

Lemma levelOf_cases t :
  (levelOf t = "HIGH" /\ 70 <= t) \/
  (levelOf t = "MEDIUM" /\ 40 <= t /\ t < 70) \/
  (levelOf t = "LOW" /\ t < 40).
Proof.
  unfold levelOf. destruct (geb t 70) eqn:E70.
  - left. apply geb_ge in E70. now split.
  - apply leb_gt in E70. destruct (geb t 40) eqn:E40.
    + right. left. apply geb_ge in E40. now repeat split.
    + right. right. apply leb_gt in E40. now split.
Qed.

(** X1. The level is decided on the total before rounding, so the score
    that goes with a level lies in a closed range: HIGH comes with a score of
    at least 70, MEDIUM with a score from 40 to 70, LOW with a score of at
    most 40, and no other level is returned; the score 70 with the level
    MEDIUM does occur. *)
Theorem X1_level_and_score (stats : AnalysisStats) (r : ScoreResult) :
  calculateRiskScore stats = Some r ->
  ((level r = "HIGH" /\ (70 <= score r)%Z) \/
   (level r = "MEDIUM" /\ (40 <= score r <= 70)%Z) \/
   (level r = "LOW" /\ (score r <= 40)%Z)) /\
  calculateRiskScore justBelowHigh = Some {| score := 70; level := "MEDIUM" |}.
Proof.
  intros H. split; [|vm_compute; reflexivity].
  unfold calculateRiskScore in H. destruct (totalScore stats) as [t|]; [|discriminate].
  simpl in H. injection H as <-. simpl.
  destruct (levelOf_cases t) as [[-> Ht]|[(-> & Ht & Ht')|[-> Ht]]].
  - left. split; [reflexivity|]. now apply Math_round_above.
  - right. left. split; [reflexivity|]. split.
    + now apply Math_round_above.
    + now apply Math_round_below.
  - right. right. split; [reflexivity|]. now apply Math_round_below.
Qed.

Lemma X1_level_and_score_witness :
  ((level {| score := 58; level := "MEDIUM" |} = "HIGH" /\ (70 <= 58)%Z) \/
   (level {| score := 58; level := "MEDIUM" |} = "MEDIUM" /\ (40 <= 58 <= 70)%Z) \/
   (level {| score := 58; level := "MEDIUM" |} = "LOW" /\ (58 <= 40)%Z)) /\
  calculateRiskScore justBelowHigh = Some {| score := 70; level := "MEDIUM" |}.
Proof.
  apply (X1_level_and_score specExample {| score := 58; level := "MEDIUM" |}).
  vm_compute. reflexivity.
Defined.

Lemma levelOf_mono t t' :
  t <= t' ->
  (levelOf t = "HIGH" -> levelOf t' = "HIGH") /\ (levelOf t' = "LOW" -> levelOf t = "LOW").
Proof.
  intros H.
  destruct (levelOf_cases t) as [[-> Ht]|[(-> & Ht & Ht1)|[-> Ht]]];
    destruct (levelOf_cases t') as [[-> Hu]|[(-> & Hu & Hu1)|[-> Hu]]];
    split; intros E; try reflexivity; try discriminate E; exfalso; lra.
Qed.

Lemma neverLower_of_totals stats stats' t t' :
  totalScore stats = Some t -> totalScore stats' = Some t' -> t <= t' ->
  neverLower stats stats'.
Proof.
  intros E E' H. unfold neverLower, calculateRiskScore. rewrite E, E'. simpl.
  eexists. eexists. split; [reflexivity|]. split; [reflexivity|]. simpl.
  split; [now apply Math_round_mono | now apply levelOf_mono].
Qed.

Lemma negRatio_mono neg neg' tot :
  neg <= neg' ->
  exists r r', (if gtb tot 0 then jsdiv neg tot else Some 0) = Some r /\
               (if gtb tot 0 then jsdiv neg' tot else Some 0) = Some r' /\ r <= r'.
Proof.
  intros H. destruct (gtb tot 0) eqn:E.
  - apply gtb_gt in E. exists (neg / tot), (neg' / tot).
    rewrite !jsdiv_Some by lra. repeat split.
    unfold Qdiv. apply Qmult_le_compat_r; [exact H|].
    apply Qinv_le_0_compat. lra.
  - exists 0, 0. repeat split. lra.
Qed.

(** X2. More negative news items or more negative social items, with the
    totals and everything else unchanged, never lower the score and never
    make the level less severe. *)
Theorem X2_more_negatives_never_lower (stats : AnalysisStats) (n n' s s' : Q) :
  n <= n' -> s <= s' ->
  neverLower (withNegatives stats n s) (withNegatives stats n' s').
Proof.
  intros Hn Hs.
  destruct (negRatio_mono n n' (News.totalCount (news stats)) Hn) as (rn & rn' & En & En' & Hrn).
  destruct (negRatio_mono s s' (Social.totalCount (social stats)) Hs) as (rs & rs' & Es & Es' & Hrs).
  eapply neverLower_of_totals.
  - unfold totalScore, newsScore, negScore, socialScore, newsNegRatio, socialNegRatio.
    simpl. rewrite En, Es. simpl. reflexivity.
  - unfold totalScore, newsScore, negScore, socialScore, newsNegRatio, socialNegRatio.
    simpl. rewrite En', Es'. simpl. reflexivity.
  - change (onChainScore (withNegatives stats n s)) with (onChainScore stats).
    change (onChainScore (withNegatives stats n' s')) with (onChainScore stats).
    change (riskTagStrength (withNegatives stats n s)) with (riskTagStrength stats).
    change (riskTagStrength (withNegatives stats n' s')) with (riskTagStrength stats).
    lra.
Qed.

Lemma X2_more_negatives_never_lower_witness :
  neverLower (withNegatives specExample 40 10) (withNegatives specExample 60 25).
Proof. apply X2_more_negatives_never_lower; discriminate. Defined.

(** The part of the news sub-score that comes from the tags. *)
Lemma newsScore_tagPart stats :
  newsScore stats =
    (s ← negScore stats;
     Some (s + (if gtb (numberOfNat (length (News.riskTags (news stats)))) 0
                then riskTagStrength stats else 0))).
Proof. reflexivity. Qed.

Lemma maxTagWeight_from m tags :
  m <= fold_left (fun m tag => let w := tagWeight tag in if gtb w m then w else m) tags m.
Proof.
  revert m. induction tags as [|tag tags IH]; intros m; simpl; [lra|].
  eapply Qle_trans; [|apply IH].
  destruct (gtb (tagWeight tag) m) eqn:E; [|lra]. apply gtb_gt in E. lra.
Qed.

Lemma maxTagWeight_app tags more : maxTagWeight tags <= maxTagWeight (tags ++ more).
Proof. unfold maxTagWeight. rewrite fold_left_app. apply maxTagWeight_from. Qed.

Lemma Math_min_mono a b b' : b <= b' -> Math_min a b <= Math_min a b'.
Proof.
  intros H. apply Math_min_glb.
  - apply Math_min_le_l.
  - eapply Qle_trans; [apply Math_min_le_r | exact H].
Qed.

Lemma numberOfNat_le n m : (n <= m)%nat -> numberOfNat n <= numberOfNat m.
Proof. intros H. unfold numberOfNat. rewrite <- Zle_Qle. lia. Qed.

(** X3. Further risk tags on a snapshot, with everything else unchanged,
    never lower the score and never make the level less severe. *)
Theorem X3_more_tags_never_lower (stats : AnalysisStats) (tags more : list string) :
  neverLower (withTags stats tags) (withTags stats (tags ++ more)).
Proof.
  destruct (negRatio_total (News.negativeCount (news stats)) (News.totalCount (news stats)))
    as (rn & En).
  destruct (negRatio_total (Social.negativeCount (social stats)) (Social.totalCount (social stats)))
    as (rs & Es).
  eapply neverLower_of_totals.
  - unfold totalScore, newsScore, negScore, socialScore, newsNegRatio, socialNegRatio.
    simpl. rewrite En, Es. simpl. reflexivity.
  - unfold totalScore, newsScore, negScore, socialScore, newsNegRatio, socialNegRatio.
    simpl. rewrite En, Es. simpl. reflexivity.
  - change (onChainScore (withTags stats tags)) with (onChainScore stats).
    change (onChainScore (withTags stats (tags ++ more))) with (onChainScore stats).
    pose proof (tagPart_bounds (withTags stats (tags ++ more))) as [Hp _]. simpl in Hp.
    assert (Hpart :
      (if gtb (numberOfNat (length tags)) 0 then riskTagStrength (withTags stats tags) else 0)
      <= (if gtb (numberOfNat (length (tags ++ more))) 0
          then riskTagStrength (withTags stats (tags ++ more)) else 0)); [|lra].
    destruct (gtb (numberOfNat (length tags)) 0) eqn:E; [|exact Hp].
    assert (Hlen : numberOfNat (length tags) <= numberOfNat (length (tags ++ more))).
    { apply numberOfNat_le. rewrite length_app. lia. }
    assert (E' : gtb (numberOfNat (length (tags ++ more))) 0 = true).
    { apply gtb_gt. apply gtb_gt in E. lra. }
    rewrite E'. apply numberOfNat_pos in E. unfold riskTagStrength. simpl.
    apply Math_min_mono.
    pose proof (maxTagWeight_nonneg tags) as H0.
    pose proof (maxTagWeight_app tags more) as H1.
    apply Qmult_le_compat_nonneg; split; lra.
Qed.

Lemma nfScore_mono nf nf' : nf <= nf' -> nfScore nf <= nfScore nf'.
Proof.
  intros H. unfold nfScore.
  repeat match goal with
         | |- context [geb ?a ?b] =>
             let E := fresh "E" in
             destruct (geb a b) eqn:E; [apply geb_ge in E | apply leb_gt in E]
         end; lra.
Qed.

Lemma aaScore_anti aa aa' : aa' <= aa -> aaScore aa <= aaScore aa'.
Proof.
  intros H. unfold aaScore.
  repeat match goal with
         | |- context [leb ?a ?b] =>
             let E := fresh "E" in
             destruct (leb a b) eqn:E; [apply leb_le in E | apply leb_gt in E]
         end; lra.
Qed.

(** X4. A higher net inflow, or a lower change of active addresses, with
    everything else unchanged, never lowers the score and never makes the
    level less severe. *)
Theorem X4_on_chain_direction (stats : AnalysisStats) (nf nf' aa aa' : Q) :
  nf <= nf' -> aa' <= aa ->
  neverLower (withOnChain stats nf aa) (withOnChain stats nf' aa').
Proof.
  intros Hnf Haa.
  destruct (negRatio_total (News.negativeCount (news stats)) (News.totalCount (news stats)))
    as (rn & En).
  destruct (negRatio_total (Social.negativeCount (social stats)) (Social.totalCount (social stats)))
    as (rs & Es).
  eapply neverLower_of_totals.
  - unfold totalScore, newsScore, negScore, socialScore, newsNegRatio, socialNegRatio.
    simpl. rewrite En, Es. simpl. reflexivity.
  - unfold totalScore, newsScore, negScore, socialScore, newsNegRatio, socialNegRatio.
    simpl. rewrite En, Es. simpl. reflexivity.
  - change (riskTagStrength (withOnChain stats nf aa)) with (riskTagStrength stats).
    change (riskTagStrength (withOnChain stats nf' aa')) with (riskTagStrength stats).
    unfold onChainScore. simpl.
    pose proof (nfScore_mono nf nf' Hnf). pose proof (aaScore_anti aa aa' Haa). lra.
Qed.

Lemma X4_on_chain_direction_witness :
  neverLower (withOnChain specExample 5 10) (withOnChain specExample 25 (-25)).
Proof. apply X4_on_chain_direction; discriminate. Defined.

(** X5. For counts that are non-negative with negativeCount <= totalCount
    the score is at least 4: the on-chain part alone contributes at least
    4.2, so [calculateRiskScore] never returns the score 0. *)
Theorem X5_score_at_least_4 (stats : AnalysisStats) :
  countsOk (News.negativeCount (news stats)) (News.totalCount (news stats)) ->
  countsOk (Social.negativeCount (social stats)) (Social.totalCount (social stats)) ->
  exists r, calculateRiskScore stats = Some r /\ (4 <= score r)%Z.
Proof.
  intros Hn Hs.
  destruct (negRatio_unit _ _ Hn) as (rn & En & Hrn).
  destruct (negRatio_unit _ _ Hs) as (rs & Es & Hrs).
  pose proof (tagPart_bounds stats) as Ht. simpl in Ht.
  pose proof (onChainScore_bounds stats) as Ho.
  unfold calculateRiskScore, totalScore, newsScore, negScore, socialScore,
    newsNegRatio, socialNegRatio.
  rewrite En, Es. simpl. eexists. split; [reflexivity|]. simpl.
  apply Math_round_above. change (inject_Z 4) with 4. lra.
Qed.

Lemma X5_score_at_least_4_witness :
  exists r, calculateRiskScore zeroCounts = Some r /\ (4 <= score r)%Z.
Proof. apply X5_score_at_least_4; split; discriminate. Defined.

End ScoringFacts.

(** ** Further properties of the rule store *)

Module WatchStoreFacts.
Import Js JsFacts WatchService WatchSpec WatchFacts WatchStore.

Local Open Scope string_scope.
Local Open Scope list_scope.

Lemma world_eq (w w' : World) :
  watch_rules w = watch_rules w' ->
  watch_notifications w = watch_notifications w' ->
  inApp w = inApp w' -> w = w'.
Proof. destruct w, w'. simpl. intros -> -> ->. reflexivity. Qed.

Lemma list_find_id_None (i : string) (rules : list WatchRule) :
  (forall r, In r rules -> id r <> i) -> list_find (fun r => id r = i) rules = None.
Proof.
  intros H. apply list_find_None, Forall_forall.
  intros r Hr. apply H. now apply list_elem_of_In.
Qed.

Lemma list_find_id_first (i : string) (l1 l2 : list WatchRule) (r : WatchRule) :
  (forall x, In x l1 -> id x <> i) -> id r = i ->
  list_find (fun r => id r = i) (l1 ++ r :: l2) = Some (length l1, r).
Proof.
  intros H Hr. induction l1 as [|x l1 IH]; simpl.
  - destruct (decide (id r = i)); [reflexivity | contradiction].
  - destruct (decide (id x = i)) as [E|E].
    + exfalso. apply (H x); [now left | exact E].
    + rewrite IH; [reflexivity|]. intros y Hy. apply H. now right.
Qed.

(** X6. [updateWatchRule] replaces the first stored rule that has the id by
    its merge with the update and leaves the rules before and after it, the
    notification history and the delivered notifications as they are; when
    no stored rule has the id, nothing changes. *)
Theorem X6_update_first_match (i : string) (updates : PartialWatchRule) (w : World) :
  ((forall r, In r (watch_rules w) -> id r <> i) -> updateWatchRule i updates w = w) /\
  (forall l1 r l2,
     watch_rules w = l1 ++ r :: l2 -> id r = i -> (forall x, In x l1 -> id x <> i) ->
     updateWatchRule i updates w
     = {| watch_rules := l1 ++ merge r updates :: l2;
          watch_notifications := watch_notifications w;
          inApp := inApp w |}).
Proof.
  split.
  - intros H. unfold updateWatchRule, loadWatchRules.
    now rewrite list_find_id_None.
  - intros l1 r l2 E Hr Hl1. unfold updateWatchRule, loadWatchRules, saveWatchRules.
    rewrite E, (list_find_id_first i l1 l2 r Hl1 Hr). f_equal.
    replace (length l1) with (length l1 + 0)%nat by lia.
    now rewrite insert_app_r.
Qed.

Lemma X6_update_first_match_witness :
  updateWatchRule "watch_2" (enabledUpdate false) oneRule = oneRule /\
  updateWatchRule "watch_1" (enabledUpdate false) oneRule
  = {| watch_rules := [] ++ merge (ruleOf None [priceAbove5]) (enabledUpdate false) :: [];
       watch_notifications := []; inApp := [] |}.
Proof.
  destruct (X6_update_first_match "watch_2" (enabledUpdate false) oneRule) as [H _].
  destruct (X6_update_first_match "watch_1" (enabledUpdate false) oneRule) as [_ H'].
  split.
  - apply H. intros r [<-|[]]. discriminate.
  - apply (H' [] (ruleOf None [priceAbove5]) []); [reflexivity | reflexivity |].
    intros x [].
Defined.

Lemma filter_other_ids (i : string) (rules : list WatchRule) :
  (forall r, In r rules -> id r <> i) ->
  List.filter (fun r => negb (id r =? i)) rules = rules.
Proof.
  intros H. induction rules as [|r rules IH]; simpl; [reflexivity|].
  assert (E : (id r =? i) = false).
  { apply String.eqb_neq. apply H. now left. }
  rewrite E. simpl. rewrite IH; [reflexivity|]. intros x Hx. apply H. now right.
Qed.

(** X7. [deleteWatchRule] removes every stored rule that has the id, also
    when several do, keeps exactly the rules with another id, and leaves the
    notification history alone; deleting an id that no rule has changes
    nothing, and deleting twice is the same as deleting once. *)
Theorem X7_delete_by_id (i : string) (w : World) :
  (forall r, In r (watch_rules (deleteWatchRule i w)) <->
             In r (watch_rules w) /\ id r <> i) /\
  watch_notifications (deleteWatchRule i w) = watch_notifications w /\
  ((forall r, In r (watch_rules w) -> id r <> i) -> deleteWatchRule i w = w) /\
  deleteWatchRule i (deleteWatchRule i w) = deleteWatchRule i w.
Proof.
  assert (Hin : forall r, In r (watch_rules (deleteWatchRule i w)) <->
                          In r (watch_rules w) /\ id r <> i).
  { intros r. unfold deleteWatchRule, loadWatchRules. simpl.
    rewrite filter_In, negb_true_iff, String.eqb_neq. reflexivity. }
  split; [exact Hin|]. split; [reflexivity|]. split.
  - intros H. apply world_eq; try reflexivity.
    unfold deleteWatchRule, loadWatchRules. simpl. now apply filter_other_ids.
  - apply world_eq; try reflexivity.
    unfold deleteWatchRule at 1. unfold loadWatchRules. simpl.
    apply filter_other_ids. intros r Hr. now apply Hin in Hr.
Qed.

Lemma X7_delete_by_id_witness : deleteWatchRule "watch_2" oneRule = oneRule.
Proof.
  destruct (X7_delete_by_id "watch_2" oneRule) as (_ & _ & H & _).
  apply H. intros r [<-|[]]. discriminate.
Defined.

(** X8. Adding a rule under an id that no stored rule has, and then
    deleting that id, gives back the store as it was; the added rule is the
    last one of the store, and the ids stay distinct. *)
Theorem X8_add_then_delete (newId : string) (now : Z) (rule : WatchRule) (w : World) :
  (forall r, In r (watch_rules w) -> id r <> newId) ->
  deleteWatchRule newId (fst (addWatchRule newId now rule w)) = w /\
  watch_rules (fst (addWatchRule newId now rule w))
  = watch_rules w ++ [snd (addWatchRule newId now rule w)] /\
  (NoDup (map id (watch_rules w)) ->
   NoDup (map id (watch_rules (fst (addWatchRule newId now rule w))))).
Proof.
  intros Hfresh. split; [|split].
  - apply world_eq; try reflexivity.
    unfold deleteWatchRule, addWatchRule, loadWatchRules. simpl.
    rewrite List.filter_app. simpl. rewrite String.eqb_refl. simpl.
    rewrite app_nil_r. now apply filter_other_ids.
  - reflexivity.
  - intros Hnd. unfold addWatchRule, loadWatchRules. simpl.
    rewrite map_app. simpl. apply NoDup_app. split; [exact Hnd|].
    split; [|apply NoDup_singleton].
    intros x Hx Hx'. apply list_elem_of_In in Hx, Hx'.
    destruct Hx' as [<-|[]]. apply in_map_iff in Hx as (r & Hr & Hin).
    now apply (Hfresh r).
Qed.

Lemma X8_add_then_delete_witness :
  deleteWatchRule "watch_2" (fst (addWatchRule "watch_2" 5 (ruleOf None []) oneRule)) = oneRule.
Proof.
  destruct (X8_add_then_delete "watch_2" 5 (ruleOf None []) oneRule) as [H _]; [|exact H].
  intros r [<-|[]]. discriminate.
Defined.

End WatchStoreFacts.

(** ** Further properties of a call of [checkAllWatchRules] *)

Module WatchCallFacts.
Import Js JsFacts WatchService WatchSpec WatchFacts WatchStore WatchStoreFacts.

Local Open Scope string_scope.
Local Open Scope list_scope.

Lemma updateRules_cons i u r rs :
  updateRules i u (r :: rs) =
    if decide (id r = i) then merge r u :: rs else r :: updateRules i u rs.
Proof.
  unfold updateRules. simpl. destruct (decide (id r = i)); [reflexivity|].
  destruct (list_find _ rs) as [[k x]|]; reflexivity.
Qed.

Lemma updateWatchRule_updateRules i u w :
  watch_rules (updateWatchRule i u w) = updateRules i u (watch_rules w).
Proof.
  unfold updateWatchRule, updateRules, loadWatchRules.
  destruct (list_find _ _) as [[k x]|]; reflexivity.
Qed.

Lemma disabled_after_update i rules :
  NoDup (map id rules) ->
  forall r, In r (updateRules i (enabledUpdate false) rules) -> id r = i -> enabled r = false.
Proof.
  induction rules as [|x rules IH]; intros Hnd r Hr Hid; [destruct Hr|].
  simpl in Hnd. apply NoDup_cons in Hnd as [Hx Hnd]. rewrite updateRules_cons in Hr.
  destruct (decide (id x = i)) as [E|E].
  - destruct Hr as [<-|Hr]; [reflexivity|]. exfalso. apply Hx.
    apply list_elem_of_In, in_map_iff. exists r. split; [congruence | exact Hr].
  - destruct Hr as [<-|Hr]; [contradiction|]. now apply IH.
Qed.

Lemma take_app_take {A} (n : nat) (a b : list A) :
  take n (a ++ take n b) = take n (a ++ b).
Proof.
  rewrite !take_app, take_take. f_equal. f_equal. lia.
Qed.

Lemma fold_save_closed {A} (es l : list A) :
  (length l <= 100)%nat ->
  fold_left (fun l n => take 100 (n :: l)) es l = take 100 (rev es ++ l).
Proof.
  revert l. induction es as [|e es IH]; intros l Hl; cbn [fold_left rev].
  - symmetry. now apply take_ge.
  - rewrite IH.
    + rewrite <- app_assoc. apply (take_app_take 100 (rev es) (e :: l)).
    + rewrite length_take. lia.
Qed.

Lemma touch_keeps r j now rules :
  id r <> j -> In r rules -> In r (touch j now rules).
Proof.
  intros Hj. induction rules as [|x rules IH]; intros Hr; [destruct Hr|].
  rewrite touch_cons. destruct (decide (id x = j)) as [E|E].
  - destruct Hr as [->|Hr]; [contradiction | now right].
  - destruct Hr as [->|Hr]; [now left | right; now apply IH].
Qed.

Lemma NoDup_id_inj (rules : list WatchRule) r r' :
  NoDup (map id rules) -> In r rules -> In r' rules -> id r = id r' -> r = r'.
Proof.
  induction rules as [|x rules IH]; intros Hnd Hr Hr' E; [destruct Hr|].
  simpl in Hnd. apply NoDup_cons in Hnd as [Hx Hnd].
  destruct Hr as [->|Hr], Hr' as [->|Hr']; [reflexivity| | |now apply IH].
  - exfalso. apply Hx. apply list_elem_of_In, in_map_iff. now exists r'.
  - exfalso. apply Hx. apply list_elem_of_In, in_map_iff. now exists r.
Qed.

Lemma erase_lastTriggered r r' now :
  erase r' = erase r -> lastTriggered r' = Some now ->
  r' = merge r (lastTriggeredUpdate now).
Proof.
  destruct r, r'. unfold erase, merge. simpl. intros E ->. now inversion E.
Qed.

Section Calls.

Variable ToNumber : string -> option Q.

Abbreviation fires := (WatchSpec.fires ToNumber).
Abbreviation checkPair := (WatchService.checkPair ToNumber).
Abbreviation checkCondition := (WatchService.checkCondition ToNumber).
Abbreviation checkWatchConditions := (WatchService.checkWatchConditions ToNumber).
Abbreviation checkAllWatchRules := (WatchService.checkAllWatchRules ToNumber).
Abbreviation emitted := (WatchSpec.emitted ToNumber).
Abbreviation perRule := (WatchSpec.perRule ToNumber).
Abbreviation perRules := (WatchSpec.perRules ToNumber).
Abbreviation notified := (WatchStore.notified ToNumber).

(** X9. After a rule has been disabled with [updateWatchRule], in a store
    whose rule ids are distinct, a call of [checkAllWatchRules] emits no
    notification for that rule, whatever the assets are. *)
Theorem X9_disabled_rule_is_silent (i : string) (now : Z) (coins : list CoinData) (w : World) :
  NoDup (map id (watch_rules w)) ->
  forall n, In n (emitted now coins (updateWatchRule i (enabledUpdate false) w)) ->
            watchRuleId n <> i.
Proof.
  intros Hnd n Hn Hi.
  apply (In_emitted ToNumber) in Hn as (rule & coin & Hr & _ & Hf & ->).
  rewrite updateWatchRule_updateRules in Hr.
  apply (fires_enabled ToNumber) in Hf.
  rewrite (disabled_after_update i (watch_rules w) Hnd rule Hr Hi) in Hf. discriminate.
Qed.

Lemma checkWatchConditions_true rule coin :
  checkWatchConditions rule coin = true ->
  enabled rule = true /\ inScope rule coin /\ conditions rule <> [] /\
  forall c, In c (conditions rule) -> checkCondition c coin = true.
Proof.
  unfold WatchService.checkWatchConditions, inScope.
  destruct (enabled rule); [|discriminate]. simpl.
  destruct (coinSymbols rule) as [[|s l]|] eqn:Es; simpl.
  - destruct (conditions rule) as [|c cs]; [discriminate|]. intros H.
    repeat split; [discriminate|]. now apply forallb_forall.
  - destruct (negb _) eqn:Ein; [discriminate|]. apply negb_false_iff in Ein.
    destruct (conditions rule) as [|c cs]; [discriminate|]. intros H.
    split; [reflexivity|]. split.
    + unfold includes in Ein. simpl in Ein. apply orb_true_iff in Ein as [Ey|Ey].
      * left. now apply String.eqb_eq.
      * right. apply existsb_exists in Ey as (y & Hy & Ey).
        apply String.eqb_eq in Ey. now subst y.
    + split; [discriminate|]. now apply forallb_forall.
  - destruct (conditions rule) as [|c cs]; [discriminate|]. intros H.
    repeat split; [discriminate|]. now apply forallb_forall.
Qed.

(** X10. Every notification a call emits is for a stored rule and an asset
    of the call such that the rule is enabled, the asset is in its scope, the
    rule has at least one condition and all its conditions hold on the
    asset, the asset has an analysis with statistics, and the rule was not
    triggered in the last 60 seconds; the notification carries the time of
    the call and is unread. *)
Theorem X10_emitted_only_on_match (now : Z) (coins : list CoinData) (w : World)
    (n : WatchNotification) :
  In n (emitted now coins w) ->
  exists rule coin a st,
    In rule (watch_rules w) /\ In coin coins /\
    n = newNotification now rule coin /\ triggeredAt n = now /\ read n = false /\
    enabled rule = true /\ inScope rule coin /\ conditions rule <> [] /\
    (forall c, In c (conditions rule) -> checkCondition c coin = true) /\
    analysis coin = Some a /\ stats a = Some st /\
    (forall t, lastTriggered rule = Some t -> (60000 <= now - t)%Z).
Proof.
  intros Hn. apply (In_emitted ToNumber) in Hn as (rule & coin & Hr & Hc & Hf & ->).
  apply andb_true_iff in Hf as [Hm Hcd].
  destruct (checkWatchConditions_true rule coin Hm) as (He & Hs & Hne & Hall).
  assert (Ha : exists a st, analysis coin = Some a /\ stats a = Some st).
  { destruct (conditions rule) as [|c cs] eqn:Ec; [congruence|].
    specialize (Hall c (or_introl eq_refl)).
    destruct (analysis coin) as [a|] eqn:Ea.
    - destruct (stats a) as [st|] eqn:Est; [now exists a, st|].
      rewrite (checkCondition_noAssessment ToNumber c coin) in Hall; [discriminate|].
      unfold noAssessment. now rewrite Ea.
    - rewrite (checkCondition_noAssessment ToNumber c coin) in Hall; [discriminate|].
      unfold noAssessment. now rewrite Ea. }
  destruct Ha as (a & st & Ea & Est).
  exists rule, coin, a, st. repeat split; try assumption.
  intros t Ht. now apply (cooledDown_iff now rule t Ht).
Qed.

Lemma emitted_flat_map now coins w :
  emitted now coins w
  = flat_map (fun rule => map (newNotification now rule) (List.filter (fires now rule) coins))
             (List.filter (fun r => enabled r) (watch_rules w)).
Proof.
  unfold WatchSpec.emitted.
  now rewrite (checkAllWatchRules_loops ToNumber), (perRules_inApp ToNumber), drop_app_length.
Qed.

Lemma updateWatchRule_history i u w :
  watch_notifications (updateWatchRule i u w) = watch_notifications w.
Proof.
  unfold updateWatchRule. destruct (list_find _ _) as [[k x]|]; reflexivity.
Qed.

Lemma checkPair_history now rule coin w :
  watch_notifications (checkPair now rule coin w)
  = if fires now rule coin
    then take 100 (newNotification now rule coin :: watch_notifications w)
    else watch_notifications w.
Proof.
  unfold WatchService.checkPair, WatchSpec.fires.
  destruct (WatchService.checkWatchConditions ToNumber rule coin); simpl; [|reflexivity].
  destruct (cooledDown now rule); [|reflexivity].
  unfold triggerNotification. now rewrite updateWatchRule_history.
Qed.

Lemma perRule_history now rule coins w :
  watch_notifications (perRule now coins rule w)
  = fold_left (fun l n => take 100 (n :: l))
              (map (newNotification now rule) (List.filter (fires now rule) coins))
              (watch_notifications w).
Proof.
  unfold WatchSpec.perRule. revert w. induction coins as [|c cs IH]; intros w; simpl.
  - reflexivity.
  - rewrite IH, checkPair_history. destruct (fires now rule c); reflexivity.
Qed.

Lemma perRules_history now coins rs w :
  watch_notifications (perRules now coins rs w)
  = fold_left (fun l n => take 100 (n :: l))
              (flat_map (fun rule => map (newNotification now rule)
                                         (List.filter (fires now rule) coins)) rs)
              (watch_notifications w).
Proof.
  unfold WatchSpec.perRules. revert w. induction rs as [|r rs IH]; intros w; simpl.
  - reflexivity.
  - rewrite fold_left_app, IH. f_equal. apply perRule_history.
Qed.

(** X11. A call puts the notifications it emits in front of the stored
    history, the latest first, and keeps the first 100 entries: a history of
    at most 100 entries stays one of at most 100 entries. *)
Theorem X11_history_newest_first (now : Z) (coins : list CoinData) (w : World) :
  (length (watch_notifications w) <= 100)%nat ->
  watch_notifications (checkAllWatchRules now coins w)
  = take 100 (rev (emitted now coins w) ++ watch_notifications w) /\
  (length (watch_notifications (checkAllWatchRules now coins w)) <= 100)%nat.
Proof.
  intros Hl.
  assert (E : watch_notifications (checkAllWatchRules now coins w)
              = take 100 (rev (emitted now coins w) ++ watch_notifications w)).
  { rewrite (checkAllWatchRules_loops ToNumber), perRules_history, emitted_flat_map.
    now apply fold_save_closed. }
  split; [exact E|]. rewrite E, length_take. lia.
Qed.

Lemma checkPair_noop now rule coin w : fires now rule coin = false -> checkPair now rule coin w = w.
Proof.
  unfold WatchService.checkPair, WatchSpec.fires.
  destruct (WatchService.checkWatchConditions ToNumber rule coin); [|reflexivity].
  simpl. now intros ->.
Qed.

Lemma perRules_noop now coins rs w :
  (forall rule coin, In rule rs -> In coin coins -> fires now rule coin = false) ->
  perRules now coins rs w = w.
Proof.
  unfold WatchSpec.perRules. induction rs as [|r rs IH]; intros H; simpl; [reflexivity|].
  assert (E : perRule now coins r w = w).
  { assert (Hr : forall coin, In coin coins -> fires now r coin = false).
    { intros coin. apply H. now left. }
    clear H IH. unfold WatchSpec.perRule. induction coins as [|c cs IHc]; simpl; [reflexivity|].
    rewrite checkPair_noop by (apply Hr; now left).
    apply IHc. intros coin Hc. apply Hr. now right. }
  rewrite E. apply IH. intros rule coin Hr. apply H. now right.
Qed.

(** X12. A call that emits no notification leaves the store, the history
    and the delivered notifications exactly as they were; so does every call
    on an empty list of assets. *)
Theorem X12_silent_call_changes_nothing (now : Z) (coins : list CoinData) (w : World) :
  (emitted now coins w = [] -> checkAllWatchRules now coins w = w) /\
  checkAllWatchRules now [] w = w.
Proof.
  split.
  - intros He. rewrite (checkAllWatchRules_loops ToNumber). apply perRules_noop.
    intros rule coin Hr Hc. apply filter_In in Hr as [Hr _].
    destruct (fires now rule coin) eqn:Hf; [|reflexivity].
    assert (Hn : In (newNotification now rule coin) (emitted now coins w)).
    { apply (In_emitted ToNumber). now exists rule, coin. }
    rewrite He in Hn. destruct Hn.
  - rewrite (checkAllWatchRules_loops ToNumber). apply perRules_noop.
    intros rule coin _ [].
Qed.

(** X13. In a store whose rule ids are distinct, a call records its time
    as the last trigger of every rule it notified for and leaves every other
    rule as it was; the rules keep their number, their order and all their
    other fields. *)
Theorem X13_store_after_call (now : Z) (coins : list CoinData) (w : World) :
  NoDup (map id (watch_rules w)) ->
  map erase (watch_rules (checkAllWatchRules now coins w)) = map erase (watch_rules w) /\
  forall r, In r (watch_rules w) ->
    In (if notified now coins r then merge r (lastTriggeredUpdate now) else r)
       (watch_rules (checkAllWatchRules now coins w)).
Proof.
  intros Hnd.
  assert (He : map erase (watch_rules (checkAllWatchRules now coins w))
               = map erase (watch_rules w)).
  { rewrite (checkAllWatchRules_loops ToNumber). apply (perRules_erase ToNumber). }
  split; [exact He|]. intros r Hr.
  destruct (notified now coins r) eqn:En; unfold WatchStore.notified in En.
  - apply andb_true_iff in En as [Hen Hex]. apply existsb_exists in Hex as (coin & Hc & Hf).
    assert (Hlast : lastTriggeredIs (id r) now (watch_rules (checkAllWatchRules now coins w))).
    { rewrite (checkAllWatchRules_loops ToNumber).
      apply (perRules_sets ToNumber now coins _ w r coin); try assumption.
      apply filter_In. now split. }
    assert (Hin : In (erase r) (map erase (watch_rules (checkAllWatchRules now coins w)))).
    { rewrite He. now apply in_map. }
    apply in_map_iff in Hin as (r' & Er & Hr').
    unfold lastTriggeredIs in Hlast. rewrite Forall_forall in Hlast.
    assert (Hlt : lastTriggered r' = Some now).
    { apply Hlast; [now apply list_elem_of_In|].
      change (id r') with (id (erase r')). now rewrite Er. }
    now rewrite <- (erase_lastTriggered r r' now Er Hlt).
  - rewrite (checkAllWatchRules_loops ToNumber).
    apply (perRules_invariant ToNumber (fun rules => In r rules)); [|exact Hr].
    intros rule coin rules Hrule Hc Hf Hin. apply touch_keeps; [|exact Hin].
    intros Hid. apply filter_In in Hrule as [Hrule Hen].
    assert (E : r = rule) by now apply (NoDup_id_inj (watch_rules w)).
    subst rule. rewrite Hen in En. simpl in En.
    apply not_true_iff_false in En. apply En, existsb_exists. now exists coin.
Qed.

(** X14. In a store whose rule ids are distinct, a call that receives each
    asset once emits at most one notification for each pair of a rule and an
    asset. *)
Theorem X14_once_per_pair (now : Z) (coins : list CoinData) (w : World) :
  NoDup (map id (watch_rules w)) -> NoDup (map symbol coins) ->
  NoDup (map pairOf (emitted now coins w)).
Proof. apply (emitted_once_per_pair ToNumber). Qed.

End Calls.

Lemma X9_disabled_rule_is_silent_witness :
  Forall (fun n => watchRuleId n <> "watch_1")
         (WatchSpec.emitted noNumber 1000000 market
            (updateWatchRule "watch_1" (enabledUpdate false) oneRule)).
Proof.
  apply Forall_forall. intros n Hn. apply list_elem_of_In in Hn. revert n Hn.
  apply (X9_disabled_rule_is_silent noNumber). apply NoDup_singleton.
Defined.

Lemma X10_emitted_only_on_match_witness :
  exists rule coin a st,
    In rule (watch_rules oneRule) /\ In coin market /\
    newNotification 1000000 (ruleOf None [priceAbove5]) (eth (Some mediumRisk))
    = newNotification 1000000 rule coin /\
    triggeredAt (newNotification 1000000 (ruleOf None [priceAbove5]) (eth (Some mediumRisk)))
    = 1000000%Z /\
    read (newNotification 1000000 (ruleOf None [priceAbove5]) (eth (Some mediumRisk))) = false /\
    enabled rule = true /\ inScope rule coin /\ conditions rule <> [] /\
    (forall c, In c (conditions rule) -> WatchService.checkCondition noNumber c coin = true) /\
    analysis coin = Some a /\ stats a = Some st /\
    (forall t, lastTriggered rule = Some t -> (60000 <= 1000000 - t)%Z).
Proof.
  apply (X10_emitted_only_on_match noNumber 1000000 market oneRule).
  vm_compute. left. reflexivity.
Defined.

Lemma X11_history_newest_first_witness :
  watch_notifications (WatchService.checkAllWatchRules noNumber 1000000 market oneRule)
  = take 100 (rev (WatchSpec.emitted noNumber 1000000 market oneRule)
              ++ watch_notifications oneRule) /\
  (length (watch_notifications (WatchService.checkAllWatchRules noNumber 1000000 market oneRule))
   <= 100)%nat.
Proof. apply (X11_history_newest_first noNumber). simpl. lia. Defined.

Lemma X12_silent_call_changes_nothing_witness :
  WatchService.checkAllWatchRules noNumber 1000000 [sol 3] oneRule = oneRule.
Proof.
  destruct (X12_silent_call_changes_nothing noNumber 1000000 [sol 3] oneRule) as [H _].
  apply H. reflexivity.
Defined.

Lemma X13_store_after_call_witness :
  In (merge (ruleOf None [priceAbove5]) (lastTriggeredUpdate 1000000))
     (watch_rules (WatchService.checkAllWatchRules noNumber 1000000 market oneRule)).
Proof.
  destruct (X13_store_after_call noNumber 1000000 market oneRule) as [_ H];
    [apply NoDup_singleton|].
  apply (H (ruleOf None [priceAbove5])). now left.
Defined.

Lemma X14_once_per_pair_witness :
  NoDup (map pairOf (WatchSpec.emitted noNumber 1000000 market oneRule)).
Proof.
  apply (X14_once_per_pair noNumber).
  - apply NoDup_singleton.
  - apply NoDup_cons. split; [|apply NoDup_singleton].
    intros H. apply list_elem_of_In in H. destruct H as [H|[]]. discriminate H.
Defined.

End WatchCallFacts.

(** ** Properties of the callers *)

Module AppFacts.
Import Js JsFacts WatchService WatchSpec WatchFacts App.

Local Open Scope string_scope.
Local Open Scope list_scope.

Lemma push_closed (es prev : list WatchNotification) :
  (length prev <= 5)%nat ->
  fold_left (fun prev n => pushNotification n prev) es prev = take 5 (rev es ++ prev).
Proof.
  revert prev. induction es as [|e es IH]; intros prev Hl; cbn [fold_left rev].
  - symmetry. now apply take_ge.
  - rewrite IH.
    + rewrite <- app_assoc. unfold pushNotification.
      change (e :: take 4 prev) with (take 5 (e :: prev)).
      apply (WatchCallFacts.take_app_take 5 (rev es) (e :: prev)).
    + unfold pushNotification. simpl. rewrite length_take. lia.
Qed.

Section Effect.

Variable ToNumber : string -> option Q.

Abbreviation watchEffect := (App.watchEffect ToNumber).

(** The test of the watch effect. *)
Lemma every_coin_analysed (coins : list CoinData) :
  Nat.ltb 0 (length coins) && forallb (fun coin => is_Some_bool (analysis coin)) coins = true
  <-> coins <> [] /\ Forall (fun coin => analysis coin <> None) coins.
Proof.
  rewrite andb_true_iff, Nat.ltb_lt, forallb_forall, List.Forall_forall.
  split; intros [Hne Hall]; split.
  - intros ->. simpl in Hne. lia.
  - intros coin Hin. specialize (Hall coin Hin). now destruct (analysis coin).
  - destruct coins; [congruence | simpl; lia].
  - intros coin Hin. specialize (Hall coin Hin). now destruct (analysis coin).
Qed.

(** X15. When the list of coins is not empty and every coin has an
    analysis, the watch effect evaluates the rules, and the toasts become
    the notifications of the call, the latest first, followed by the
    earlier toasts, cut to 5.  When the list is empty or a coin has no
    analysis the effect changes nothing.  In both cases a list of at most
    5 toasts does not grow beyond 5. *)
Theorem X15_at_most_five_toasts (now : Z) (coins : list CoinData) (st : State) :
  (length (notifications st) <= 5)%nat ->
  (length (notifications (watchEffect now coins st)) <= 5)%nat /\
  (coins <> [] -> Forall (fun coin => analysis coin <> None) coins ->
     world (watchEffect now coins st) = checkAllWatchRules ToNumber now coins (world st) /\
     notifications (watchEffect now coins st)
     = take 5 (rev (emitted ToNumber now coins (world st)) ++ notifications st)) /\
  (coins = [] \/ Exists (fun coin => analysis coin = None) coins ->
     watchEffect now coins st = st).
Proof.
  intros Hl. pose proof (every_coin_analysed coins) as Hgate. unfold App.watchEffect.
  destruct (Nat.ltb 0 (length coins) && forallb _ coins).
  - destruct Hgate as [[Hne Hall] _]; [reflexivity|]. simpl.
    rewrite (push_closed _ _ Hl). split; [|split].
    + rewrite length_take. lia.
    + intros _ _. split; reflexivity.
    + intros [E|Hex]; [contradiction|]. exfalso.
      rewrite List.Exists_exists in Hex. destruct Hex as (coin & Hin & Hnone).
      rewrite List.Forall_forall in Hall. exact (Hall coin Hin Hnone).
  - split; [exact Hl|]. split; [|reflexivity].
    intros Hne Hall. destruct Hgate as [_ Hgate].
    specialize (Hgate (conj Hne Hall)). discriminate Hgate.
Qed.

(** X16. The watch effect evaluates the rules only when the list of coins
    is not empty and every coin has an analysis.  So when [analyzeCoinSignal]
    finds neither news nor social data for one coin of the cycle, no rule is
    evaluated for any coin: the store, the history and the toasts stay as
    they are. *)
Theorem X16_one_failed_analysis_stops_the_watch (now : Z)
    (currentCoins : list (CoinData * Responses)) (st : State) :
  (exists coin r, In (coin, r) currentCoins /\ newsStats r = None /\ socialStats r = None) ->
  watchEffect now (runAIAnalysis currentCoins) st = st.
Proof.
  intros (coin & r & Hin & Hn & Hs). unfold App.watchEffect.
  assert (E : forallb (fun coin => is_Some_bool (analysis coin)) (runAIAnalysis currentCoins)
              = false).
  { apply not_true_iff_false. intros H. rewrite forallb_forall in H.
    specialize (H (withAnalysis coin
                     (GeminiService.analyzeCoinSignal coin (newsStats r) (socialStats r)
                        (riskData r) (coinMarketData r)))).
    rewrite Hn, Hs in H. simpl in H. assert (false = true); [|discriminate].
    apply H. unfold runAIAnalysis. apply in_map_iff. exists (coin, r).
    split; [|exact Hin]. now rewrite Hn, Hs. }
  rewrite E, andb_false_r. reflexivity.
Qed.

End Effect.

Lemma X15_at_most_five_toasts_witness :
  notifications (App.watchEffect noNumber 1000000 market startState)
  = [newNotification 1000000 (ruleOf None [priceAbove5]) (eth (Some mediumRisk))] /\
  App.watchEffect noNumber 1000000 (eth None :: market) startState = startState.
Proof.
  destruct (X15_at_most_five_toasts noNumber 1000000 market startState)
    as (_ & Hrun & _); [simpl; lia|].
  destruct (X15_at_most_five_toasts noNumber 1000000 (eth None :: market) startState)
    as (_ & _ & Hskip); [simpl; lia|].
  split.
  - destruct Hrun as [_ Hrun]; [discriminate | repeat constructor; discriminate|].
    rewrite Hrun. vm_compute. reflexivity.
  - apply Hskip. right. left. reflexivity.
Defined.

Lemma X16_one_failed_analysis_stops_the_watch_witness :
  App.watchEffect noNumber 1000000
    (runAIAnalysis [(eth None, newsResponse); (sol 9, noResponses)]) startState
  = startState.
Proof.
  apply (X16_one_failed_analysis_stops_the_watch noNumber).
  exists (sol 9), noResponses. split; [right; now left | split; reflexivity].
Defined.

End AppFacts.

(** ** The assessments of [analyzeCoinSignal] under the rule evaluator *)

Module PipelineFacts.
Import Js JsFacts GeminiService GeminiSpec WatchService WatchSpec WatchFacts PipelineSpec.

Local Open Scope string_scope.

Lemma analyzeCoinSignal_Some coin newsStats socialStats riskData coinMarketData a :
  analyzeCoinSignal coin newsStats socialStats riskData coinMarketData = Some a ->
  stats a = Some (statsOf newsStats socialStats coinMarketData) /\
  riskLevel a = Some (default "LOW" (snd (backendRisk riskData))) /\
  riskScore a = Some (default (-1) (fst (backendRisk riskData))).
Proof.
  unfold analyzeCoinSignal.
  destruct (negb (is_Some_bool newsStats || is_Some_bool socialStats)); [discriminate|].
  destruct (backendRisk riskData) as [overallScore riskLevel].
  intros H. injection H as <-. repeat split.
Qed.

Lemma compareValues_Qeq a a' op t : a == a' -> compareValues a op t = compareValues a' op t.
Proof.
  intros E. unfold compareValues.
  assert (Hle : forall x y x' y', x == x' -> y == y' -> Qle_bool x y = Qle_bool x' y').
  { intros x y x' y' Ex Ey. now rewrite Ex, Ey. }
  assert (Hsub : match JsDouble.sub a t with
                 | Some difference => ltb (Math_abs difference) JsDouble.d0_01
                 | None => false
                 end
                 = match JsDouble.sub a' t with
                   | Some difference => ltb (Math_abs difference) JsDouble.d0_01
                   | None => false
                   end).
  { apply eq_true_iff_eq. rewrite !DoubleFacts.abs_sub_lt_0_01. now rewrite E. }
  rewrite Hsub. unfold gtb, geb, ltb, leb.
  rewrite (Hle t a t a'), (Hle a t a' t); try reflexivity; assumption.
Qed.

Section Evaluator.

Variable ToNumber : string -> option Q.

Abbreviation checkCondition := (WatchService.checkCondition ToNumber).
Abbreviation checkWatchConditions := (WatchService.checkWatchConditions ToNumber).
Abbreviation compareWithValue := (WatchService.compareWithValue ToNumber).

Lemma compareWithValue_Qeq a a' op v :
  a == a' -> compareWithValue a op v = compareWithValue a' op v.
Proof.
  intros E. unfold WatchService.compareWithValue.
  destruct v as [t|s]; [now apply compareValues_Qeq|].
  destruct (ToNumber s); [now apply compareValues_Qeq | reflexivity].
Qed.

Lemma failing_condition rule coin c :
  In c (conditions rule) -> checkCondition c coin = false ->
  checkWatchConditions rule coin = false.
Proof.
  intros Hc Hf. unfold WatchService.checkWatchConditions.
  destruct (negb (enabled rule)); [reflexivity|].
  destruct (match coinSymbols rule with Some _ => _ | None => _ end); [reflexivity|].
  destruct (Nat.eqb _ 0); [reflexivity|].
  apply not_true_iff_false. intros H. rewrite forallb_forall in H.
  rewrite (H c Hc) in Hf. discriminate.
Qed.

(** X17. The statistics that [analyzeCoinSignal] builds carry no risk
    tags.  So a [news_risk_tag] condition is false on every asset whose
    analysis comes from [analyzeCoinSignal], and a rule that has such a
    condition matches none of them. *)
Theorem X17_tag_conditions_never_match coin newsStats socialStats riskData coinMarketData
    (a : AIAnalysisResult) (coin' : CoinData) :
  analyzeCoinSignal coin newsStats socialStats riskData coinMarketData = Some a ->
  analysis coin' = Some a ->
  (forall c, type c = "news_risk_tag" -> checkCondition c coin' = false) /\
  (forall rule c, In c (conditions rule) -> type c = "news_risk_tag" ->
     checkWatchConditions rule coin' = false).
Proof.
  intros Ha Hc.
  assert (H : forall c, type c = "news_risk_tag" -> checkCondition c coin' = false).
  { intros c Ht. apply analyzeCoinSignal_Some in Ha as (Hst & _ & _).
    unfold WatchService.checkCondition. rewrite Hc, Hst, Ht. cbn.
    destruct (negb (truthy (riskTag c))); [reflexivity|].
    destruct newsStats; reflexivity. }
  split; [exact H|]. intros rule c Hin Ht.
  apply (failing_condition rule coin' c Hin). now apply H.
Qed.

(** X18. In an assessment of [analyzeCoinSignal] the change of active
    addresses is always 0, and the netflow is the volume share of the market
    response, or 0 without one.  So an [onchain_active_address] condition
    compares the threshold with 0, whatever the asset is. *)
Theorem X18_active_address_change_is_zero coin newsStats socialStats riskData coinMarketData
    (a : AIAnalysisResult) (coin' : CoinData) :
  analyzeCoinSignal coin newsStats socialStats riskData coinMarketData = Some a ->
  analysis coin' = Some a ->
  (exists st, stats a = Some st /\
     OnChain.activeAddressChange (onChain st) == 0 /\
     OnChain.netflowPercent (onChain st)
     == match coinMarketData with Some d => volume_percentage d | None => 0 end) /\
  (forall c, type c = "onchain_active_address" ->
     checkCondition c coin' = compareWithValue 0 (operator c) (value c)).
Proof.
  intros Ha Hc. apply analyzeCoinSignal_Some in Ha as (Hst & _ & _).
  assert (Haa : OnChain.activeAddressChange (onChain (statsOf newsStats socialStats coinMarketData))
                == 0).
  { destruct coinMarketData; reflexivity. }
  split.
  - eexists. split; [exact Hst|]. split; [exact Haa|].
    destruct coinMarketData as [d|]; [|reflexivity]. simpl. unfold orNumber.
    destruct (eqb (volume_percentage d) 0) eqn:E; [|reflexivity].
    apply eqb_eq in E. now rewrite E.
  - intros c Ht. unfold WatchService.checkCondition. rewrite Hc, Hst, Ht. cbn.
    now apply compareWithValue_Qeq.
Qed.

(** X19. Without a score from the backend, the assessment of
    [analyzeCoinSignal] satisfies no [risk_score] and no [risk_level]
    condition, whatever the operator and the threshold are. *)
Theorem X19_no_backend_score_no_risk_match coin newsStats socialStats riskData coinMarketData
    (a : AIAnalysisResult) (coin' : CoinData) (c : WatchCondition) :
  analyzeCoinSignal coin newsStats socialStats riskData coinMarketData = Some a ->
  analysis coin' = Some a ->
  (forall r, riskData = Some r -> overall_risk_score r = None) ->
  type c = "risk_score" \/ type c = "risk_level" ->
  checkCondition c coin' = false.
Proof.
  intros Ha Hc Hr Ht. apply analyzeCoinSignal_Some in Ha as (Hst & Hl & Hs).
  assert (Hb : backendRisk riskData = (None, None)).
  { unfold backendRisk. destruct riskData as [r|]; [|reflexivity].
    now rewrite (Hr r eq_refl). }
  rewrite Hb in Hl, Hs. simpl in Hl, Hs.
  unfold WatchService.checkCondition. rewrite Hc, Hst.
  destruct Ht as [Ht|Ht]; rewrite Ht, ?Hl, ?Hs; reflexivity.
Qed.

(** X20. When the backend gives a score but no level, the level of the
    assessment is LOW, MEDIUM or HIGH, never EXTREME; so a [risk_level]
    condition that asks for EXTREME with [>], [>=] or [==] is false on it. *)
Theorem X20_thresholds_never_extreme coin newsStats socialStats riskData coinMarketData
    (a : AIAnalysisResult) (coin' : CoinData) (c : WatchCondition) :
  analyzeCoinSignal coin newsStats socialStats riskData coinMarketData = Some a ->
  analysis coin' = Some a ->
  (forall r, riskData = Some r -> risk_level r = None \/ risk_level r = Some "") ->
  (riskLevel a = Some "LOW" \/ riskLevel a = Some "MEDIUM" \/ riskLevel a = Some "HIGH") /\
  (type c = "risk_level" -> value c = VStr "EXTREME" ->
   operator c = ">" \/ operator c = ">=" \/ operator c = "==" ->
   checkCondition c coin' = false).
Proof.
  intros Ha Hc Hr. apply analyzeCoinSignal_Some in Ha as (Hst & Hl & Hs).
  assert (Hlev : riskLevel a = Some "LOW" \/ riskLevel a = Some "MEDIUM"
                 \/ riskLevel a = Some "HIGH").
  { rewrite Hl. unfold backendRisk. destruct riskData as [r|]; [|now left].
    destruct (overall_risk_score r) as [o|]; [|now left].
    assert (E : snd (Some o, match risk_level r with
                              | Some l => if l =? "" then Some (levelOf o) else Some l
                              | None => Some (levelOf o)
                              end) = Some (levelOf o)).
    { destruct (Hr r eq_refl) as [-> | ->]; reflexivity. }
    rewrite E. simpl. unfold levelOf.
    destruct (geb o 70); [now right; right|]. destruct (geb o 40); [now right; left | now left]. }
  split; [exact Hlev|]. intros Ht Hv Hop.
  unfold WatchService.checkCondition. rewrite Hc, Hst, Ht, Hv.
  destruct Hlev as [E|[E|E]]; rewrite E; cbn;
    destruct (match riskScore a with Some s => eqb s (-1) | None => false end);
    try reflexivity;
    destruct Hop as [-> |[-> | ->]]; reflexivity.
Qed.

(** X21. A [risk_level] condition whose threshold is not one of the four
    level names (a number, or any other string) takes the ordinal 0 as its
    target: with [>] or [>=] it holds on every assessment that has one of the
    four levels, except the unavailable form (LOW with the score -1). *)
Theorem X21_unknown_level_matches_all (c : WatchCondition) (coin : CoinData)
    (a : AIAnalysisResult) (st : AnalysisStats) (l : string) :
  analysis coin = Some a -> stats a = Some st ->
  type c = "risk_level" ->
  operator c = ">" \/ operator c = ">=" ->
  getRiskLevelValueOf (value c) = 0 ->
  riskLevel a = Some l ->
  l = "LOW" \/ l = "MEDIUM" \/ l = "HIGH" \/ l = "EXTREME" ->
  ~ (l = "LOW" /\ exists s, riskScore a = Some s /\ s == -1) ->
  checkCondition c coin = true.
Proof.
  intros Ha Hst Ht Hop Hv Hl Hlev Hn.
  unfold WatchService.checkCondition. rewrite Ha, Hst, Ht, Hl, Hv.
  destruct Hlev as [-> |[-> |[-> | ->]]]; cbn;
    try (destruct Hop as [-> | ->]; reflexivity).
  destruct (riskScore a) as [s|] eqn:Es; [|destruct Hop as [-> | ->]; reflexivity].
  destruct (eqb s (-1)) eqn:E; [|destruct Hop as [-> | ->]; reflexivity].
  exfalso. apply Hn. split; [reflexivity|]. exists s. split; [reflexivity|].
  now apply eqb_eq.
Qed.

End Evaluator.

Lemma X17_tag_conditions_never_match_witness :
  WatchService.checkCondition noNumber hackTag (eth (Some analysedNews)) = false.
Proof.
  destruct (X17_tag_conditions_never_match noNumber btc (Some newsOnly) None
              (Some backend55) None analysedNews (eth (Some analysedNews)))
    as [H _]; [reflexivity | reflexivity |].
  apply H. reflexivity.
Defined.

Lemma X18_active_address_change_is_zero_witness :
  WatchService.checkCondition noNumber addressesUp (eth (Some analysedNews))
  = WatchService.compareWithValue noNumber 0 ">" (VNum 0).
Proof.
  destruct (X18_active_address_change_is_zero noNumber btc (Some newsOnly) None
              (Some backend55) None analysedNews (eth (Some analysedNews)))
    as [_ H]; [reflexivity | reflexivity |].
  apply (H addressesUp). reflexivity.
Defined.

Lemma X19_no_backend_score_no_risk_match_witness :
  WatchService.checkCondition noNumber levelIsLow (eth (Some unscoredNews)) = false.
Proof.
  apply (X19_no_backend_score_no_risk_match noNumber btc (Some newsOnly) None None None
           unscoredNews (eth (Some unscoredNews)) levelIsLow).
  - reflexivity.
  - reflexivity.
  - intros r H. discriminate H.
  - right. reflexivity.
Defined.

Lemma X20_thresholds_never_extreme_witness :
  WatchService.checkCondition noNumber isExtreme (eth (Some analysedNews)) = false.
Proof.
  destruct (X20_thresholds_never_extreme noNumber btc (Some newsOnly) None
              (Some backend55) None analysedNews (eth (Some analysedNews)) isExtreme)
    as [_ H]; [reflexivity | reflexivity | |].
  - intros r E. injection E as <-. now left.
  - apply H; [reflexivity | reflexivity |]. right. right. reflexivity.
Defined.

Lemma X21_unknown_level_matches_all_witness :
  WatchService.checkCondition noNumber aboveNumber (eth (Some mediumRisk)) = true.
Proof.
  apply (X21_unknown_level_matches_all noNumber aboveNumber (eth (Some mediumRisk))
           mediumRisk someStats "MEDIUM"); try reflexivity.
  - now left.
  - right. now left.
  - intros [E _]. discriminate E.
Defined.

End PipelineFacts.

(** ** Properties of the summary *)

Module SummaryFacts.
Import Js JsFacts GptAnalysisService.

Local Open Scope string_scope.

(** Case analysis on a comparison, turning each outcome into the
    inequality it stands for. *)
Ltac case_ltb a b := let E := fresh "E" in
  destruct (ltb a b) eqn:E; [apply ltb_lt in E | apply ltb_ge in E].
Ltac case_gtb a b := let E := fresh "E" in
  destruct (gtb a b) eqn:E; [apply gtb_gt in E | apply ltb_ge in E].
Ltac case_leb a b := let E := fresh "E" in
  destruct (leb a b) eqn:E; [apply leb_le in E | apply leb_gt in E].
Ltac case_geb a b := let E := fresh "E" in
  destruct (geb a b) eqn:E; [apply geb_ge in E | apply leb_gt in E].

Ltac case_string a b := let E := fresh "E" in
  destruct (String.eqb a b) eqn:E; [apply String.eqb_eq in E | apply String.eqb_neq in E].

(** X22. [generateDefaultSummary] never returns its text about a price
    crash or an on-chain anomaly at high risk: where the function tests for
    it, a large price drop and a high netflow have both been answered by an
    earlier [return]. *)
Theorem X22_unreachable_high_risk_text (data : AnalysisData) :
  crashOrOnChainText (generateDefaultSummary data) = false.
Proof.
  unfold generateDefaultSummary. cbv zeta.
  destruct (ltb (priceChange data) (-5)); [|destruct (gtb (priceChange data) 5)].
  - destruct (_ || _); [reflexivity|]. destruct (onChain data) as [o|]; [|reflexivity].
    destruct (gtb _ 20); reflexivity.
  - destruct (gtb _ _); [reflexivity|]. destruct (_ && _); reflexivity.
  - destruct (_ && _); [destruct (_ || _); reflexivity|].
    destruct (_ && _); [reflexivity|].
    destruct (onChain data) as [o|].
    + destruct (gtb (Math_abs (Chain.netflowPercent o)) 20); [reflexivity|].
      destruct (_ && _); [reflexivity|].
      destruct (ltb _ _); [reflexivity|]. destruct (gtb _ _); [reflexivity|].
      destruct (_ =? "LOW"); [destruct (_ && _); reflexivity|].
      destruct (_ =? "MEDIUM"); [destruct (_ || _); reflexivity|].
      destruct (_ || _); reflexivity.
    + destruct (_ =? "LOW"); [destruct (_ && _); reflexivity|].
      destruct (_ =? "MEDIUM"); [destruct (_ || _); reflexivity|].
      destruct (_ || _); reflexivity.
Qed.

(** X23. The size of the price move decides the kind of summary before any
    other signal: the summary is one of the three crash texts exactly when
    the price fell by more than 5 percent, one of the three rally texts
    exactly when it rose by more than 5 percent, and one of the texts for a
    moderate move exactly when it moved by more than 2 and at most 5
    percent. *)
Theorem X23_price_move_comes_first (data : AnalysisData) :
  (aboutCrash (generateDefaultSummary data) = true <-> priceChange data < -5) /\
  (aboutRally (generateDefaultSummary data) = true <-> 5 < priceChange data) /\
  (aboutModerateMove (generateDefaultSummary data) = true <->
     (-5 <= priceChange data /\ priceChange data < -2) \/
     (2 < priceChange data /\ priceChange data <= 5)).
Proof.
  unfold generateDefaultSummary. cbv zeta.
  case_ltb (priceChange data) (-5); case_gtb (priceChange data) 5;
  case_ltb (priceChange data) (-2); case_geb (priceChange data) (-5);
  case_gtb (priceChange data) 2; case_leb (priceChange data) 5;
  try (exfalso; lra); cbn [andb orb];
  repeat match goal with
         | |- context [if ?b then _ else _] => destruct b
         end;
  cbn [aboutCrash aboutRally aboutModerateMove];
  (split; [|split]); split; intros H; try reflexivity; try discriminate H;
  try lra; try (exfalso; lra); try (destruct H; lra).
Qed.

(** X24. The summary is one of the texts chosen by the risk level exactly
    when the price moved by at most 2 percent and no on-chain figure passes a
    threshold (netflow within 10 percent, active addresses within 15 percent,
    or no on-chain data).  Then the level LOW gives a low-risk text, MEDIUM a
    medium-risk text, and every other level, EXTREME or an unknown name
    included, a high-risk text. *)
Theorem X24_level_texts (data : AnalysisData) :
  (lowKind (generateDefaultSummary data) || mediumKind (generateDefaultSummary data)
   || highKind (generateDefaultSummary data) = true <->
     -2 <= priceChange data /\ priceChange data <= 2 /\ quietChain data) /\
  (lowKind (generateDefaultSummary data) = true ->
     Risk.riskLevel (riskScore data) = "LOW") /\
  (mediumKind (generateDefaultSummary data) = true ->
     Risk.riskLevel (riskScore data) = "MEDIUM") /\
  (highKind (generateDefaultSummary data) = true ->
     Risk.riskLevel (riskScore data) <> "LOW" /\
     Risk.riskLevel (riskScore data) <> "MEDIUM").
Proof.
  unfold generateDefaultSummary, quietChain. cbv zeta.
  case_ltb (priceChange data) (-5); case_gtb (priceChange data) 5;
  case_ltb (priceChange data) (-2); case_geb (priceChange data) (-5);
  case_gtb (priceChange data) 2; case_leb (priceChange data) 5;
  try (exfalso; lra); cbn [andb orb];
  destruct (onChain data) as [o|];
  try (pose proof (Math_abs_Qabs (Chain.netflowPercent o));
       case_gtb (Math_abs (Chain.netflowPercent o)) 20;
       case_gtb (Math_abs (Chain.netflowPercent o)) 10;
       case_leb (Math_abs (Chain.netflowPercent o)) 20;
       case_ltb (Chain.activeAddressChange o) (-15);
       case_gtb (Chain.activeAddressChange o) 15;
       try (exfalso; lra); cbn [andb orb]);
  case_string (Risk.riskLevel (riskScore data)) "LOW";
  case_string (Risk.riskLevel (riskScore data)) "MEDIUM";
  repeat match goal with
         | |- context [if ?b then _ else _] => destruct b
         end;
  cbn [lowKind mediumKind highKind orb];
  (split; [split; [intros HK; try discriminate HK; repeat split; lra
                  | intros (H1 & H2 & H3); try reflexivity; exfalso; lra]
          |split; [|split]]);
  intros HK; try discriminate HK; try assumption; try (split; assumption);
  try (split; congruence); try congruence.
Qed.

Section Truncation.

Variable render : Summary -> JsString.

Abbreviation generateComprehensiveAnalysis :=
  (GptAnalysisService.generateComprehensiveAnalysis render).

Local Open Scope list_scope.

(** X25. When the completion service answers with success, the summary
    returned has at most 100 code units: a longer text is cut to its first 97
    code units followed by three dots.  In every other case (no API key, an
    exception, a response that is not ok) the default summary is returned as
    it is, without the cut. *)
Theorem X25_summary_cut_to_100 (apiKey : option JsString) (content : option JsString)
    (data : AnalysisData) :
  nonEmpty apiKey = true ->
  (length (generateComprehensiveAnalysis apiKey (Answered true content) data) <= 100)%nat /\
  (forall c, content = Some c -> (0 < length c <= 100)%nat ->
     generateComprehensiveAnalysis apiKey (Answered true content) data = c) /\
  (forall c, content = Some c -> (100 < length c)%nat ->
     generateComprehensiveAnalysis apiKey (Answered true content) data = take 97 c ++ dots) /\
  generateComprehensiveAnalysis apiKey Threw data = render (generateDefaultSummary data) /\
  generateComprehensiveAnalysis apiKey (Answered false content) data
  = render (generateDefaultSummary data) /\
  (forall reply, generateComprehensiveAnalysis None reply data
                 = render (generateDefaultSummary data)).
Proof.
  intros Hk. unfold GptAnalysisService.generateComprehensiveAnalysis. rewrite Hk. simpl.
  split; [|split; [|split; [|split; [|split]]]]; try reflexivity.
  - destruct (100 <? length _)%nat eqn:E.
    + rewrite length_app, length_take. change (length dots) with 3%nat. lia.
    + apply Nat.ltb_ge in E. exact E.
  - intros c -> [Hc Hl]. destruct c as [|x c]; [simpl in Hc; lia|].
    change (nonEmpty (Some (x :: c))) with true. cbv iota.
    change (default [] (Some (x :: c))) with (x :: c).
    assert (E : (100 <? length (x :: c))%nat = false) by (apply Nat.ltb_ge; lia).
    now rewrite E.
  - intros c -> Hl. destruct c as [|x c]; [simpl in Hl; lia|].
    change (nonEmpty (Some (x :: c))) with true. cbv iota.
    change (default [] (Some (x :: c))) with (x :: c).
    assert (E : (100 <? length (x :: c))%nat = true) by (apply Nat.ltb_lt; lia).
    now rewrite E.
Qed.

End Truncation.

Lemma X25_summary_cut_to_100_witness :
  (length (GptAnalysisService.generateComprehensiveAnalysis (fun _ => []) (Some [65%N])
             (Answered true (Some (repeat 66%N 150))) crashData) <= 100)%nat.
Proof.
  apply (X25_summary_cut_to_100 (fun _ => []) (Some [65%N]) (Some (repeat 66%N 150)) crashData).
  reflexivity.
Defined.

End SummaryFacts.

(** ** Properties of the notification history *)

Module HistoryFacts.
Import NotificationHistory.

Local Open Scope string_scope.
Local Open Scope list_scope.

Lemma mark_cons i n l :
  markNotificationAsRead i (n :: l) =
    if decide (entry_id n = i) then asRead n :: l else n :: markNotificationAsRead i l.
Proof.
  unfold markNotificationAsRead, loadNotifications. simpl.
  destruct (decide (entry_id n = i)); [reflexivity|].
  destruct (list_find _ l) as [[k x]|]; reflexivity.
Qed.

Lemma asRead_asRead n : asRead (asRead n) = asRead n.
Proof. reflexivity. Qed.

Lemma mark_first i l1 n l2 :
  entry_id n = i -> (forall x, In x l1 -> entry_id x <> i) ->
  markNotificationAsRead i (l1 ++ n :: l2) = l1 ++ asRead n :: l2.
Proof.
  intros Hn Hl1. induction l1 as [|x l1 IH]; simpl.
  - rewrite mark_cons. destruct (decide (entry_id n = i)); [reflexivity | contradiction].
  - rewrite mark_cons. destruct (decide (entry_id x = i)) as [E|E].
    + exfalso. apply (Hl1 x); [now left | exact E].
    + f_equal. apply IH. intros y Hy. apply Hl1. now right.
Qed.

Lemma mark_unknown i stored :
  (forall x, In x stored -> entry_id x <> i) -> markNotificationAsRead i stored = stored.
Proof.
  induction stored as [|x l IH]; intros H; [reflexivity|].
  rewrite mark_cons. destruct (decide (entry_id x = i)) as [E|E].
  - exfalso. apply (H x); [now left | exact E].
  - f_equal. apply IH. intros y Hy. apply H. now right.
Qed.

Lemma mark_shape i stored :
  map asRead (markNotificationAsRead i stored) = map asRead stored.
Proof.
  induction stored as [|x l IH]; [reflexivity|].
  rewrite mark_cons. destruct (decide (entry_id x = i)); simpl; [reflexivity|].
  now rewrite IH.
Qed.

Lemma In_deleteNotification i stored x :
  In x (deleteNotification i stored) <-> In x stored /\ entry_id x <> i.
Proof.
  unfold deleteNotification, loadNotifications.
  rewrite filter_In, negb_true_iff, String.eqb_neq. reflexivity.
Qed.

(** X26. [markNotificationAsRead] marks the first stored notification that
    has the id and nothing else: the notifications before it and after it
    stay as they are, also a later one with the same id; no notification is
    lost, added or made unread; marking again changes nothing more; and with
    an id that no stored notification has, nothing changes. *)
Theorem X26_mark_first_as_read (i : string) (stored : list Entry) :
  (forall l1 n l2, stored = l1 ++ n :: l2 -> entry_id n = i ->
     (forall x, In x l1 -> entry_id x <> i) ->
     markNotificationAsRead i stored = l1 ++ asRead n :: l2) /\
  ((forall x, In x stored -> entry_id x <> i) -> markNotificationAsRead i stored = stored) /\
  map asRead (markNotificationAsRead i stored) = map asRead stored /\
  Forall2 (fun before after => isRead before = true -> isRead after = true)
          stored (markNotificationAsRead i stored) /\
  markNotificationAsRead i (markNotificationAsRead i stored) = markNotificationAsRead i stored.
Proof.
  split; [|split; [|split; [|split]]].
  - intros l1 n l2 -> Hn Hl1. now apply mark_first.
  - apply mark_unknown.
  - apply mark_shape.
  - induction stored as [|x l IH]; [constructor|].
    rewrite mark_cons. destruct (decide (entry_id x = i)).
    + constructor; [reflexivity|]. clear. induction l; constructor; auto.
    + constructor; [auto | exact IH].
  - induction stored as [|x l IH]; [reflexivity|].
    rewrite mark_cons. destruct (decide (entry_id x = i)) as [E|E].
    + rewrite mark_cons. change (entry_id (asRead x)) with (entry_id x).
      destruct (decide (entry_id x = i)); [reflexivity | contradiction].
    + rewrite mark_cons. destruct (decide (entry_id x = i)); [contradiction|].
      now rewrite IH.
Qed.

Lemma X26_mark_first_as_read_witness :
  markNotificationAsRead "n2" [entry "n1" false; entry "n2" false; entry "n2" false]
  = [entry "n1" false] ++ asRead (entry "n2" false) :: [entry "n2" false].
Proof.
  destruct (X26_mark_first_as_read "n2" [entry "n1" false; entry "n2" false; entry "n2" false])
    as [H _].
  apply H; [reflexivity | reflexivity |].
  intros x [<-|[]]. discriminate.
Defined.

(** X27. The stored history never holds more than 100 notifications:
    saving keeps the new notification and the 99 latest ones before it,
    and marking as read and deleting never lengthen the history.  Deleting
    removes every notification that has the id, so that marking that id as
    read afterwards finds nothing. *)
Theorem X27_history_capacity (n : Entry) (i : string) (stored : list Entry) :
  (length (saveNotification n stored) <= 100)%nat /\
  saveNotification n stored = n :: take 99 stored /\
  length (markNotificationAsRead i stored) = length stored /\
  (length (deleteNotification i stored) <= length stored)%nat /\
  (forall x, In x (deleteNotification i stored) <-> In x stored /\ entry_id x <> i) /\
  markNotificationAsRead i (deleteNotification i stored) = deleteNotification i stored.
Proof.
  split; [|split; [|split; [|split; [|split]]]].
  - unfold saveNotification. rewrite length_take. lia.
  - reflexivity.
  - rewrite <- (length_map asRead (markNotificationAsRead i stored)), mark_shape.
    apply length_map.
  - unfold deleteNotification, loadNotifications. apply List.filter_length_le.
  - intros x. apply In_deleteNotification.
  - apply mark_unknown. intros x Hx. now apply In_deleteNotification in Hx.
Qed.

End HistoryFacts.

(** ** Properties of the latest candle *)

Module CandleFacts.
Import Js JsFacts JsMore BinanceService.

Local Open Scope string_scope.
Local Open Scope list_scope.

Lemma Math_max_ge_l a b : a <= Math_max a b.
Proof.
  unfold Math_max. destruct (leb a b) eqn:E; [now apply leb_le in E | lra].
Qed.

Lemma Math_max_ge_r a b : b <= Math_max a b.
Proof.
  unfold Math_max. destruct (leb a b) eqn:E; [lra|]. apply leb_gt in E. lra.
Qed.

Lemma last_snoc_inv {A} (l : list A) (x : A) :
  last l = Some x -> exists l', l = l' ++ [x].
Proof.
  intros H. destruct l as [|a l] using rev_ind; [discriminate|].
  rewrite last_snoc in H. injection H as ->. now exists l.
Qed.

(** X28. Bringing the candles up to the latest price changes the last
    candle at most: either one candle with the current label is added, or,
    when the last candle has that label, it is replaced; the earlier candles
    stay as they are.  The last candle returned has the latest price as its
    close, and that close lies between its low and its high. *)
Theorem X28_latest_candle (candleData : list CandleData) (currentTimeLabel : string)
    (currentPrice : Q) :
  exists earlier c,
    withCurrentPrice candleData currentTimeLabel currentPrice = earlier ++ [c] /\
    (earlier = candleData \/ exists replaced, candleData = earlier ++ [replaced]
                                              /\ time replaced = currentTimeLabel
                                              /\ open c = open replaced) /\
    time c = currentTimeLabel /\ close c = currentPrice /\ closeInRange c.
Proof.
  unfold withCurrentPrice. destruct (last candleData) as [lastData|] eqn:El.
  - destruct (negb (time lastData =? currentTimeLabel)) eqn:Et.
    + eexists. eexists. split; [reflexivity|]. split; [now left|].
      repeat split; simpl; lra.
    + apply negb_false_iff, String.eqb_eq in Et.
      destruct (last_snoc_inv _ _ El) as (earlier & ->).
      exists earlier. eexists. split.
      * rewrite length_app. simpl.
        replace (length earlier + 1 - 1)%nat with (length earlier + 0)%nat by lia.
        rewrite insert_app_r. reflexivity.
      * split; [right; exists lastData; now repeat split|].
        split; [exact Et|]. split; [reflexivity|]. split; simpl.
        -- apply Math_min_le_r.
        -- apply Math_max_ge_r.
  - eexists. eexists. split; [reflexivity|]. split; [now left|].
    repeat split; simpl; lra.
Qed.

End CandleFacts.

(** ** Conditions the evaluator does not know *)

Module UnknownFacts.
Import Js JsFacts WatchService WatchSpec WatchFacts WatchStore PipelineFacts.

Local Open Scope string_scope.

Lemma compareValues_unknown a op t :
  ~ In op knownOperators -> compareValues a op t = false.
Proof.
  intros H. unfold compareValues.
  repeat match goal with
         | |- context [op =? ?k] =>
             let E := fresh "E" in
             destruct (op =? k) eqn:E;
             [apply String.eqb_eq in E; exfalso; apply H; rewrite E; simpl; tauto|]
         end.
  reflexivity.
Qed.

Section Evaluator.

Variable ToNumber : string -> option Q.

Abbreviation checkCondition := (WatchService.checkCondition ToNumber).
Abbreviation checkWatchConditions := (WatchService.checkWatchConditions ToNumber).

Lemma compareWithValue_unknown a op v :
  ~ In op knownOperators -> WatchService.compareWithValue ToNumber a op v = false.
Proof.
  intros H. unfold WatchService.compareWithValue. destruct v as [t|s].
  - now apply compareValues_unknown.
  - destruct (ToNumber s); [now apply compareValues_unknown | reflexivity].
Qed.

(** X29. A condition whose type is not one of the seven known types is
    false on every asset, and so is a condition of a comparing type (any type
    but [news_risk_tag], which reads no operator) whose operator is not one
    of [>], [<], [>=], [<=], [==]; a rule that contains such a condition
    matches no asset. *)
Theorem X29_unknown_type_or_operator (rule : WatchRule) (c : WatchCondition) (coin : CoinData) :
  In c (conditions rule) ->
  ~ In (type c) knownTypes \/
  (type c <> "news_risk_tag" /\ ~ In (operator c) knownOperators) ->
  checkCondition c coin = false /\ checkWatchConditions rule coin = false.
Proof.
  intros Hc H.
  assert (Hf : checkCondition c coin = false).
  { unfold WatchService.checkCondition.
    destruct (analysis coin) as [a|]; [|reflexivity].
    destruct (stats a) as [st|]; [|reflexivity]. cbv zeta.
    destruct H as [Ht|[Ht Hop]].
    - repeat match goal with
             | |- context [type c =? ?k] =>
                 let E := fresh "E" in
                 destruct (type c =? k) eqn:E;
                 [apply String.eqb_eq in E; exfalso; apply Ht; rewrite E; simpl; tauto|]
             end.
      reflexivity.
    - destruct (type c =? "news_risk_tag") eqn:E0;
        [apply String.eqb_eq in E0; contradiction|].
      pose proof (compareValues_unknown) as Hv.
      pose proof (compareWithValue_unknown) as Hw.
      destruct (type c =? "social_negative");
        [destruct (eqb _ 0); [reflexivity | now apply Hw]|].
      destruct (type c =? "onchain_netflow"); [now apply Hw|].
      destruct (type c =? "onchain_active_address"); [now apply Hw|].
      destruct (type c =? "price_change");
        [destruct (change24h coin); [now apply Hw | reflexivity]|].
      destruct (type c =? "risk_score");
        [destruct (riskScore a) as [s|]; [|reflexivity];
         destruct (eqb s (-1)); [reflexivity | now apply Hw]|].
      destruct (type c =? "risk_level"); [|reflexivity].
      destruct (riskLevel a) as [l|]; [|reflexivity].
      destruct (_ || _); [reflexivity | now apply Hv]. }
  split; [exact Hf|]. now apply (failing_condition ToNumber rule coin c).
Qed.

End Evaluator.

Lemma X29_unknown_type_or_operator_witness :
  WatchService.checkCondition noNumber oddOperator (eth (Some mediumRisk)) = false /\
  WatchService.checkWatchConditions noNumber (ruleOf None [priceAbove5; oddOperator])
                                    (eth (Some mediumRisk)) = false.
Proof.
  apply (X29_unknown_type_or_operator noNumber (ruleOf None [priceAbove5; oddOperator])).
  - right. now left.
  - right. split; [discriminate|]. simpl. intros H.
    repeat (destruct H as [H|H]; [discriminate H|]). exact H.
Defined.

End UnknownFacts.
